(** * vladobot: the scheduling and digest-generation pipeline

    A shallow embedding of the chat schedule registry ([scheduler.ts]), the
    digest generator ([summarizer.ts]), the text backend gate ([llm.ts]), the
    transcript path of the speech-to-text service ([stt.ts]) and the part of
    the message store they query ([storage.ts]), followed by the properties the
    specification states about them.

    Conventions.  A JavaScript string is a [string] (a sequence of bytes; SQLite
    compares TEXT with the same byte order).  A [Date] is its time value, the
    number of milliseconds since the epoch, as a [Z].  A [Map<string, _>] is a
    [gmap string _].  Code that can throw returns a [result]; code with side
    effects threads the state it touches explicitly. *)

From Stdlib Require Import ZArith NArith Ascii String List Lia Bool DecimalString.
From stdpp Require Import gmap strings list sorting.

Open Scope string_scope.

(** ** Regular expressions, as far as [validateTimeFormat] needs them *)

Module Regex.

(** The fragment of the JavaScript pattern language used by the source:
    character classes that are ranges, concatenation, alternation and [?]. *)
Inductive re : Type :=
| Never : re
| Eps : re
| Range : ascii -> ascii -> re
| Seq : re -> re -> re
| Alt : re -> re -> re.

Definition Chr (c : ascii) : re := Range c c.
Definition Opt (r : re) : re := Alt r Eps.

Definition in_range (lo hi c : ascii) : bool :=
  ((N_of_ascii lo <=? N_of_ascii c) && (N_of_ascii c <=? N_of_ascii hi))%N.

Fixpoint nullable (r : re) : bool :=
  match r with
  | Never => false
  | Eps => true
  | Range _ _ => false
  | Seq r1 r2 => nullable r1 && nullable r2
  | Alt r1 r2 => nullable r1 || nullable r2
  end.

(** Brzozowski derivative: the pattern for what may follow [c]. *)
Fixpoint deriv (c : ascii) (r : re) : re :=
  match r with
  | Never => Never
  | Eps => Never
  | Range lo hi => if in_range lo hi c then Eps else Never
  | Seq r1 r2 =>
      if nullable r1 then Alt (Seq (deriv c r1) r2) (deriv c r2)
      else Seq (deriv c r1) r2
  | Alt r1 r2 => Alt (deriv c r1) (deriv c r2)
  end.

(** [matches r s]: the whole of [s] matches [r], which is what
    [/^r$/.test(s)] decides (no flags, so [$] is the end of the input). *)
Fixpoint matches (r : re) (s : string) : bool :=
  match s with
  | EmptyString => nullable r
  | String c s' => matches (deriv c r) s'
  end.

(** The language of a pattern, to reason about [matches]. *)
Inductive lang : re -> string -> Prop :=
| lang_eps : lang Eps ""
| lang_range lo hi c : in_range lo hi c = true -> lang (Range lo hi) (String c "")
| lang_seq r1 r2 s1 s2 : lang r1 s1 -> lang r2 s2 -> lang (Seq r1 r2) (s1 +:+ s2)
| lang_alt_l r1 r2 s : lang r1 s -> lang (Alt r1 r2) s
| lang_alt_r r1 r2 s : lang r2 s -> lang (Alt r1 r2) s.

End Regex.

(** ** [SchedulerService.validateTimeFormat] *)

(** [/^([0-1]?[0-9]|2[0-3]):[0-5][0-9]$/] *)
Definition timeRegex : Regex.re :=
  Regex.Seq
    (Regex.Alt
       (Regex.Seq (Regex.Opt (Regex.Range "0" "1")) (Regex.Range "0" "9"))
       (Regex.Seq (Regex.Chr "2") (Regex.Range "0" "3")))
    (Regex.Seq (Regex.Chr ":")
       (Regex.Seq (Regex.Range "0" "5") (Regex.Range "0" "9"))).

Definition validateTimeFormat (time : string) : bool :=
  Regex.matches timeRegex time.

(** Decimal digits, for stating what the pattern accepts. *)
Definition digit (n : nat) : ascii := ascii_of_nat (48 + n).
Definition one_digit (n : nat) : string := String (digit n) "".
Definition two_digits (n : nat) : string :=
  String (digit (n / 10)) (String (digit (n mod 10)) "").

(** An hour 0-23 in one or two digits, a colon, a minute 00-59 in two. *)
Definition is_report_time (s : string) : Prop :=
  exists h m : nat,
    h <= 23 /\ m <= 59 /\
    (s = two_digits h +:+ ":" +:+ two_digits m \/
     (h <= 9 /\ s = one_digit h +:+ ":" +:+ two_digits m)).

(** The matcher run on a time of day, in both spellings of the hour where
    it has two. *)
Definition accepts_time (h m : nat) : bool :=
  validateTimeFormat (two_digits h +:+ ":" +:+ two_digits m)
  && (if (h <=? 9)%nat then validateTimeFormat (one_digit h +:+ ":" +:+ two_digits m)
      else true).

(** ** Results of code that can throw *)

(** A JavaScript [Error] is kept as its [message]. *)
Inductive result (A : Type) : Type :=
| Ok : A -> result A
| Throw : string -> result A.
Arguments Ok {A} _.
Arguments Throw {A} _.

Definition is_throw {A : Type} (r : result A) : bool :=
  match r with Ok _ => false | Throw _ => true end.

(** JavaScript truthiness of a [string | null] value. *)
Definition truthy (o : option string) : bool :=
  match o with
  | Some s => negb (String.eqb s "")
  | None => false
  end.

(** [haystack] has [needle] as a contiguous part. *)
Definition contains (needle haystack : string) : Prop :=
  exists pre post : string, haystack = pre +:+ needle +:+ post.

(** ** Numbers as text *)

(** [`${n}`] for a non-negative integer below 10^21: its decimal digits. *)
Definition natToString (n : nat) : string :=
  NilZero.string_of_uint (Nat.to_uint n).

(** [s.padStart(w, '0')] *)
Fixpoint zeros (k : nat) : string :=
  match k with
  | O => ""
  | S k' => String "0" (zeros k')
  end.

Definition padStart (w : nat) (s : string) : string :=
  zeros (w - String.length s) +:+ s.

(** ** The [Date] built-in

    A [Date] is its time value in milliseconds since 1970-01-01T00:00:00Z.
    The host's zone gives the offset of local time from UTC (milliseconds,
    positive east of Greenwich), which may change from one instant to another
    where the zone has daylight saving time. *)

Module JsDate.

Open Scope Z_scope.

Definition msPerDay : Z := 86400000.

Definition Day (t : Z) : Z := t / msPerDay.
Definition TimeWithinDay (t : Z) : Z := t mod msPerDay.

Definition MakeTime (h m s ms : Z) : Z :=
  ((h * 60 + m) * 60 + s) * 1000 + ms.
Definition MakeDate (day time : Z) : Z := day * msPerDay + time.

(** The zone of the host: [offsetAt t] is the offset in force at the instant
    [t] ([LocalTZA(t, true)]), [offsetOfLocal l] the offset taken for the
    local time value [l] ([LocalTZA(l, false)]; where a local time is skipped
    or repeated by a change of offset the host picks one). *)
Record Zone : Type := mkZone {
  offsetAt : Z -> Z;
  offsetOfLocal : Z -> Z
}.

(** A zone that keeps one offset all year. *)
Definition fixed (offset : Z) : Zone := mkZone (fun _ => offset) (fun _ => offset).

Definition LocalTime (tz : Zone) (t : Z) : Z := t + offsetAt tz t.
Definition UTC (tz : Zone) (l : Z) : Z := l - offsetOfLocal tz l.

(** [d.setHours(h, m, s, ms)]: same local day, the given local time. *)
Definition setHours (tz : Zone) (t : Z) (h m s ms : Z) : Z :=
  UTC tz (MakeDate (Day (LocalTime tz t)) (MakeTime h m s ms)).

(** [d.setDate(d.getDate() - days)] for a whole number of days: the local
    day that many days before, same local time ([MakeDay] of the year, the
    month and the date minus [days] is the day number minus [days]). *)
Definition setDateBack (tz : Zone) (t : Z) (days : Z) : Z :=
  let l := LocalTime tz t in
  UTC tz (MakeDate (Day l - days) (TimeWithinDay l)).

(** [d.setDate(d.getDate() - 1)] *)
Definition setDatePrev (tz : Zone) (t : Z) : Z := setDateBack tz t 1.

(** A calendar date. *)
Record civil : Type := Civil { year : Z; month : Z; day : Z }.

(** The calendar date of a day number (days since 1970-01-01), in the
    proleptic Gregorian calendar. *)
Definition civil_from_days (z : Z) : civil :=
  let z := z + 719468 in
  let era := z / 146097 in
  let doe := z - era * 146097 in
  let yoe := (doe - doe / 1460 + doe / 36524 - doe / 146096) / 365 in
  let doy := doe - (365 * yoe + yoe / 4 - yoe / 100) in
  let mp := (5 * doy + 2) / 153 in
  let d := doy - (153 * mp + 2) / 5 + 1 in
  let m := if mp <? 10 then mp + 3 else mp - 9 in
  let y := yoe + era * 400 + (if m <=? 2 then 1 else 0) in
  Civil y m d.

(** The calendar date on which instant [t] falls in a zone of offset [off]. *)
Definition dateInZone (off : Z) (t : Z) : civil :=
  civil_from_days (Day (t + off)).

(** The date shown by [getFullYear]/[getMonth]/[getDate] on the host. *)
Definition localDate (tz : Zone) (t : Z) : civil := civil_from_days (Day (LocalTime tz t)).

Definition field (w : nat) (n : Z) : string :=
  padStart w (natToString (Z.to_nat n)).

(** Years 0 to 9999 print as four digits, the others signed with six. *)
Definition yearString (y : Z) : string :=
  if (0 <=? y) && (y <=? 9999) then field 4 y
  else if y <? 0 then "-" +:+ field 6 (- y)
  else "+" +:+ field 6 y.

(** [d.toISOString()]: [YYYY-MM-DDTHH:mm:ss.sssZ], in UTC. *)
Definition toISOString (t : Z) : string :=
  let c := civil_from_days (Day t) in
  let r := TimeWithinDay t in
  yearString (year c) +:+ "-" +:+ field 2 (month c) +:+ "-" +:+ field 2 (day c)
  +:+ "T" +:+ field 2 (r / 3600000) +:+ ":" +:+ field 2 (r / 60000 mod 60)
  +:+ ":" +:+ field 2 (r / 1000 mod 60) +:+ "." +:+ field 3 (r mod 1000) +:+ "Z".

(** The time value of a calendar date and a time of day, in UTC; the
    inverse of [civil_from_days], used to write instants down. *)
Definition days_from_civil (y m d : Z) : Z :=
  let y := if m <=? 2 then y - 1 else y in
  let era := y / 400 in
  let yoe := y - era * 400 in
  let mp := if m <=? 2 then m + 9 else m - 3 in
  let doy := (153 * mp + 2) / 5 + d - 1 in
  let doe := yoe * 365 + yoe / 4 - yoe / 100 + doy in
  era * 146097 + doe - 719468.

Definition utcInstant (y m d h mi s ms : Z) : Z :=
  MakeDate (days_from_civil y m d) (MakeTime h mi s ms).

End JsDate.

(** ** The message store ([storage.ts])

    Each table is kept with the key its [UNIQUE] constraint names: chats by
    [chat_id], users by [user_id], transcripts by [(message_id, file_id)].
    Messages are a list in row order.  Of the columns the engine fills in
    itself only [created_at] of a message is kept, the one the queries read. *)

Inductive MessageType : Type :=
| text | photo | video | voice | audio | video_note | sticker | document.

Module Chat.
Record t : Type := mk {
  chat_id : string;
  title : string;
  type : string;
  report_time : string;
  timezone : string;
  target_username : string;
  is_active : bool
}.
End Chat.

Module User.
Record t : Type := mk {
  user_id : string;
  username : option string;
  first_name : string;
  last_name : option string;
  is_opted_out : bool
}.
End User.

Module Message.
Record t : Type := mk {
  chat_id : string;
  message_id : string;
  user_id : string;
  message_type : MessageType;
  content : option string;
  file_id : option string;
  file_path : option string;
  reply_to_message_id : option string;
  created_at : string
}.
End Message.

Module Transcript.
Record t : Type := mk {
  message_id : string;
  file_id : string;
  transcript_text : string;
  language : option string;
  duration : option Z
}.
End Transcript.

Record Db : Type := mkDb {
  chats : gmap string Chat.t;
  users : gmap string User.t;
  messages : list Message.t;
  transcripts : gmap (string * string) Transcript.t
}.

(** A row of [SELECT m.*, u.username, u.first_name, u.last_name,
    u.is_opted_out FROM messages m JOIN users u]. *)
Definition Row : Type := (Message.t * User.t)%type.

Definition getChat (d : Db) (chatId : string) : option Chat.t :=
  chats d !! chatId.

(** [UPDATE users SET is_opted_out = ? WHERE user_id = ?], as the engine
    runs it once its parameters are bound. *)
Definition setUserOptOut_statement (d : Db) (userId : string) (isOptedOut : bool) : Db :=
  mkDb (chats d)
       (alter (fun u => User.mk (User.user_id u) (User.username u)
                          (User.first_name u) (User.last_name u) isOptedOut)
              userId (users d))
       (messages d) (transcripts d).

(** [WHERE m.chat_id = ? AND m.created_at >= ? AND m.created_at < ?], for
    timestamps and bounds that are TEXT to the engine, as the timestamps
    [CURRENT_TIMESTAMP] writes and the bounds [toISOString] gives are: TEXT
    values are compared byte by byte.  (A bound that reads as a number is
    compared as a number; no caller passes one.) *)
Definition in_date_range (chatId startDate endDate : string) (m : Message.t) : bool :=
  String.eqb (Message.chat_id m) chatId
  && String.leb startDate (Message.created_at m)
  && String.ltb (Message.created_at m) endDate.

(** [JOIN users u ON m.user_id = u.user_id] *)
Definition join_user (us : gmap string User.t) (m : Message.t) : option Row :=
  match us !! Message.user_id m with
  | Some u => Some (m, u)
  | None => None
  end.

(** [ORDER BY m.created_at ASC], rows with equal keys staying in row order. *)
Fixpoint insert_row (r : Row) (l : list Row) : list Row :=
  match l with
  | [] => [r]
  | x :: l' =>
      if String.leb (Message.created_at (fst r)) (Message.created_at (fst x))
      then r :: x :: l'
      else x :: insert_row r l'
  end.

Fixpoint order_by_created_at (l : list Row) : list Row :=
  match l with
  | [] => []
  | r :: l' => insert_row r (order_by_created_at l')
  end.

Definition getMessagesForDateRange (d : Db) (chatId startDate endDate : string)
  : list Row :=
  order_by_created_at
    (omap (join_user (users d))
          (List.filter (in_date_range chatId startDate endDate) (messages d))).

Definition getTranscript (d : Db) (messageId fileId : string) : option Transcript.t :=
  transcripts d !! (messageId, fileId).

(** [INSERT INTO transcripts ... RETURNING *]: a plain insert, so a second
    row for the same [(message_id, file_id)] violates the [UNIQUE]
    constraint; the statement throws and the table is as it was. *)
Definition insertTranscript (d : Db) (tr : Transcript.t) : result Transcript.t * Db :=
  let k := (Transcript.message_id tr, Transcript.file_id tr) in
  match transcripts d !! k with
  | Some _ =>
      (Throw "UNIQUE constraint failed: transcripts.message_id, transcripts.file_id", d)
  | None =>
      (Ok tr, mkDb (chats d) (users d) (messages d) (<[k := tr]> (transcripts d)))
  end.

(** [FOREIGN KEY (user_id) REFERENCES users(user_id)], which the engine
    enforces ([foreign_keys = ON]): the author of a stored message has a row. *)
Definition foreign_keys (d : Db) : Prop :=
  forall m : Message.t, m ∈ messages d -> is_Some (users d !! Message.user_id m).

(** ** Messages as handed to the text backend ([llm.ts]) *)

Record ProcessedUser : Type := mkProcessedUser {
  username : option string;
  firstName : string;
  lastName : option string
}.

Module ProcessedMessage.
Record t : Type := mk {
  id : string;
  user : ProcessedUser;
  type : MessageType;
  content : option string;
  transcript : option string;
  timestamp : string;
  replyTo : option string
}.
End ProcessedMessage.

Record SummaryContext : Type := mkSummaryContext {
  chatTitle : string;
  date : string;
  totalMessages : nat;
  targetUsername : string
}.

(** ** The outside world

    What the services answer is not the program's to decide: an [Env] says,
    for the [k]-th outside call of a run, what that call returns.  The run
    records the calls it makes, oldest first. *)

Inductive Call : Type :=
| CallModelsList : Call
| CallChatCompletion : list ProcessedMessage.t -> SummaryContext -> Call
| CallSendMessage : string -> string -> bool -> Call
| CallWhisper : string -> Call.

Record Env : Type := mkEnv {
  (** [client.models.list()] succeeds *)
  modelsList : nat -> bool;
  (** [client.chat.completions.create] for the prompt built from the
      messages and the context: the content of the first choice, or throws *)
  chatCompletion : nat -> list ProcessedMessage.t -> SummaryContext -> result (option string);
  (** [bot.telegram.sendMessage(chatId, text)]: [None] when delivered,
      the error thrown otherwise *)
  sendMessage : nat -> string -> string -> option string;
  (** [openai.audio.transcriptions.create] on a file *)
  whisper : nat -> string -> result string;
  (** [fs.stat(path).size] *)
  fileSize : string -> result Z;
  (** the ffmpeg conversion, giving the path of the MP3 *)
  convertToMp3 : string -> result string;
  (** [date.toLocaleDateString('ru-RU')] *)
  toLocaleDateString : Z -> string
}.

(** ** Program state *)

Inductive Provider : Type := OpenAIProvider | FallbackProvider.

(** A task made by [cron.schedule]: the callback's captured chat, the cron
    expression, the zone option and whether the task is started. *)
Record ScheduledTask : Type := mkTask {
  task_id : nat;
  task_chat : Chat.t;
  task_expression : string;
  task_timezone : string;
  task_running : bool
}.

Record World : Type := mkWorld {
  db : Db;
  (** [SchedulerService.cronJobs], a task being named by its [task_id] *)
  cronJobs : gmap string nat;
  (** every task made so far, oldest first *)
  tasks : list ScheduledTask;
  (** [LLMProviderFactory.instance] *)
  instance : option Provider;
  (** [DailySummarizer.llmProvider] *)
  llmProvider : option Provider;
  (** outside calls made so far, oldest first *)
  calls : list Call;
  (** [logger.error] entries, oldest first: the event and the error's message *)
  errors : list (string * string)
}.

Definition set_db (d : Db) (w : World) : World :=
  mkWorld d (cronJobs w) (tasks w) (instance w) (llmProvider w) (calls w) (errors w).
Definition set_cronJobs (m : gmap string nat) (w : World) : World :=
  mkWorld (db w) m (tasks w) (instance w) (llmProvider w) (calls w) (errors w).
Definition set_tasks (ts : list ScheduledTask) (w : World) : World :=
  mkWorld (db w) (cronJobs w) ts (instance w) (llmProvider w) (calls w) (errors w).
Definition set_instance (p : option Provider) (w : World) : World :=
  mkWorld (db w) (cronJobs w) (tasks w) p (llmProvider w) (calls w) (errors w).
Definition set_llmProvider (p : option Provider) (w : World) : World :=
  mkWorld (db w) (cronJobs w) (tasks w) (instance w) p (calls w) (errors w).
Definition set_calls (cs : list Call) (w : World) : World :=
  mkWorld (db w) (cronJobs w) (tasks w) (instance w) (llmProvider w) cs (errors w).
Definition set_errors (es : list (string * string)) (w : World) : World :=
  mkWorld (db w) (cronJobs w) (tasks w) (instance w) (llmProvider w) (calls w) es.

(** The state before anything ran, over a given store. *)
Definition initialWorld (d : Db) : World :=
  mkWorld d ∅ [] None None [] [].

(** Computations that read and change the state and may throw. *)
Definition M (A : Type) : Type := World -> result A * World.

Definition ret {A : Type} (a : A) : M A := fun w => (Ok a, w).
Definition throw {A : Type} (e : string) : M A := fun w => (Throw e, w).
Definition bind {A B : Type} (m : M A) (f : A -> M B) : M B :=
  fun w =>
    match m w with
    | (Ok a, w') => f a w'
    | (Throw e, w') => (Throw e, w')
    end.
(** [try { m } catch (error) { h error }]: what [m] did to the state before
    it threw stays done. *)
Definition try_catch {A : Type} (m : M A) (h : string -> M A) : M A :=
  fun w =>
    match m w with
    | (Ok a, w') => (Ok a, w')
    | (Throw e, w') => h e w'
    end.
Definition gets {A : Type} (f : World -> A) : M A := fun w => (Ok (f w), w).
Definition modify (f : World -> World) : M unit := fun w => (Ok tt, f w).

Notation "'do' x <- m ; k" := (bind m (fun x => k))
  (at level 10, x name, m at level 100, k at level 200).
Notation "'run' m ; k" := (bind m (fun _ => k))
  (at level 10, m at level 100, k at level 200).

(** What a computation leaves alone: the registry (the map of jobs and the
    tasks) and the store. *)
Definition same_registry (w w' : World) : Prop :=
  cronJobs w' = cronJobs w /\ tasks w' = tasks w /\ db w' = db w.

Definition preserves {A : Type} (m : M A) : Prop :=
  forall (w : World) (r : result A) (w' : World), m w = (r, w') -> same_registry w w'.

(** A computation that returns, whatever the state. *)
Definition never_throws {A : Type} (m : M A) : Prop :=
  forall w : World, is_throw (fst (m w)) = false.

(** [logger.error(event, { ..., error: message })] *)
Definition logError (event message : string) : M unit :=
  modify (fun w => set_errors (errors w ++ [(event, message)]) w).

(** The number of outside calls made so far, and making one more. *)
Definition clock : M nat := gets (fun w => length (calls w)).
Definition record (c : Call) : M unit :=
  modify (fun w => set_calls (calls w ++ [c]) w).

(** The messages that reached a chat: the [sendMessage] calls that succeeded. *)
Definition delivered (w : World) : list (string * string) :=
  omap (fun c => match c with
                 | CallSendMessage chatId txt true => Some (chatId, txt)
                 | _ => None
                 end) (calls w).

(** The tasks of a chat that are started: its live timers. *)
Definition liveTimers (chatId : string) (w : World) : list ScheduledTask :=
  List.filter (fun t => task_running t && String.eqb (Chat.chat_id (task_chat t)) chatId)
              (tasks w).

(** [s.split(sep)] for a separator of one character. *)
Fixpoint split_on (sep : ascii) (s : string) : list string :=
  match s with
  | EmptyString => [""]
  | String c s' =>
      match split_on sep s' with
      | [] => [""]
      | p :: ps =>
          if Ascii.eqb c sep then "" :: p :: ps else String c p :: ps
      end
  end.

(** The registry is consistent: a task is named by its position, a started
    task is the one the map holds for its chat, and what the map holds for a
    chat is a started task of that chat. *)
Definition registry_ok (w : World) : Prop :=
  (forall (i : nat) (t : ScheduledTask), tasks w !! i = Some t -> task_id t = i)
  /\ (forall (i : nat) (t : ScheduledTask),
        tasks w !! i = Some t -> task_running t = true ->
        cronJobs w !! Chat.chat_id (task_chat t) = Some i)
  /\ (forall (c : string) (j : nat),
        cronJobs w !! c = Some j ->
        exists t, tasks w !! j = Some t /\ task_running t = true
                  /\ Chat.chat_id (task_chat t) = c).

(** What holds of the registry in every state the code reaches: a task is
    named by its position, a started task is the one the map holds for its
    chat, and what the map holds for a chat is a task of that chat, started
    or not. *)
Definition registry_sound (w : World) : Prop :=
  (forall (i : nat) (t : ScheduledTask), tasks w !! i = Some t -> task_id t = i)
  /\ (forall (i : nat) (t : ScheduledTask),
        tasks w !! i = Some t -> task_running t = true ->
        cronJobs w !! Chat.chat_id (task_chat t) = Some i)
  /\ (forall (c : string) (j : nat),
        cronJobs w !! c = Some j ->
        exists t, tasks w !! j = Some t /\ Chat.chat_id (task_chat t) = c).

(** ** Reference behaviour of the runtime, for concrete runs

    [Number] on a string of decimal digits and the cron-expression validator
    of the scheduling library are not this repository's code.  The
    definitions below take them as parameters; these two functions give the
    parameters a value on the inputs the concrete runs use. *)

Definition is_digit (c : ascii) : bool := Regex.in_range "0" "9" c.

Fixpoint all_digits (s : string) : bool :=
  match s with
  | EmptyString => true
  | String c s' => is_digit c && all_digits s'
  end.

Fixpoint digits_value (acc : N) (s : string) : N :=
  match s with
  | EmptyString => acc
  | String c s' => digits_value (10 * acc + (N_of_ascii c - 48))%N s'
  end.

(** [String(Number(s))]: the empty string is [0], a string of decimal
    digits its value, and what is not a numeric literal is [NaN] (signs,
    blanks, fractions, exponents and radix prefixes are left out). *)
Definition numberString_ref (s : string) : string :=
  if all_digits s then NilZero.string_of_uint (N.to_uint (digits_value 0 s))
  else "NaN".

Definition field_in (lo hi : N) (s : string) : bool :=
  if negb (String.eqb s "") && all_digits s
  then ((lo <=? digits_value 0 s) && (digits_value 0 s <=? hi))%N
  else false.

(** [cron.validate] on five blank-separated fields, each a number in its
    range or [*] (lists, ranges and steps are left out). *)
Definition cronValidate_ref (expression : string) : bool :=
  let star_or (lo hi : N) (s : string) := String.eqb s "*" || field_in lo hi s in
  match split_on " " expression with
  | [mi; h; dom; mon; dow] =>
      star_or 0%N 59%N mi && star_or 0%N 23%N h && star_or 1%N 31%N dom
      && star_or 1%N 12%N mon && star_or 0%N 7%N dow
  | _ => false
  end.

(** The text after the mention in the empty-state digest, as the source
    file has it. *)
Definition EMPTY_SUMMARY_TAIL : string :=
  " –°–Ω–æ–≤–∞ –Ω–µ –ø—Ä–æ—á–∏—Ç–∞–ª —á–∞—Ç, –ø–µ—Å? –°–æ—Å–∏ –æ–≥—Ä—ã–∑–∫–∏:

üìù **–¢–µ–º—ã:** –ù–∏–∫–∞–∫–∏—Ö –æ–±—Å—É–∂–¥–µ–Ω–∏–π
üìä **–°—Ç–∞—Ç–∏—Å—Ç–∏–∫–∞:** 0 —Å–æ–æ–±—â–µ–Ω–∏–π –∑–∞ –¥–µ–Ω—å
üé§ **–ì–æ–ª–æ—Å–æ–≤—ã–µ/–∫—Ä—É–∂–∫–∏:** –ù–µ—Ç
üìé **–ú–µ–¥–∏–∞:** –ù–µ—Ç
üí¨ **–¢–µ–∫—Å—Ç–æ–≤—ã—Ö:** –ù–µ—Ç

_–°–µ–≥–æ–¥–Ω—è –≤ —á–∞—Ç–µ –±—ã–ª–æ —Ç–∏—Ö–æ. –í–æ–∑–º–æ–∂–Ω–æ, –≤—Å–µ –∑–∞–Ω—è—Ç—ã –≤–∞–∂–Ω—ã–º–∏ –¥–µ–ª–∞–º–∏!_ üò¥".

(** The offset from UTC of some zones that keep one offset all year, in
    milliseconds. *)
Definition zoneOffset (zone : string) : option Z :=
  if String.eqb zone "UTC" then Some 0%Z
  else if String.eqb zone "Europe/Moscow" then Some 10800000%Z
  else if String.eqb zone "Asia/Shanghai" then Some 28800000%Z
  else if String.eqb zone "Asia/Tokyo" then Some 32400000%Z
  else None.

(** The calendar day before the one on which instant [now] falls in a zone
    of offset [off]: "yesterday" relative to that zone. *)
Definition yesterdayInZone (off : Z) (now : Z) : JsDate.civil :=
  JsDate.civil_from_days (JsDate.Day (now + off) - 1).

(** A chat with its zone replaced. *)
Definition with_timezone (zone : string) (c : Chat.t) : Chat.t :=
  Chat.mk (Chat.chat_id c) (Chat.title c) (Chat.type c) (Chat.report_time c)
          zone (Chat.target_username c) (Chat.is_active c).

(** ** Concrete stores, chats and services, for runs of the code *)

Module Demo.

Definition alice : User.t := User.mk "111" (Some "alice") "Alice" None false.
(** Bob has opted out. *)
Definition bob : User.t := User.mk "222" (Some "bob") "Bob" None true.

Definition chat : Chat.t :=
  Chat.mk "-100" "Team" "supergroup" "21:00" "Europe/Berlin" "@vlad311" true.

(** The same chat with a report time whose hour no cron expression allows. *)
Definition chat_25h : Chat.t :=
  Chat.mk "-100" "Team" "supergroup" "25:00" "Europe/Berlin" "@vlad311" true.

(** The same chat with a report time that is not HH:MM, the minute having
    one digit. *)
Definition chat_7_5 : Chat.t :=
  Chat.mk "-100" "Team" "supergroup" "7:5" "Europe/Berlin" "@vlad311" true.

(** The same chat set to Tokyo time, reporting at six in the morning. *)
Definition chat_tokyo : Chat.t :=
  Chat.mk "-100" "Team" "supergroup" "06:00" "Asia/Tokyo" "@vlad311" true.

Definition textMessage (messageId userId createdAt : string) : Message.t :=
  Message.mk "-100" messageId userId text (Some "hello") None None None createdAt.

(** Two messages on 15 January 2024, one by each user. *)
Definition store : Db :=
  mkDb {[ "-100" := chat ]}
       {[ "111" := alice; "222" := bob ]}
       [ textMessage "1" "111" "2024-01-15T10:00:00.000Z";
         textMessage "2" "222" "2024-01-15T14:00:00.000Z" ]
       ∅.

(** One message, dated by the engine's [CURRENT_TIMESTAMP], which writes
    [YYYY-MM-DD HH:MM:SS]: noon of 15 January 2024. *)
Definition engineStore : Db :=
  mkDb {[ "-100" := chat ]} {[ "111" := alice ]}
       [ textMessage "1" "111" "2024-01-15 12:00:00" ] ∅.

(** A chat that is known and has no message at all. *)
Definition emptyStore : Db :=
  mkDb {[ "-100" := chat ]} {[ "111" := alice ]} [] ∅.

(** Noon of 15 January 2024, UTC. *)
Definition noon : Z := JsDate.utcInstant 2024 1 15 12 0 0 0.

(** The generative backend is down and the delivery channel works. *)
Definition backendDown : Env :=
  mkEnv (fun _ => false)
        (fun _ _ _ => Throw "Connection error.")
        (fun _ _ _ => None)
        (fun _ _ => Throw "Connection error.")
        (fun _ => Ok 1024%Z)
        (fun path => Ok (path +:+ ".mp3"))
        (fun _ => "15.01.2024").

(** The backend answers the probe and then fails; delivery works. *)
Definition backendFails : Env :=
  mkEnv (fun _ => true)
        (fun _ _ _ => Throw "429 You exceeded your current quota")
        (fun _ _ _ => None)
        (fun _ _ => Throw "Connection error.")
        (fun _ => Ok 1024%Z)
        (fun path => Ok (path +:+ ".mp3"))
        (fun _ => "15.01.2024").

(** The library accepts every zone. *)
Definition scheduleNeverThrows (expression zone : string) : option string := None.

(** Nine in the evening of 16 January 2024, UTC. *)
Definition evening16 : Z := JsDate.utcInstant 2024 1 16 21 0 0 0.

(** Nine in the evening of 15 January 2024, UTC: six in the morning of the
    16th in Tokyo. *)
Definition tokyoMorning : Z := JsDate.utcInstant 2024 1 15 21 0 0 0.

(** The state with the chat registered for 21:00 and nothing else done. *)
Definition scheduled : World :=
  mkWorld store {[ "-100" := 0 ]}
          [ mkTask 0 chat "0 21 * * *" "Europe/Berlin" true ]
          None None [] [].

End Demo.

(** ** The rest of the message store ([storage.ts]) *)

(** [CHECK (type IN ('group', 'supergroup', 'channel'))] *)
Definition valid_chat_type (t : string) : bool :=
  String.eqb t "group" || String.eqb t "supergroup" || String.eqb t "channel".

(** The statement of [upsertChat], as the engine runs it once its parameters
    are bound: [INSERT ... ON CONFLICT(chat_id) DO UPDATE] of every column
    given, so the row of the chat becomes the argument; a type outside the
    [CHECK] makes the statement throw. *)
Definition upsertChat_statement (d : Db) (chat : Chat.t) : result Chat.t * Db :=
  if valid_chat_type (Chat.type chat) then
    (Ok chat,
     mkDb (<[Chat.chat_id chat := chat]> (chats d)) (users d) (messages d) (transcripts d))
  else (Throw "CHECK constraint failed: type IN ('group', 'supergroup', 'channel')", d).

(** [SELECT * FROM chats WHERE is_active = 1].  The statement has no
    [ORDER BY]; the rows come in the order of the map. *)
Definition getAllActiveChats (d : Db) : list Chat.t :=
  List.filter Chat.is_active (map snd (map_to_list (chats d))).

(** The [Partial] argument of [updateChatSettings]. *)
Record ChatSettings : Type := mkChatSettings {
  set_report_time : option string;
  set_timezone : option string;
  set_target_username : option string
}.

(** [DatabaseManager.updateChatSettings]: a field is written when the
    argument has it and it is truthy; with no such field nothing is run. *)
Definition updateChatSettings (d : Db) (chatId : string) (settings : ChatSettings) : Db :=
  let pick (new : option string) (old : string) : string :=
    if truthy new then match new with Some s => s | None => old end else old in
  if negb (truthy (set_report_time settings) || truthy (set_timezone settings)
           || truthy (set_target_username settings))
  then d
  else
    mkDb (alter (fun c =>
                   Chat.mk (Chat.chat_id c) (Chat.title c) (Chat.type c)
                     (pick (set_report_time settings) (Chat.report_time c))
                     (pick (set_timezone settings) (Chat.timezone c))
                     (pick (set_target_username settings) (Chat.target_username c))
                     (Chat.is_active c))
                chatId (chats d))
         (users d) (messages d) (transcripts d).

(** The statement of [upsertUser], as the engine runs it once its parameters
    are bound. *)
Definition upsertUser_statement (d : Db) (user : User.t) : User.t * Db :=
  (user, mkDb (chats d) (<[User.user_id user := user]> (users d)) (messages d) (transcripts d)).

(** [DatabaseManager.getUser] *)
Definition getUser (d : Db) (userId : string) : option User.t := users d !! userId.

(** *** Binding parameters

    A statement of the driver takes its parameters as numbers, strings,
    bigints, buffers and [null]; any other value, a boolean among them, makes
    [run] and [get] throw a [TypeError] before the statement is run. *)
Inductive BindParameter : Type :=
| BindText : string -> BindParameter
| BindNumber : Z -> BindParameter
| BindNull : BindParameter
| BindBoolean : bool -> BindParameter.

Definition bindable (p : BindParameter) : bool :=
  match p with
  | BindBoolean _ => false
  | _ => true
  end.

Definition bindError : string :=
  "SQLite3 can only bind numbers, strings, bigints, buffers, and null".

Definition bindParameters (ps : list BindParameter) : result unit :=
  if forallb bindable ps then Ok tt else Throw bindError.

(** A [string | null] parameter. *)
Definition bindOption (o : option string) : BindParameter :=
  match o with
  | Some s => BindText s
  | None => BindNull
  end.

(** [DatabaseManager.upsertChat]: [stmt.get(chat.chat_id, ..., chat.is_active)],
    the last parameter being the boolean of the argument. *)
Definition upsertChat (d : Db) (chat : Chat.t) : result Chat.t * Db :=
  match bindParameters
          [BindText (Chat.chat_id chat); BindText (Chat.title chat);
           BindText (Chat.type chat); BindText (Chat.report_time chat);
           BindText (Chat.timezone chat); BindText (Chat.target_username chat);
           BindBoolean (Chat.is_active chat)] with
  | Ok _ => upsertChat_statement d chat
  | Throw e => (Throw e, d)
  end.

(** [DatabaseManager.upsertUser]: [stmt.get(user.user_id, ..., user.is_opted_out)] *)
Definition upsertUser (d : Db) (user : User.t) : result User.t * Db :=
  match bindParameters
          [BindText (User.user_id user); bindOption (User.username user);
           BindText (User.first_name user); bindOption (User.last_name user);
           BindBoolean (User.is_opted_out user)] with
  | Ok _ => (Ok (fst (upsertUser_statement d user)), snd (upsertUser_statement d user))
  | Throw e => (Throw e, d)
  end.

(** [DatabaseManager.setUserOptOut]: [stmt.run(isOptedOut, userId)] *)
Definition setUserOptOut (d : Db) (userId : string) (isOptedOut : bool)
  : result unit * Db :=
  match bindParameters [BindBoolean isOptedOut; BindText userId] with
  | Ok _ => (Ok tt, setUserOptOut_statement d userId isOptedOut)
  | Throw e => (Throw e, d)
  end.

Definition same_message_key (m1 m2 : Message.t) : bool :=
  String.eqb (Message.chat_id m1) (Message.chat_id m2)
  && String.eqb (Message.message_id m1) (Message.message_id m2).

Definition with_created_at (ts : string) (m : Message.t) : Message.t :=
  Message.mk (Message.chat_id m) (Message.message_id m) (Message.user_id m)
    (Message.message_type m) (Message.content m) (Message.file_id m)
    (Message.file_path m) (Message.reply_to_message_id m) ts.

(** The engine's [CURRENT_TIMESTAMP] at an instant: [YYYY-MM-DD HH:MM:SS],
    in UTC. *)
Definition CURRENT_TIMESTAMP (t : Z) : string :=
  let c := JsDate.civil_from_days (JsDate.Day t) in
  let r := JsDate.TimeWithinDay t in
  (JsDate.field 4 (JsDate.year c) +:+ "-" +:+ JsDate.field 2 (JsDate.month c) +:+ "-"
   +:+ JsDate.field 2 (JsDate.day c) +:+ " " +:+ JsDate.field 2 (r / 3600000) +:+ ":"
   +:+ JsDate.field 2 (r / 60000 mod 60) +:+ ":" +:+ JsDate.field 2 (r / 1000 mod 60))%Z.

(** [DatabaseManager.insertMessage], run when the engine's
    [CURRENT_TIMESTAMP] is [now]: the row is the argument dated [now] (the
    argument's own [created_at] is not read).  A second row for the same
    [(chat_id, message_id)] violates the [UNIQUE] constraint, a chat or an
    author without a row the foreign keys. *)
Definition insertMessage (now : string) (d : Db) (message : Message.t)
  : result Message.t * Db :=
  let row := with_created_at now message in
  if existsb (same_message_key row) (messages d) then
    (Throw "UNIQUE constraint failed: messages.chat_id, messages.message_id", d)
  else
    match chats d !! Message.chat_id row, users d !! Message.user_id row with
    | Some _, Some _ =>
        (Ok row, mkDb (chats d) (users d) (messages d ++ [row]) (transcripts d))
    | _, _ => (Throw "FOREIGN KEY constraint failed", d)
    end.

(** [DatabaseManager.deleteChatData]: the messages of the chat, then the
    chat. *)
Definition deleteChatData (d : Db) (chatId : string) : Db :=
  mkDb (delete chatId (chats d)) (users d)
       (List.filter (fun m => negb (String.eqb (Message.chat_id m) chatId)) (messages d))
       (transcripts d).

(** [DELETE FROM messages WHERE created_at < ?] *)
Definition deleteMessagesBefore (d : Db) (cutoff : string) : Db :=
  mkDb (chats d) (users d)
       (List.filter (fun m => negb (String.ltb (Message.created_at m) cutoff)) (messages d))
       (transcripts d).

(** [DatabaseManager.setSetting], on the [settings] table kept by its
    [UNIQUE] key. *)
Definition setSetting (settings : gmap string string) (key value : string)
  : gmap string string :=
  <[key := value]> settings.

(** [DatabaseManager.getSetting]: [result?.value || null], so a stored empty
    string reads as [null]. *)
Definition getSetting (settings : gmap string string) (key : string) : option string :=
  match settings !! key with
  | Some value => if truthy (Some value) then Some value else None
  | None => None
  end.

(** The store before anything was written. *)
Definition emptyDb : Db := mkDb ∅ ∅ [] ∅.

(** The statements of the store, to speak of runs of them; a statement that
    throws leaves the store as its definition says.  A run of the methods of
    [DatabaseManager] is a run of these statements: a method binds its
    parameters and runs its statement, or throws before it when the driver
    refuses a parameter. *)
Inductive StoreOp : Type :=
| OpUpsertChat : Chat.t -> StoreOp
| OpUpdateChatSettings : string -> ChatSettings -> StoreOp
| OpUpsertUser : User.t -> StoreOp
| OpSetUserOptOut : string -> bool -> StoreOp
| OpInsertMessage : string -> Message.t -> StoreOp
| OpInsertTranscript : Transcript.t -> StoreOp
| OpDeleteChatData : string -> StoreOp
| OpDeleteMessagesBefore : string -> StoreOp.

Definition runStoreOp (op : StoreOp) (d : Db) : Db :=
  match op with
  | OpUpsertChat chat => snd (upsertChat_statement d chat)
  | OpUpdateChatSettings chatId settings => updateChatSettings d chatId settings
  | OpUpsertUser user => snd (upsertUser_statement d user)
  | OpSetUserOptOut userId b => setUserOptOut_statement d userId b
  | OpInsertMessage now message => snd (insertMessage now d message)
  | OpInsertTranscript tr => snd (insertTranscript d tr)
  | OpDeleteChatData chatId => deleteChatData d chatId
  | OpDeleteMessagesBefore cutoff => deleteMessagesBefore d cutoff
  end.

Definition runStoreOps (ops : list StoreOp) (d : Db) : Db :=
  fold_left (fun acc op => runStoreOp op acc) ops d.

(** What the constraints of the schema say of a store: a row is filed under
    its own key, the chat and the author of a message have rows, and no two
    messages share [(chat_id, message_id)]. *)
Definition store_ok (d : Db) : Prop :=
  (forall (k : string) (c : Chat.t), chats d !! k = Some c -> Chat.chat_id c = k)
  /\ (forall (k : string) (u : User.t), users d !! k = Some u -> User.user_id u = k)
  /\ (forall (k : string * string) (tr : Transcript.t),
        transcripts d !! k = Some tr ->
        (Transcript.message_id tr, Transcript.file_id tr) = k)
  /\ (forall m : Message.t, m ∈ messages d ->
        is_Some (chats d !! Message.chat_id m) /\ is_Some (users d !! Message.user_id m))
  /\ NoDup ((fun m => (Message.chat_id m, Message.message_id m)) <$> messages d).

(** The methods of the store as the code calls them, to speak of runs of
    them. *)
Inductive StoreMethod : Type :=
| CallUpsertChat : Chat.t -> StoreMethod
| CallUpdateChatSettings : string -> ChatSettings -> StoreMethod
| CallUpsertUser : User.t -> StoreMethod
| CallSetUserOptOut : string -> bool -> StoreMethod
| CallInsertMessage : string -> Message.t -> StoreMethod
| CallInsertTranscript : Transcript.t -> StoreMethod
| CallDeleteChatData : string -> StoreMethod
| CallDeleteMessagesBefore : string -> StoreMethod.

Definition runStoreMethod (call : StoreMethod) (d : Db) : Db :=
  match call with
  | CallUpsertChat chat => snd (upsertChat d chat)
  | CallUpdateChatSettings chatId settings => updateChatSettings d chatId settings
  | CallUpsertUser user => snd (upsertUser d user)
  | CallSetUserOptOut userId b => snd (setUserOptOut d userId b)
  | CallInsertMessage now message => snd (insertMessage now d message)
  | CallInsertTranscript tr => snd (insertTranscript d tr)
  | CallDeleteChatData chatId => deleteChatData d chatId
  | CallDeleteMessagesBefore cutoff => deleteMessagesBefore d cutoff
  end.

Definition runStoreMethods (calls : list StoreMethod) (d : Db) : Db :=
  fold_left (fun acc call => runStoreMethod call acc) calls d.

(** An element of the argument of [batchProcessAudioMessages]. *)
Record AudioJob : Type := mkAudioJob {
  job_fileId : string;
  job_messageId : string;
  job_filePath : string;
  job_duration : option Z
}.

(** A relation between the state before and after that a computation keeps,
    whatever it returns. *)
Definition keeps (R : World -> World -> Prop) {A : Type} (m : M A) : Prop :=
  forall (w : World) (r : result A) (w' : World), m w = (r, w') -> R w w'.

(** Nothing more has reached a chat. *)
Definition same_deliveries (w w' : World) : Prop := delivered w' = delivered w.

(** ** What the bot sees of an update ([bot.ts]) *)

(** [ctx.chat], the identifier already as text. *)
Record TgChat : Type := mkTgChat {
  tg_chat_id : string;
  tg_title : option string;
  tg_chat_first_name : option string;
  tg_type : string
}.

(** [ctx.from], the identifier already as text. *)
Record TgUser : Type := mkTgUser {
  tg_user_id : string;
  tg_username : option string;
  tg_first_name : string;
  tg_last_name : option string
}.

(** [a || b] for a [string | undefined] and a string. *)
Definition orElse (a : option string) (b : string) : string :=
  match a with
  | Some s => if String.eqb s "" then b else s
  | None => b
  end.

(** [a || null] *)
Definition orNull (a : option string) : option string :=
  if truthy a then a else None.

(** The row [registerChatAndUser] writes for a chat and for a user. *)
Definition registeredChat (chat : TgChat) : Chat.t :=
  Chat.mk (tg_chat_id chat)
          (orElse (tg_title chat) (orElse (tg_chat_first_name chat) "Unknown Chat"))
          (tg_type chat) "21:00" "Europe/Berlin" "@vlad311" true.

Definition registeredUser (from : TgUser) : User.t :=
  User.mk (tg_user_id from) (orNull (tg_username from)) (tg_first_name from)
          (orNull (tg_last_name from)) false.

(** ** Counting ([getSummaryStats]) *)

(** [counts.set(k, (counts.get(k) || 0) + 1)] on a [Map], and the same on the
    keys of an object: a key keeps the place of its first insertion. *)
Fixpoint bump {K : Type} `{EqDecision K} (k : K) (l : list (K * nat)) : list (K * nat) :=
  match l with
  | [] => [(k, 1%nat)]
  | (k', n) :: l' => if decide (k' = k) then (k', S n) :: l' else (k', n) :: bump k l'
  end.

(** [counts.get(k) || 0] *)
Definition countOf {K : Type} `{EqDecision K} (k : K) (l : list (K * nat)) : nat :=
  match find (fun p => bool_decide (fst p = k)) l with
  | Some p => snd p
  | None => 0%nat
  end.

(** [sort((a, b) => b.messageCount - a.messageCount)]: by count, the larger
    first, entries with equal counts staying in order. *)
Fixpoint insert_by_count (x : string * nat) (l : list (string * nat))
  : list (string * nat) :=
  match l with
  | [] => [x]
  | y :: l' =>
      if (snd x <? snd y)%nat then y :: insert_by_count x l' else x :: y :: l'
  end.

Fixpoint sort_by_count (l : list (string * nat)) : list (string * nat) :=
  match l with
  | [] => []
  | x :: l' => insert_by_count x (sort_by_count l')
  end.

(** [Math.round(n / d)] for a count [n] and a positive whole [d]. *)
Definition roundDiv (n d : Z) : Z := (2 * n + d) / (2 * d).

#[global] Instance MessageType_eq_dec : EqDecision MessageType.
Proof. solve_decision. Defined.

Record SummaryStats : Type := mkStats {
  stats_totalMessages : nat;
  averagePerDay : Z;
  mostActiveUsers : list (string * nat);
  messageTypes : list (MessageType * nat)
}.

(** [username || first_name] of a joined row. *)
Definition displayName (u : User.t) : string :=
  orElse (User.username u) (User.first_name u).

(** The loop of [getSummaryStats] over the rows. *)
Definition countRows (rows : list Row)
  : list (string * nat) * list (MessageType * nat) :=
  fold_left
    (fun acc msg =>
       if negb (User.is_opted_out (snd msg))
       then (bump (displayName (snd msg)) (fst acc),
             bump (Message.message_type (fst msg)) (snd acc))
       else acc)
    rows ([], []).

(** ** More concrete data *)

Module Sample.

(** The chat of [Demo], as an update carries it. *)
Definition tgChat : TgChat := mkTgChat "-100" (Some "Team") None "supergroup".

(** The digest generator has the generative provider cached. *)
Definition generativeCached : World :=
  mkWorld Demo.store ∅ [] (Some OpenAIProvider) (Some OpenAIProvider) [] [].

(** Transcription works: the file is small and the service answers. *)
Definition whisperWorks : Env :=
  mkEnv (fun _ => true)
        (fun _ _ _ => Ok (Some "digest"))
        (fun _ _ _ => None)
        (fun _ _ => Ok "good morning")
        (fun _ => Ok 1024%Z)
        (fun path => Ok (path +:+ ".mp3"))
        (fun _ => "15.01.2024").

(** The limit of 25 MB of the configuration. *)
Definition limit : Z := 25 * 1024 * 1024.

Definition voiceNote : Message.t :=
  Message.mk "-100" "7" "111" voice None (Some "file-7") None None "".

(** A text message of Alice, as [insertMessage] is given it. *)
Definition textNote : Message.t := Demo.textMessage "1" "111" "".

(** A host in UTC, and one three hours east of it all year. *)
Definition utc : JsDate.Zone := JsDate.fixed 0.
Definition moscow : JsDate.Zone := JsDate.fixed 10800000.

(** A host on Central European time in 2024: one hour east of UTC, two from
    01:00 UTC of 31 March to 01:00 UTC of 27 October; a local time that is
    skipped or repeated is read with the offset before the change. *)
Definition berlin : JsDate.Zone :=
  let spring := JsDate.utcInstant 2024 3 31 1 0 0 0 in
  let autumn := JsDate.utcInstant 2024 10 27 1 0 0 0 in
  JsDate.mkZone
    (fun t => if ((spring <=? t) && (t <? autumn))%Z then 7200000%Z else 3600000%Z)
    (fun l => if ((spring + 7200000 <=? l) && (l <? autumn + 7200000))%Z
              then 7200000%Z else 3600000%Z).

(** Nine in the evening of 1 April 2024 in Berlin. *)
Definition aprilEvening : Z := JsDate.utcInstant 2024 4 1 19 0 0 0.

(** Noon of 31 March 2024, UTC, the day the clocks of Berlin go forward. *)
Definition springForward : Z := JsDate.utcInstant 2024 3 31 12 0 0 0.

(** Two messages of 15 January 2024, one by each user, dated as the engine
    dates them; Bob has opted out. *)
Definition engineDay : Db :=
  mkDb {[ "-100" := Demo.chat ]}
       {[ "111" := Demo.alice; "222" := Demo.bob ]}
       [ Demo.textMessage "1" "111" "2024-01-15 10:00:00";
         Demo.textMessage "2" "222" "2024-01-15 14:00:00" ]
       ∅.

(** The same store at a later time, when the row of Alice carries the flag
    too. *)
Definition aliceOut : User.t := User.mk "111" (Some "alice") "Alice" None true.
Definition engineDayLater : Db :=
  mkDb {[ "-100" := Demo.chat ]}
       {[ "111" := aliceOut; "222" := Demo.bob ]}
       [ Demo.textMessage "1" "111" "2024-01-15 10:00:00";
         Demo.textMessage "2" "222" "2024-01-15 14:00:00" ]
       ∅.

(** The chat of [Demo] set to Tokyo time, with nothing registered yet. *)
Definition tokyoIdle : World :=
  initialWorld (mkDb {[ "-100" := Demo.chat_tokyo ]} {[ "111" := Demo.alice ]} [] ∅).

End Sample.

(** ** The pipeline *)

Section Pipeline.

(** The zone of the host. *)
Variable tz : JsDate.Zone.
(** [telegramConfig.fileSizeLimitBytes] *)
Variable fileSizeLimitBytes : Z.
(** [String(Number(s))] *)
Variable numberString : string -> string.
(** [cron.validate(expression)] *)
Variable cronValidate : string -> bool.
(** What [cron.schedule(expression, fn, { scheduled: false, timezone })]
    throws for an expression and a zone, if it throws. *)
Variable cronScheduleError : string -> string -> option string.
(** The answers of the outside services. *)
Variable env : Env.

(** *** The text backend gate ([llm.ts]) *)

(** [OpenAIProvider.isAvailable] *)
Definition OpenAIProvider_isAvailable : M bool :=
  do k <- clock;
  run record CallModelsList;
  ret (modelsList env k).

(** [OpenAIProvider.generateSummary] *)
Definition OpenAIProvider_generateSummary
    (msgs : list ProcessedMessage.t) (context : SummaryContext) : M string :=
  try_catch
    (do k <- clock;
     run record (CallChatCompletion msgs context);
     match chatCompletion env k msgs context with
     | Throw e => throw e
     | Ok summary =>
         match summary with
         | Some s => if String.eqb s "" then throw "Empty response from OpenAI"
                     else ret s
         | None => throw "Empty response from OpenAI"
         end
     end)
    (fun e => run logError "Failed to generate summary" e; throw e).

Definition is_media (t : MessageType) : bool :=
  match t with
  | photo | video | document => true
  | _ => false
  end.

(** [FallbackProvider.generateSummary]: a template filled from its arguments. *)
Definition FallbackProvider_generateSummary
    (msgs : list ProcessedMessage.t) (context : SummaryContext) : string :=
  let textMessages :=
    List.filter (fun m => match ProcessedMessage.type m with
                          | text => truthy (ProcessedMessage.content m)
                          | _ => false
                          end) msgs in
  let voiceMessages :=
    List.filter (fun m => match ProcessedMessage.type m with
                          | voice | video_note => truthy (ProcessedMessage.transcript m)
                          | _ => false
                          end) msgs in
  let mediaMessages :=
    List.filter (fun m => is_media (ProcessedMessage.type m)) msgs in
  targetUsername context +:+ " Снова не прочитал чат, пес? Соси огрызки:

📝 **Темы:** Обсуждение различных вопросов
📊 **Статистика:** " +:+ natToString (totalMessages context) +:+ " сообщений за день
🎤 **Голосовые/кружки:** " +:+ natToString (length voiceMessages) +:+ " аудиосообщений
📎 **Медиа:** " +:+ natToString (length mediaMessages) +:+ " файлов
💬 **Текстовых:** " +:+ natToString (length textMessages) +:+ " сообщений

_Детальное саммари временно недоступно. Проверьте настройки OpenAI API._".

(** The statistics line of a digest for [n] messages. *)
Definition statisticsLine (n : nat) : string :=
  "📊 **Статистика:** " +:+ natToString n +:+ " сообщений за день".

(** [provider.generateSummary(messages, context)] *)
Definition generateSummary (p : Provider)
    (msgs : list ProcessedMessage.t) (context : SummaryContext) : M string :=
  match p with
  | OpenAIProvider => OpenAIProvider_generateSummary msgs context
  | FallbackProvider => ret (FallbackProvider_generateSummary msgs context)
  end.

(** [LLMProviderFactory.getProvider] *)
Definition getProvider : M Provider :=
  do cached <- gets instance;
  match cached with
  | Some p => ret p
  | None =>
      do isAvailable <- OpenAIProvider_isAvailable;
      let p := if isAvailable then OpenAIProvider else FallbackProvider in
      run modify (set_instance (Some p));
      ret p
  end.

(** *** The digest generator ([summarizer.ts]) *)

Record ProcessedMessageData : Type := mkData {
  data_messages : list ProcessedMessage.t;
  totalCount : nat;
  dateRange : string * string
}.

(** [DailySummarizer.getLLMProvider] *)
Definition getLLMProvider : M Provider :=
  do cached <- gets llmProvider;
  match cached with
  | Some p => ret p
  | None =>
      do p <- getProvider;
      run modify (set_llmProvider (Some p));
      ret p
  end.

Definition startOfDay (date : Z) : Z := JsDate.setHours tz date 0 0 0 0.
Definition endOfDay (date : Z) : Z := JsDate.setHours tz date 23 59 59 999.

Definition is_audio (t : MessageType) : bool :=
  match t with
  | voice | video_note | audio => true
  | _ => false
  end.

(** The body of the loop over the filtered rows. *)
Definition processRow (d : Db) (r : Row) : ProcessedMessage.t :=
  let msg := fst r in
  let u := snd r in
  let transcript :=
    if is_audio (Message.message_type msg) && truthy (Message.file_id msg) then
      match Message.file_id msg with
      | Some fid =>
          match getTranscript d (Message.message_id msg) fid with
          | Some tr => Some (Transcript.transcript_text tr)
          | None => None
          end
      | None => None
      end
    else None in
  ProcessedMessage.mk
    (Message.message_id msg)
    (mkProcessedUser (User.username u) (User.first_name u) (User.last_name u))
    (Message.message_type msg)
    (Message.content msg)
    transcript
    (Message.created_at msg)
    (if truthy (Message.reply_to_message_id msg)
     then Message.reply_to_message_id msg else None).

Definition rawMessages (d : Db) (chatId : string) (date : Z) : list Row :=
  getMessagesForDateRange d chatId
    (JsDate.toISOString (startOfDay date)) (JsDate.toISOString (endOfDay date)).

Definition filteredMessages (d : Db) (chatId : string) (date : Z) : list Row :=
  List.filter (fun r => negb (User.is_opted_out (snd r))) (rawMessages d chatId date).

(** [DailySummarizer.getMessagesForDate] *)
Definition getMessagesForDate (d : Db) (chatId : string) (date : Z)
  : ProcessedMessageData :=
  mkData (map (processRow d) (filteredMessages d chatId date))
         (length (rawMessages d chatId date))
         (JsDate.toISOString (startOfDay date), JsDate.toISOString (endOfDay date)).

(** [DailySummarizer.generateEmptySummary] *)
Definition generateEmptySummary (target : string) : string :=
  target +:+ EMPTY_SUMMARY_TAIL.

(** [DailySummarizer.generateDailySummary] *)
Definition generateDailySummary (chatId : string) (date : Z) : M string :=
  try_catch
    (do d <- gets db;
     match getChat d chatId with
     | None => throw ("Chat " +:+ chatId +:+ " not found")
     | Some chat =>
         let data := getMessagesForDate d chatId date in
         if (length (data_messages data) =? 0)%nat then
           ret (generateEmptySummary (Chat.target_username chat))
         else
           let context :=
             mkSummaryContext (Chat.title chat) (toLocaleDateString env date)
                              (totalCount data) (Chat.target_username chat) in
           do provider <- getLLMProvider;
           generateSummary provider (data_messages data) context
     end)
    (fun e => run logError "Failed to generate daily summary" e; throw e).

(** [DailySummarizer.generatePreviewSummary], called at instant [today]. *)
Definition generatePreviewSummary (chatId : string) (today : Z) : M string :=
  generateDailySummary chatId today.

(** [DailySummarizer.shouldGenerateSummary] *)
Definition shouldGenerateSummary (chatId : string) (date : Z) : M bool :=
  do d <- gets db;
  ret (0 <? length (data_messages (getMessagesForDate d chatId date)))%nat.

(** *** The transcript path of the speech-to-text service ([stt.ts]) *)

(** [SpeechToTextService.transcribeWithWhisper]: an error gives [null]. *)
Definition transcribeWithWhisper (audioPath : string) : M (option string) :=
  do k <- clock;
  run record (CallWhisper audioPath);
  match whisper env k audioPath with
  | Ok s => ret (Some s)
  | Throw e => run logError "Whisper transcription failed" e; ret None
  end.

(** Lifting a call that may throw. *)
Definition liftResult {A : Type} (r : result A) : M A :=
  match r with
  | Ok a => ret a
  | Throw e => throw e
  end.

(** [SpeechToTextService.processAudioMessage]; removing the temporary files
    touches nothing kept here. *)
Definition processAudioMessage
    (fileId messageId filePath : string) (duration : option Z) : M (option string) :=
  try_catch
    (do d <- gets db;
     match getTranscript d messageId fileId with
     | Some existingTranscript => ret (Some (Transcript.transcript_text existingTranscript))
     | None =>
         do size <- liftResult (fileSize env filePath);
         if (fileSizeLimitBytes <? size)%Z then ret None
         else
           do mp3Path <- liftResult (convertToMp3 env filePath);
           do transcript <- transcribeWithWhisper mp3Path;
           run (if truthy transcript then
                  match transcript with
                  | Some s =>
                      do d' <- gets db;
                      let row := Transcript.mk messageId fileId s (Some "ru")
                                   (match duration with
                                    | Some 0%Z => None
                                    | other => other
                                    end) in
                      let '(r, d'') := insertTranscript d' row in
                      run modify (set_db d'');
                      run liftResult r;
                      ret tt
                  | None => ret tt
                  end
                else ret tt);
           ret transcript
     end)
    (fun e => run logError "Failed to process audio message" e; ret None).

(** *** The chat schedule registry ([scheduler.ts]) *)

Definition map_task (f : ScheduledTask -> ScheduledTask) (job : nat)
    (ts : list ScheduledTask) : list ScheduledTask :=
  (fun t => if (task_id t =? job)%nat then f t else t) <$> ts.

Definition with_running (b : bool) (t : ScheduledTask) : ScheduledTask :=
  mkTask (task_id t) (task_chat t) (task_expression t) (task_timezone t) b.

(** The state after [job.stop()]. *)
Definition stopped (job : nat) (w : World) : World :=
  set_tasks (map_task (with_running false) job (tasks w)) w.

(** [job.stop()] and [job.start()] *)
Definition job_stop (job : nat) : M unit := modify (stopped job).
Definition job_start (job : nat) : M unit :=
  modify (fun w => set_tasks (map_task (with_running true) job (tasks w)) w).

(** [job.destroy()].  A task of the library at the version the package
    names ([node-cron] 3) has [start], [stop] and [now] and no [destroy]:
    the call is a call of [undefined] and throws a [TypeError]. *)
Definition destroyError : string := "job.destroy is not a function".
Definition job_destroy (job : nat) : M unit := throw destroyError.

(** [cron.schedule(expression, fn, { scheduled: false, timezone })]: a new
    task, not started, unless the library throws. *)
Definition cron_schedule (expression : string) (chat : Chat.t) (zone : string) : M nat :=
  match cronScheduleError expression zone with
  | Some e => throw e
  | None =>
      do ts <- gets tasks;
      let job := length ts in
      run modify (set_tasks (ts ++ [mkTask job chat expression zone false]));
      ret job
  end.

(** [SchedulerService.unscheduleChat] *)
Definition unscheduleChat (chatId : string) : M unit :=
  do jobs <- gets cronJobs;
  match jobs !! chatId with
  | Some job =>
      run job_stop job;
      run job_destroy job;
      modify (fun w => set_cronJobs (delete chatId (cronJobs w)) w)
  | None => ret tt
  end.

(** [`${minutes} ${hours} * * *`] with
    [[hours, minutes] = chat.report_time.split(':').map(Number)];
    an element that is missing prints as [undefined]. *)
Definition cronExpression (report_time : string) : string :=
  let parts := map numberString (split_on ":" report_time) in
  let hours := nth 0 parts "undefined" in
  let minutes := nth 1 parts "undefined" in
  minutes +:+ " " +:+ hours +:+ " * * *".

(** The registration of a chat goes through: the expression is accepted
    and making the task does not throw. *)
Definition registers (chat : Chat.t) : bool :=
  let expression := cronExpression (Chat.report_time chat) in
  cronValidate expression
  && match cronScheduleError expression (Chat.timezone chat) with
     | Some _ => false
     | None => true
     end.

(** The [try] block of [scheduleChat]. *)
Definition scheduleChat_try (chat : Chat.t) : M unit :=
  run unscheduleChat (Chat.chat_id chat);
  let expression := cronExpression (Chat.report_time chat) in
  if negb (cronValidate expression) then
    throw ("Invalid cron expression: " +:+ expression)
  else
    do job <- cron_schedule expression chat (Chat.timezone chat);
    run modify (fun w => set_cronJobs (<[Chat.chat_id chat := job]> (cronJobs w)) w);
    job_start job.

(** [SchedulerService.scheduleChat] *)
Definition scheduleChat (chat : Chat.t) : M unit :=
  try_catch (scheduleChat_try chat)
    (fun e => logError "Failed to schedule chat" e).

(** [SchedulerService.updateChatSchedule] *)
Definition updateChatSchedule (chatId : string) : M unit :=
  do d <- gets db;
  match getChat d chatId with
  | Some chat =>
      if Chat.is_active chat then scheduleChat chat else unscheduleChat chatId
  | None => unscheduleChat chatId
  end.

(** [bot.telegram.sendMessage(chatId, text, ...)] *)
Definition telegram_sendMessage (chatId txt : string) : M unit :=
  do k <- clock;
  match sendMessage env k chatId txt with
  | None => record (CallSendMessage chatId txt true)
  | Some e => run record (CallSendMessage chatId txt false); throw e
  end.

(** [const yesterday = new Date(); yesterday.setDate(yesterday.getDate() - 1)],
    [new Date()] being the instant [now]. *)
Definition yesterdayOf (now : Z) : Z := JsDate.setDatePrev tz now.

(** The [try] block of [executeDailyReport]. *)
Definition executeDailyReport_try (chat : Chat.t) (now : Z) : M unit :=
  let yesterday := yesterdayOf now in
  do shouldGenerate <- shouldGenerateSummary (Chat.chat_id chat) yesterday;
  if negb shouldGenerate then ret tt
  else
    do summary <- generateDailySummary (Chat.chat_id chat) yesterday;
    telegram_sendMessage (Chat.chat_id chat) summary.

Definition errorNotice (e : string) : string :=
  "❌ Ошибка при создании ежедневного отчета: " +:+ e.

(** [SchedulerService.executeDailyReport] *)
Definition executeDailyReport (chat : Chat.t) (now : Z) : M unit :=
  try_catch (executeDailyReport_try chat now)
    (fun e =>
       run logError "Failed to execute daily report" e;
       try_catch (telegram_sendMessage (Chat.chat_id chat) (errorNotice e))
         (fun sendError => logError "Failed to send error notification" sendError)).

(** A fire of task [job] at instant [now]: the callback given to
    [cron.schedule] runs if the task is started. *)
Definition fire (job : nat) (now : Z) : M unit :=
  do ts <- gets tasks;
  match List.find (fun t => (task_id t =? job)%nat) ts with
  | Some t => if task_running t then executeDailyReport (task_chat t) now else ret tt
  | None => ret tt
  end.

(** [SchedulerService.executeManualReport] *)
Definition executeManualReport (chatId : string) (date : option Z) (now : Z) : M string :=
  do d <- gets db;
  match getChat d chatId with
  | None => throw ("Chat " +:+ chatId +:+ " not found")
  | Some _ =>
      let targetDate := match date with Some t => t | None => now end in
      generateDailySummary chatId targetDate
  end.

(** Registry operations, to speak of runs of them. *)
Inductive RegistryOp : Type :=
| OpSchedule : Chat.t -> RegistryOp
| OpUnschedule : string -> RegistryOp.

Definition runOp (op : RegistryOp) (w : World) : World :=
  match op with
  | OpSchedule chat => snd (scheduleChat chat w)
  | OpUnschedule chatId => snd (unscheduleChat chatId w)
  end.

Definition runOps (ops : list RegistryOp) (w : World) : World :=
  fold_left (fun acc op => runOp op acc) ops w.

(** *** The rest of the registry ([scheduler.ts]) *)

(** [for (const x of xs) { await f(x) }] *)
Fixpoint forEach {A : Type} (xs : list A) (f : A -> M unit) : M unit :=
  match xs with
  | [] => ret tt
  | x :: xs' => run f x; forEach xs' f
  end.

(** [SchedulerService.initialize] *)
Definition initialize : M unit :=
  do d <- gets db;
  forEach (getAllActiveChats d) scheduleChat.

(** [SchedulerService.stopAll]; the jobs are visited in the order of the map. *)
Definition stopAll : M unit :=
  do jobs <- gets cronJobs;
  run forEach (map_to_list jobs)
        (fun entry => run job_stop (snd entry); job_destroy (snd entry));
  modify (set_cronJobs ∅).

(** [SchedulerService.restart] *)
Definition restart : M unit :=
  run stopAll;
  initialize.

(** The object returned by [getStatus]. *)
Record Status : Type := mkStatus {
  activeJobs : nat;
  scheduledChats : list string;
  nextExecutions : list (string * option string)
}.

(** [SchedulerService.getNextExecution] *)
Definition getNextExecution (job : nat) : option string :=
  Some "Next execution time calculation not implemented".

(** [SchedulerService.getStatus]; the keys come in the order of the map, in
    the program in the order in which they were set. *)
Definition getStatus (w : World) : Status :=
  let chatIds := map fst (map_to_list (cronJobs w)) in
  mkStatus (size (cronJobs w)) chatIds
    (map (fun chatId =>
            (chatId,
             match cronJobs w !! chatId with
             | Some job => getNextExecution job
             | None => None
             end)) chatIds).

(** *** The rest of the gate and of the speech-to-text service *)

(** [LLMProviderFactory.reset] *)
Definition LLMProviderFactory_reset : M unit := modify (set_instance None).

(** [SpeechToTextService.batchProcessAudioMessages] *)
Fixpoint batchProcessAudioMessages (msgs : list AudioJob)
  : M (list (string * option string)) :=
  match msgs with
  | [] => ret []
  | msg :: rest =>
      do entry <-
        try_catch
          (do transcript <- processAudioMessage (job_fileId msg) (job_messageId msg)
                              (job_filePath msg) (job_duration msg);
           ret (job_messageId msg, transcript))
          (fun e =>
             run logError "Failed to process audio message in batch" e;
             ret (job_messageId msg, None));
      do results <- batchProcessAudioMessages rest;
      ret (entry :: results)
  end.

(** *** The bot's middleware and commands ([bot.ts]) *)

(** A call of a method of the store: the store is what the method leaves,
    and what it throws is thrown on. *)
Definition dbCall {A : Type} (method : Db -> result A * Db) : M A :=
  do d <- gets db;
  run modify (set_db (snd (method d)));
  liftResult (fst (method d)).

(** [VladoBot.registerChatAndUser], for an update that has a chat and a
    sender. *)
Definition registerChatAndUser (chat : TgChat) (from : TgUser) : M unit :=
  do _ <- dbCall (fun d => upsertChat d (registeredChat chat));
  do _ <- dbCall (fun d => upsertUser d (registeredUser from));
  ret tt.

(** An update that has a chat and a sender, on its way through the
    registration middleware to its handler; what either throws ends in
    [bot.catch], which logs it. *)
Definition handleUpdate (chat : TgChat) (from : TgUser) (handler : M unit) : M unit :=
  try_catch
    (run registerChatAndUser chat from;
     handler)
    (fun e => logError "Bot error" e).

(** [ctx.reply(text)] *)
Definition reply (chat : TgChat) (txt : string) : M unit :=
  telegram_sendMessage (tg_chat_id chat) txt.

(** The handler of [/settime], for an update that has a chat. *)
Definition settime (chat : TgChat) (messageText : string) : M unit :=
  match tl (split_on " " messageText) with
  | [] => reply chat "❌ Укажите время в формате HH:MM
Пример: /settime 21:00"
  | time :: _ =>
      if negb (validateTimeFormat time) then
        reply chat "❌ Неверный формат времени. Используйте HH:MM
Пример: /settime 21:00"
      else
        run modify (fun w =>
              set_db (updateChatSettings (db w) (tg_chat_id chat)
                        (mkChatSettings (Some time) None None)) w);
        run updateChatSchedule (tg_chat_id chat);
        reply chat ("✅ Время ежедневного отчета установлено: " +:+ time)
  end.

(** The handlers of [/optout] and [/optin], for an update that has a chat
    and a sender. *)
Definition optout (chat : TgChat) (from : TgUser) : M unit :=
  run dbCall (fun d => setUserOptOut d (tg_user_id from) true);
  reply chat "✅ Ваши сообщения исключены из саммари".

Definition optin (chat : TgChat) (from : TgUser) : M unit :=
  run dbCall (fun d => setUserOptOut d (tg_user_id from) false);
  reply chat "✅ Ваши сообщения включены в саммари".

(** *** Statistics ([summarizer.ts]) *)

(** [d.setDate(d.getDate() - days)] for a whole number of days: the local
    day that many days before, same local time. *)
Definition daysAgo (now days : Z) : Z := JsDate.setDateBack tz now days.

(** [DailySummarizer.getSummaryStats], the two readings of the clock being
    [endNow] and [startNow]. *)
Definition getSummaryStats (d : Db) (chatId : string) (days : Z) (endNow startNow : Z)
  : SummaryStats :=
  let endDate := endNow in
  let startDate := daysAgo startNow days in
  let messages :=
    getMessagesForDateRange d chatId
      (JsDate.toISOString startDate) (JsDate.toISOString endDate) in
  let totalMessages := length messages in
  let counts := countRows messages in
  mkStats totalMessages
          (roundDiv (Z.of_nat totalMessages) days)
          (firstn 5 (sort_by_count (fst counts)))
          (snd counts).

(** [DatabaseManager.cleanupOldMessages], [new Date()] being [now]. *)
Definition cleanupOldMessages (d : Db) (daysToKeep : Z) (now : Z) : Db :=
  let cutoffDate := daysAgo now daysToKeep in
  deleteMessagesBefore d (JsDate.toISOString cutoffDate).

(** * Properties *)

(** ** Strings *)

Lemma append_empty_l (s : string) : "" +:+ s = s.
Proof. reflexivity. Qed.

Lemma append_String (c : ascii) (s1 s2 : string) :
  String c s1 +:+ s2 = String c (s1 +:+ s2).
Proof. reflexivity. Qed.

Lemma append_empty_r (s : string) : s +:+ "" = s.
Proof.
  induction s as [|c s IH]; [reflexivity|].
  rewrite append_String, IH. reflexivity.
Qed.

Lemma append_assoc (s1 s2 s3 : string) : (s1 +:+ s2) +:+ s3 = s1 +:+ (s2 +:+ s3).
Proof.
  induction s1 as [|c s1 IH]; [reflexivity|].
  rewrite !append_String, IH. reflexivity.
Qed.


(** ** The range query *)

Lemma insert_row_Permutation (r : Row) (l : list Row) : insert_row r l ≡ₚ r :: l.
Proof.
  induction l as [|x l IH]; simpl; [reflexivity|].
  destruct (String.leb _ _); [reflexivity|].
  rewrite IH. apply perm_swap.
Qed.

Lemma order_by_created_at_Permutation (l : list Row) : order_by_created_at l ≡ₚ l.
Proof.
  induction l as [|r l IH]; simpl; [reflexivity|].
  rewrite insert_row_Permutation, IH. reflexivity.
Qed.

(** The rows of the query: the stored messages of the chat from [startDate]
    on and strictly before [endDate], each with its author's row. *)
Lemma elem_of_getMessagesForDateRange (d : Db) (chatId startDate endDate : string) (r : Row) :
  r ∈ getMessagesForDateRange d chatId startDate endDate <->
  fst r ∈ messages d
  /\ users d !! Message.user_id (fst r) = Some (snd r)
  /\ Message.chat_id (fst r) = chatId
  /\ String.leb startDate (Message.created_at (fst r)) = true
  /\ String.ltb (Message.created_at (fst r)) endDate = true.
Proof.
  unfold getMessagesForDateRange.
  rewrite order_by_created_at_Permutation, list_elem_of_omap.
  split.
  - intros (m & Hm & Hj).
    apply list_elem_of_In, filter_In in Hm as [Hm Hr].
    unfold join_user in Hj.
    destruct (users d !! Message.user_id m) as [u|] eqn:Hu; [|discriminate].
    injection Hj as <-. simpl.
    unfold in_date_range in Hr.
    apply andb_true_iff in Hr as [Hr H3]. apply andb_true_iff in Hr as [H1 H2].
    apply String.eqb_eq in H1.
    repeat split; try assumption. apply list_elem_of_In; exact Hm.
  - intros (Hm & Hu & Hc & Hlo & Hhi). destruct r as [m u]; simpl in *.
    exists m. split.
    + apply list_elem_of_In, filter_In. split; [apply list_elem_of_In; exact Hm|].
      unfold in_date_range. rewrite Hlo, Hhi.
      apply String.eqb_eq in Hc. rewrite Hc. reflexivity.
    + unfold join_user. rewrite Hu. reflexivity.
Qed.

Lemma length_omap_same_domain {A B C : Type} (f : A -> option B) (g : A -> option C)
    (l : list A) :
  (forall x, x ∈ l -> (is_Some (f x) <-> is_Some (g x))) ->
  length (omap f l) = length (omap g l).
Proof.
  induction l as [|x l IH]; intros H; simpl; [reflexivity|].
  assert (Hx := H x (list_elem_of_here x l)).
  assert (IH' : length (omap f l) = length (omap g l)).
  { apply IH. intros y Hy. apply H. apply list_elem_of_further; exact Hy. }
  destruct (f x) as [b|] eqn:Ef, (g x) as [c|] eqn:Eg; simpl.
  - f_equal. exact IH'.
  - exfalso. apply (is_Some_None (A:=C)). apply Hx. eauto.
  - exfalso. apply (is_Some_None (A:=B)). apply Hx. eauto.
  - exact IH'.
Qed.

Lemma length_omap_total {A B : Type} (f : A -> option B) (l : list A) :
  (forall x, x ∈ l -> is_Some (f x)) -> length (omap f l) = length l.
Proof.
  induction l as [|x l IH]; intros H; simpl; [reflexivity|].
  destruct (H x (list_elem_of_here x l)) as [b ->]. simpl. f_equal.
  apply IH. intros y Hy. apply H. apply list_elem_of_further; exact Hy.
Qed.

Lemma join_user_is_Some (us : gmap string User.t) (m : Message.t) :
  is_Some (join_user us m) <-> is_Some (us !! Message.user_id m).
Proof.
  unfold join_user. destruct (us !! Message.user_id m).
  - split; intros _; eauto.
  - split; intros [? ?]; discriminate.
Qed.

(** With every author present the join loses no row. *)
Lemma length_getMessagesForDateRange (d : Db) (chatId startDate endDate : string) :
  foreign_keys d ->
  length (getMessagesForDateRange d chatId startDate endDate)
  = length (List.filter (in_date_range chatId startDate endDate) (messages d)).
Proof.
  intros FK. unfold getMessagesForDateRange.
  rewrite (Permutation_length (order_by_created_at_Permutation _)).
  apply length_omap_total.
  intros m Hm. apply join_user_is_Some.
  apply list_elem_of_In, filter_In in Hm as [Hm _].
  apply FK, list_elem_of_In; exact Hm.
Qed.

(** ** Opt-out in the digest generator *)

Lemma elem_of_filteredMessages (d : Db) (chatId : string) (date : Z) (r : Row) :
  r ∈ filteredMessages d chatId date <->
  r ∈ rawMessages d chatId date /\ User.is_opted_out (snd r) = false.
Proof.
  unfold filteredMessages.
  rewrite !list_elem_of_In, filter_In, negb_true_iff. reflexivity.
Qed.

(** The count of the rows of a day depends on the messages and on which
    users have a row, not on what the rows of the users say. *)
Lemma length_rawMessages_same_users (d later : Db) (chatId : string) (date : Z) :
  messages later = messages d ->
  (forall k : string, is_Some (users later !! k) <-> is_Some (users d !! k)) ->
  length (rawMessages later chatId date) = length (rawMessages d chatId date).
Proof.
  intros Hm Hu. unfold rawMessages, getMessagesForDateRange.
  rewrite !(Permutation_length (order_by_created_at_Permutation _)), Hm.
  apply length_omap_same_domain.
  intros m _. rewrite !join_user_is_Some. apply Hu.
Qed.

(** C3. The digest holds exactly the in-window rows whose author is not
    opted out when it is generated, while [totalCount] counts every
    in-window message, opted-out authors' included.  The flag is read when
    the digest is generated, not when a message is stored: in any later state
    of the store with the same messages and users in which the row of a user
    carries the flag, none of that user's messages is in the digest of a day
    already stored, and [totalCount] is what it was. *)
Theorem getMessagesForDate_opt_out (d : Db) (chatId : string) (date : Z) :
  foreign_keys d ->
  data_messages (getMessagesForDate d chatId date)
    = map (processRow d) (filteredMessages d chatId date)
  /\ (forall r : Row,
        r ∈ filteredMessages d chatId date <->
        r ∈ rawMessages d chatId date /\ User.is_opted_out (snd r) = false)
  /\ totalCount (getMessagesForDate d chatId date)
     = length (List.filter
                 (in_date_range chatId (JsDate.toISOString (startOfDay date))
                                (JsDate.toISOString (endOfDay date)))
                 (messages d))
  /\ (forall (later : Db) (userId : string) (u : User.t),
        messages later = messages d ->
        (forall k : string, is_Some (users later !! k) <-> is_Some (users d !! k)) ->
        users later !! userId = Some u -> User.is_opted_out u = true ->
        (forall r : Row,
           r ∈ filteredMessages later chatId date ->
           Message.user_id (fst r) <> userId)
        /\ (forall r : Row,
              r ∈ rawMessages d chatId date -> Message.user_id (fst r) = userId ->
              exists r' : Row,
                fst r' = fst r /\ r' ∈ rawMessages later chatId date
                /\ r' ∉ filteredMessages later chatId date)
        /\ totalCount (getMessagesForDate later chatId date)
           = totalCount (getMessagesForDate d chatId date)).
Proof.
  intros FK. split; [reflexivity|].
  split; [apply elem_of_filteredMessages|].
  split; [apply length_getMessagesForDateRange; exact FK|].
  intros later userId u Hm Hu Hrow Hflag.
  assert (Hdrop : forall r : Row,
            r ∈ filteredMessages later chatId date -> Message.user_id (fst r) <> userId).
  { intros r Hr Heq.
    apply elem_of_filteredMessages in Hr as [Hr Hout].
    apply elem_of_getMessagesForDateRange in Hr as (_ & Hjoin & _).
    rewrite Heq, Hrow in Hjoin. injection Hjoin as Hjoin.
    rewrite <- Hjoin, Hflag in Hout. discriminate. }
  split; [exact Hdrop|]. split.
  - intros r Hr Hid.
    apply elem_of_getMessagesForDateRange in Hr as (Hin & _ & Hrange).
    exists (fst r, u).
    assert (Hraw : (fst r, u) ∈ rawMessages later chatId date).
    { apply elem_of_getMessagesForDateRange. simpl.
      rewrite Hm, Hid. split; [exact Hin|]. split; [exact Hrow | exact Hrange]. }
    split; [reflexivity|]. split; [exact Hraw|].
    intros Hf. apply (Hdrop _ Hf). exact Hid.
  - simpl. apply length_rawMessages_same_users; assumption.
Qed.

(** ** A day without content *)

(** The empty-state text: the mention, then the fixed lines, with the
    count of zero among them. *)
Lemma generateEmptySummary_shape (target : string) :
  generateEmptySummary target <> ""
  /\ (exists rest : string, rest <> "" /\ generateEmptySummary target = target +:+ rest)
  /\ contains target (generateEmptySummary target)
  /\ contains ":** 0 " (generateEmptySummary target).
Proof.
  unfold generateEmptySummary.
  assert (Hsplit : EMPTY_SUMMARY_TAIL
                   = substring 0 379 EMPTY_SUMMARY_TAIL
                     +:+ ":** 0 " +:+ substring 385 622 EMPTY_SUMMARY_TAIL)
    by (vm_compute; reflexivity).
  assert (Htail : exists (c : ascii) (rest : string), EMPTY_SUMMARY_TAIL = String c rest)
    by (unfold EMPTY_SUMMARY_TAIL; eauto).
  destruct Htail as (c & rest & Htail).
  split; [|split; [|split]].
  - rewrite Htail. destruct target; [rewrite append_empty_l | rewrite append_String];
      discriminate.
  - exists EMPTY_SUMMARY_TAIL. split; [rewrite Htail; discriminate | reflexivity].
  - exists "", EMPTY_SUMMARY_TAIL. reflexivity.
  - exists (target +:+ substring 0 379 EMPTY_SUMMARY_TAIL),
      (substring 385 622 EMPTY_SUMMARY_TAIL).
    rewrite append_assoc. rewrite <- Hsplit. reflexivity.
Qed.

(** C5. When the digest of a chat and a date has no message after
    filtering, [shouldGenerateSummary] answers [false]; a scheduled fire
    whose target date it is returns with the state as it was, so nothing is
    sent; and [generateDailySummary] for a known chat returns the empty-state
    text, again with the state as it was, so neither the backend nor its
    availability probe is called.  That text is not empty: it is the target
    mention followed by the fixed lines, which give the count of the day as
    zero. *)
Theorem empty_day_is_suppressed_and_previewed (chatId : string) (date : Z) (w : World) :
  data_messages (getMessagesForDate (db w) chatId date) = [] ->
  shouldGenerateSummary chatId date w = (Ok false, w)
  /\ (forall (chat : Chat.t) (now : Z),
        Chat.chat_id chat = chatId -> yesterdayOf now = date ->
        executeDailyReport chat now w = (Ok tt, w))
  /\ (forall stored : Chat.t,
        getChat (db w) chatId = Some stored ->
        generateDailySummary chatId date w
        = (Ok (generateEmptySummary (Chat.target_username stored)), w))
  /\ (forall (stored : Chat.t) (txt : string),
        getChat (db w) chatId = Some stored ->
        fst (generateDailySummary chatId date w) = Ok txt ->
        txt <> ""
        /\ (exists rest : string, rest <> "" /\ txt = Chat.target_username stored +:+ rest)
        /\ contains (Chat.target_username stored) txt
        /\ contains ":** 0 " txt).
Proof.
  intros Hempty.
  assert (Hshould : shouldGenerateSummary chatId date w = (Ok false, w)).
  { unfold shouldGenerateSummary, bind, gets, ret. rewrite Hempty. reflexivity. }
  assert (Hpreview : forall stored : Chat.t,
            getChat (db w) chatId = Some stored ->
            generateDailySummary chatId date w
            = (Ok (generateEmptySummary (Chat.target_username stored)), w)).
  { intros stored Hchat.
    unfold generateDailySummary, try_catch, bind, gets.
    rewrite Hchat, Hempty. reflexivity. }
  split; [exact Hshould|]. split; [|split; [exact Hpreview|]].
  - intros chat now Hid Hdate.
    unfold executeDailyReport, try_catch, executeDailyReport_try.
    unfold bind at 1. rewrite Hid, Hdate, Hshould. reflexivity.
  - intros stored txt Hchat Htxt.
    rewrite (Hpreview stored Hchat) in Htxt. injection Htxt as <-.
    apply generateEmptySummary_shape.
Qed.

(** ** The fallback backend *)

Lemma FallbackProvider_text_shape (msgs : list ProcessedMessage.t) (context : SummaryContext) :
  exists head rest : string,
    FallbackProvider_generateSummary msgs context
    = targetUsername context +:+ head +:+ statisticsLine (totalMessages context) +:+ rest
    /\ head <> "".
Proof.
  unfold FallbackProvider_generateSummary, statisticsLine.
  generalize (natToString (totalMessages context)); intros n.
  exists " Снова не прочитал чат, пес? Соси огрызки:

📝 **Темы:** Обсуждение различных вопросов
".
  eexists. split; [|discriminate].
  rewrite !append_assoc. reflexivity.
Qed.

Lemma getProvider_unavailable (w : World) :
  instance w = None -> modelsList env (length (calls w)) = false ->
  getProvider w
  = (Ok FallbackProvider,
     set_instance (Some FallbackProvider) (set_calls (calls w ++ [CallModelsList]) w)).
Proof.
  intros Hi Hm.
  unfold getProvider, OpenAIProvider_isAvailable, bind, gets, clock, record, modify, ret.
  rewrite Hi. simpl. rewrite Hm. reflexivity.
Qed.

Lemma getLLMProvider_unavailable (w : World) :
  llmProvider w = None -> instance w = None ->
  modelsList env (length (calls w)) = false ->
  getLLMProvider w
  = (Ok FallbackProvider,
     set_llmProvider (Some FallbackProvider)
       (set_instance (Some FallbackProvider)
          (set_calls (calls w ++ [CallModelsList]) w))).
Proof.
  intros Hl Hi Hm. unfold getLLMProvider, bind, gets at 1.
  rewrite Hl, (getProvider_unavailable w Hi Hm). reflexivity.
Qed.

(** C8. With no backend chosen yet and the generative backend unavailable,
    the digest of a day with at least one message is rendered by the
    fallback provider: the only outside call is the availability probe, and
    the text is the template filled from the messages and the context alone,
    is not empty, and contains the target mention and the statistics line
    with the total message count.  The fallback provider itself returns that
    text in every state and leaves the state as it was. *)
Theorem fallback_render_guarantee (chatId : string) (date : Z) (stored : Chat.t) (w : World) :
  getChat (db w) chatId = Some stored ->
  data_messages (getMessagesForDate (db w) chatId date) <> [] ->
  llmProvider w = None -> instance w = None ->
  modelsList env (length (calls w)) = false ->
  let data := getMessagesForDate (db w) chatId date in
  let context :=
    mkSummaryContext (Chat.title stored) (toLocaleDateString env date)
                     (totalCount data) (Chat.target_username stored) in
  let txt := FallbackProvider_generateSummary (data_messages data) context in
  fst (generateDailySummary chatId date w) = Ok txt
  /\ calls (snd (generateDailySummary chatId date w))
     = (calls w ++ [CallModelsList])%list
  /\ (forall w' : World,
        generateSummary FallbackProvider (data_messages data) context w' = (Ok txt, w'))
  /\ txt <> ""
  /\ contains (Chat.target_username stored) txt
  /\ contains (statisticsLine (totalCount data)) txt.
Proof.
  intros Hchat Hne Hl Hi Hm data context txt.
  assert (Hrun : generateDailySummary chatId date w
                 = (Ok txt,
                    set_llmProvider (Some FallbackProvider)
                      (set_instance (Some FallbackProvider)
                         (set_calls (calls w ++ [CallModelsList]) w)))).
  { unfold generateDailySummary, try_catch. unfold bind at 1. unfold gets at 1.
    rewrite Hchat. fold data. change (data_messages data <> []) in Hne.
    assert (Hlen : (length (data_messages data) =? 0)%nat = false).
    { destruct (data_messages data); [congruence | reflexivity]. }
    rewrite Hlen. unfold bind. rewrite (getLLMProvider_unavailable w Hl Hi Hm).
    reflexivity. }
  rewrite Hrun. simpl.
  destruct (FallbackProvider_text_shape (data_messages data) context)
    as (head & rest & Hshape & Hhead).
  fold txt in Hshape. simpl in Hshape.
  split; [reflexivity|]. split; [reflexivity|].
  split; [intros w'; reflexivity|].
  split; [|split].
  - rewrite Hshape. intros Hnil.
    destruct (Chat.target_username stored); destruct head;
      rewrite ?append_String, ?append_empty_l in Hnil; discriminate || congruence.
  - exists "", (head +:+ statisticsLine (totalCount data) +:+ rest).
    rewrite append_empty_l. exact Hshape.
  - exists (Chat.target_username stored +:+ head), rest.
    rewrite Hshape, !append_assoc. reflexivity.
Qed.

(** ** What a fire leaves alone *)

Lemma same_registry_refl (w : World) : same_registry w w.
Proof. repeat split. Qed.

Lemma same_registry_trans (w1 w2 w3 : World) :
  same_registry w1 w2 -> same_registry w2 w3 -> same_registry w1 w3.
Proof.
  intros (A1 & A2 & A3) (B1 & B2 & B3).
  repeat split; congruence.
Qed.

Lemma preserves_ret {A : Type} (a : A) : preserves (ret a).
Proof. intros w r w' H. injection H as _ <-. apply same_registry_refl. Qed.

Lemma preserves_throw {A : Type} (e : string) : preserves (@throw A e).
Proof. intros w r w' H. injection H as _ <-. apply same_registry_refl. Qed.

Lemma preserves_gets {A : Type} (f : World -> A) : preserves (gets f).
Proof. intros w r w' H. injection H as _ <-. apply same_registry_refl. Qed.

Lemma preserves_modify (f : World -> World) :
  (forall w, same_registry w (f w)) -> preserves (modify f).
Proof. intros Hf w r w' H. injection H as _ <-. apply Hf. Qed.

Lemma preserves_bind {A B : Type} (m : M A) (f : A -> M B) :
  preserves m -> (forall a, preserves (f a)) -> preserves (bind m f).
Proof.
  intros Hm Hf w r w' H. unfold bind in H.
  destruct (m w) as [[a|e] w1] eqn:E.
  - eapply same_registry_trans; [eapply Hm; exact E | eapply Hf; exact H].
  - injection H as _ <-. eapply Hm; exact E.
Qed.

Lemma preserves_try_catch {A : Type} (m : M A) (h : string -> M A) :
  preserves m -> (forall e, preserves (h e)) -> preserves (try_catch m h).
Proof.
  intros Hm Hh w r w' H. unfold try_catch in H.
  destruct (m w) as [[a|e] w1] eqn:E.
  - injection H as _ <-. eapply Hm; exact E.
  - eapply same_registry_trans; [eapply Hm; exact E | eapply Hh; exact H].
Qed.

Lemma preserves_logError (event message : string) : preserves (logError event message).
Proof. apply preserves_modify. intros w. repeat split. Qed.

Lemma preserves_record (c : Call) : preserves (record c).
Proof. apply preserves_modify. intros w. repeat split. Qed.

Lemma preserves_clock : preserves clock.
Proof. apply preserves_gets. Qed.

Lemma preserves_liftResult {A : Type} (r : result A) : preserves (liftResult r).
Proof. destruct r; [apply preserves_ret | apply preserves_throw]. Qed.

Create HintDb frame.

#[local] Hint Resolve preserves_ret preserves_throw preserves_gets preserves_logError
  preserves_record preserves_clock preserves_liftResult : frame.

(** Take a computation apart along its binds, handlers and case analyses. *)
Ltac frame :=
  repeat first
    [ solve [auto with frame]
    | progress cbv zeta
    | apply preserves_bind; [|intros ?]
    | apply preserves_try_catch; [|intros ?]
    | apply preserves_modify; intros ?; repeat split
    | match goal with
      | |- preserves (match ?x with _ => _ end) => destruct x
      | |- preserves (if ?x then _ else _) => destruct x
      end ].

Lemma preserves_getProvider : preserves getProvider.
Proof. unfold getProvider, OpenAIProvider_isAvailable. frame. Qed.

Lemma preserves_getLLMProvider : preserves getLLMProvider.
Proof. unfold getLLMProvider. pose proof preserves_getProvider. frame. Qed.

Lemma preserves_generateSummary (p : Provider) (msgs : list ProcessedMessage.t)
    (context : SummaryContext) :
  preserves (generateSummary p msgs context).
Proof. unfold generateSummary, OpenAIProvider_generateSummary. frame. Qed.

Lemma preserves_generateDailySummary (chatId : string) (date : Z) :
  preserves (generateDailySummary chatId date).
Proof.
  unfold generateDailySummary.
  pose proof preserves_getLLMProvider. pose proof preserves_generateSummary.
  frame.
Qed.

Lemma preserves_shouldGenerateSummary (chatId : string) (date : Z) :
  preserves (shouldGenerateSummary chatId date).
Proof. unfold shouldGenerateSummary. frame. Qed.

Lemma preserves_telegram_sendMessage (chatId txt : string) :
  preserves (telegram_sendMessage chatId txt).
Proof. unfold telegram_sendMessage. frame. Qed.

Lemma preserves_executeDailyReport_try (chat : Chat.t) (now : Z) :
  preserves (executeDailyReport_try chat now).
Proof.
  unfold executeDailyReport_try.
  pose proof preserves_shouldGenerateSummary. pose proof preserves_generateDailySummary.
  pose proof preserves_telegram_sendMessage.
  frame.
Qed.

(** The handler of [executeDailyReport]: one attempt to send the notice. *)
Lemma executeDailyReport_catch (chat : Chat.t) (now : Z) (w w1 : World) (e : string) :
  executeDailyReport_try chat now w = (Throw e, w1) ->
  let chatId := Chat.chat_id chat in
  let logged := set_errors (errors w1 ++ [("Failed to execute daily report", e)]) w1 in
  executeDailyReport chat now w
  = match sendMessage env (length (calls w1)) chatId (errorNotice e) with
    | None =>
        (Ok tt,
         set_calls (calls w1 ++ [CallSendMessage chatId (errorNotice e) true]) logged)
    | Some sendError =>
        (Ok tt,
         set_errors (errors logged ++ [("Failed to send error notification", sendError)])
           (set_calls (calls w1 ++ [CallSendMessage chatId (errorNotice e) false]) logged))
    end.
Proof.
  intros Hbody chatId logged.
  unfold executeDailyReport, try_catch at 1. rewrite Hbody.
  unfold bind, logError, modify, try_catch, telegram_sendMessage, bind, clock, gets.
  simpl. fold chatId.
  destruct (sendMessage env (length (calls w1)) chatId (errorNotice e)); reflexivity.
Qed.

Lemma executeDailyReport_returns (chat : Chat.t) (now : Z) (w : World) :
  fst (executeDailyReport chat now w) = Ok tt.
Proof.
  destruct (executeDailyReport_try chat now w) as [[[]|e] w1] eqn:Hbody.
  - unfold executeDailyReport, try_catch. rewrite Hbody. reflexivity.
  - rewrite (executeDailyReport_catch chat now w w1 e Hbody).
    destruct (sendMessage env _ _ _); reflexivity.
Qed.

Lemma preserves_executeDailyReport (chat : Chat.t) (now : Z) :
  preserves (executeDailyReport chat now).
Proof.
  unfold executeDailyReport.
  pose proof preserves_executeDailyReport_try. pose proof preserves_telegram_sendMessage.
  frame.
Qed.

(** A fire of a started task runs the report for the chat the task captured
    when it was made. *)
Lemma fire_started_task (job : nat) (now : Z) (w : World) (t : ScheduledTask) :
  List.find (fun t => (task_id t =? job)%nat) (tasks w) = Some t ->
  task_running t = true ->
  fire job now w = executeDailyReport (task_chat t) now w.
Proof.
  intros Hfind Hrun. unfold fire, bind, gets. rewrite Hfind, Hrun. reflexivity.
Qed.

Lemma liveTimers_same_registry (chatId : string) (w w' : World) :
  same_registry w w' -> liveTimers chatId w' = liveTimers chatId w.
Proof. intros (_ & Ht & _). unfold liveTimers. rewrite Ht. reflexivity. Qed.

(** C9. When the work of a fire throws, whatever threw, [executeDailyReport]
    still returns normally; the map of jobs, the tasks and so every chat's
    live timers are as before the fire; the failure is logged; and exactly one
    attempt is made to send the error notice to the chat, which is delivered
    when the delivery channel accepts it. *)
Theorem fire_failure_is_contained (chat : Chat.t) (now : Z) (w w1 : World) (e : string) :
  executeDailyReport_try chat now w = (Throw e, w1) ->
  let w' := snd (executeDailyReport chat now w) in
  let chatId := Chat.chat_id chat in
  fst (executeDailyReport chat now w) = Ok tt
  /\ cronJobs w' = cronJobs w
  /\ tasks w' = tasks w
  /\ (forall c : string, liveTimers c w' = liveTimers c w)
  /\ In ("Failed to execute daily report", e) (errors w')
  /\ (exists ok : bool,
        calls w' = (calls w1 ++ [CallSendMessage chatId (errorNotice e) ok])%list)
  /\ (sendMessage env (length (calls w1)) chatId (errorNotice e) = None ->
      (chatId, errorNotice e) ∈ delivered w').
Proof.
  intros Hbody w' chatId.
  assert (Hsame : same_registry w w').
  { apply (preserves_executeDailyReport chat now w (fst (executeDailyReport chat now w))).
    apply surjective_pairing. }
  split; [apply executeDailyReport_returns|].
  split; [apply Hsame|]. split; [apply Hsame|].
  split; [intros c; apply liveTimers_same_registry; exact Hsame|].
  subst w'. rewrite (executeDailyReport_catch chat now w w1 e Hbody). fold chatId.
  destruct (sendMessage env (length (calls w1)) chatId (errorNotice e)) as [sendError|];
    simpl.
  - split; [apply in_or_app; left; apply in_or_app; right; left; reflexivity|].
    split; [exists false; reflexivity | discriminate].
  - split; [apply in_or_app; right; left; reflexivity|].
    split; [exists true; reflexivity|].
    intros _. unfold delivered. simpl.
    apply list_elem_of_omap. exists (CallSendMessage chatId (errorNotice e) true).
    split; [|reflexivity].
    apply list_elem_of_In, in_or_app. right. left. reflexivity.
Qed.

(** ** Lists *)

Lemma NoDup_fmap_filter {A B : Type} (f : A -> B) (p : A -> bool) (l : list A) :
  NoDup (f <$> l) -> NoDup (f <$> List.filter p l).
Proof.
  induction l as [|x l IH]; simpl; intros H; [exact H|].
  apply NoDup_cons in H as [Hx Hl].
  destruct (p x); simpl; [|apply IH, Hl].
  apply NoDup_cons. split; [|apply IH, Hl].
  intros Hin. apply Hx.
  apply list_elem_of_fmap in Hin as (y & Hy & Hin).
  apply list_elem_of_fmap. exists y. split; [exact Hy|].
  apply list_elem_of_In, filter_In in Hin as [Hin _]. apply list_elem_of_In, Hin.
Qed.

Lemma elem_of_filter_bool {A : Type} (p : A -> bool) (l : list A) (x : A) :
  x ∈ List.filter p l <-> x ∈ l /\ p x = true.
Proof. rewrite !list_elem_of_In. apply filter_In. Qed.

(** ** The registry *)

Lemma lookup_map_task (f : ScheduledTask -> ScheduledTask) (job i : nat)
    (ts : list ScheduledTask) :
  map_task f job ts !! i
  = (fun t => if (task_id t =? job)%nat then f t else t) <$> (ts !! i).
Proof. unfold map_task. apply list_lookup_fmap. Qed.

(** What [unscheduleChat] does to the state: with a job in the map the task
    is stopped and the call of [destroy] throws, before the entry is
    deleted. *)
Lemma unscheduleChat_run (chatId : string) (w : World) :
  unscheduleChat chatId w
  = match cronJobs w !! chatId with
    | Some job => (Throw destroyError, stopped job w)
    | None => (Ok tt, w)
    end.
Proof.
  unfold unscheduleChat, bind, gets.
  destruct (cronJobs w !! chatId); reflexivity.
Qed.

(** What [scheduleChat] does to the state. *)
Lemma scheduleChat_run (chat : Chat.t) (w : World) :
  let chatId := Chat.chat_id chat in
  let expression := cronExpression (Chat.report_time chat) in
  let failed (e : string) (v : World) :=
    (Ok tt, set_errors (errors v ++ [("Failed to schedule chat", e)]) v) in
  scheduleChat chat w
  = match cronJobs w !! chatId with
    | Some job => failed destroyError (stopped job w)
    | None =>
        if cronValidate expression then
          match cronScheduleError expression (Chat.timezone chat) with
          | Some e => failed e w
          | None =>
              let job := length (tasks w) in
              let created :=
                (tasks w ++ [mkTask job chat expression (Chat.timezone chat) false])%list in
              (Ok tt,
               set_tasks (map_task (with_running true) job created)
                 (set_cronJobs (<[chatId := job]> (cronJobs w)) (set_tasks created w)))
          end
        else failed ("Invalid cron expression: " +:+ expression) w
    end.
Proof.
  intros chatId expression failed.
  unfold scheduleChat, try_catch, scheduleChat_try. unfold bind at 1.
  fold chatId expression. rewrite unscheduleChat_run.
  destruct (cronJobs w !! chatId); [reflexivity|].
  destruct (cronValidate expression); simpl; [|reflexivity].
  unfold cron_schedule.
  destruct (cronScheduleError expression (Chat.timezone chat)); reflexivity.
Qed.

Lemma scheduleChat_returns (chat : Chat.t) (w : World) :
  fst (scheduleChat chat w) = Ok tt.
Proof.
  rewrite scheduleChat_run.
  destruct (cronJobs w !! _); [reflexivity|].
  destruct (cronValidate _); [destruct (cronScheduleError _ _)|]; reflexivity.
Qed.

Lemma scheduleChat_db (chat : Chat.t) (w : World) :
  db (snd (scheduleChat chat w)) = db w.
Proof.
  rewrite scheduleChat_run.
  destruct (cronJobs w !! _); [reflexivity|].
  destruct (cronValidate _); [destruct (cronScheduleError _ _)|]; reflexivity.
Qed.

Lemma unscheduleChat_db (chatId : string) (w : World) :
  db (snd (unscheduleChat chatId w)) = db w.
Proof. rewrite unscheduleChat_run. destruct (cronJobs w !! chatId); reflexivity. Qed.

(** *** The invariants *)

Lemma registry_ok_initial (d : Db) : registry_ok (initialWorld d).
Proof.
  repeat split; simpl.
  - intros i t H. rewrite lookup_nil in H. discriminate.
  - intros i t H. rewrite lookup_nil in H. discriminate.
  - intros c j H. rewrite lookup_empty in H. discriminate.
Qed.

Lemma registry_ok_sound (w : World) : registry_ok w -> registry_sound w.
Proof.
  intros (I1 & I2 & I3). split; [exact I1|]. split; [exact I2|].
  intros c j Hc. destruct (I3 c j Hc) as (t & Ht & _ & Hchat). eauto.
Qed.

Lemma registry_sound_initial (d : Db) : registry_sound (initialWorld d).
Proof. apply registry_ok_sound, registry_ok_initial. Qed.

(** The tasks after [job.stop()], position by position. *)
Lemma lookup_stopped (job i : nat) (t : ScheduledTask) (w : World) :
  (forall (i : nat) (t : ScheduledTask), tasks w !! i = Some t -> task_id t = i) ->
  tasks (stopped job w) !! i = Some t ->
  exists t0, tasks w !! i = Some t0
             /\ t = (if (i =? job)%nat then with_running false t0 else t0).
Proof.
  intros I1 Ht. unfold stopped in Ht. simpl in Ht. rewrite lookup_map_task in Ht.
  destruct (tasks w !! i) as [t0|] eqn:E0; [|discriminate].
  exists t0. split; [reflexivity|].
  simpl in Ht. rewrite (I1 i t0 E0) in Ht. congruence.
Qed.

Lemma stopped_sound (job : nat) (w : World) :
  registry_sound w -> registry_sound (stopped job w).
Proof.
  intros (I1 & I2 & I3). repeat split.
  - intros i t Ht. destruct (lookup_stopped job i t w I1 Ht) as (t0 & E0 & ->).
    destruct (i =? job)%nat; simpl; apply (I1 i t0 E0).
  - intros i t Ht Hrun. destruct (lookup_stopped job i t w I1 Ht) as (t0 & E0 & ->).
    destruct (i =? job)%nat; simpl in *; [discriminate|]. apply (I2 i t0 E0 Hrun).
  - intros c j Hc. simpl in Hc. destruct (I3 c j Hc) as (t & Ht & Hchat).
    unfold stopped. simpl. rewrite lookup_map_task, Ht. simpl.
    destruct (task_id t =? job)%nat; eauto.
Qed.

(** The tasks after a registration that goes through, position by
    position: the tasks there were, and the new one, started. *)
Lemma lookup_created (chat : Chat.t) (expression zone : string) (i : nat)
    (t : ScheduledTask) (ts : list ScheduledTask) :
  (forall (i : nat) (t : ScheduledTask), ts !! i = Some t -> task_id t = i) ->
  map_task (with_running true) (length ts)
    (ts ++ [mkTask (length ts) chat expression zone false]) !! i = Some t ->
  (i < length ts /\ ts !! i = Some t)
  \/ (i = length ts /\ t = mkTask (length ts) chat expression zone true).
Proof.
  intros I1 Ht. rewrite lookup_map_task in Ht.
  destruct (decide (i < length ts)) as [Hlt|Hge].
  - rewrite lookup_app_l in Ht by exact Hlt.
    destruct (ts !! i) as [t0|] eqn:E0; [|discriminate]. simpl in Ht.
    rewrite (I1 i t0 E0) in Ht.
    assert (E : (i =? length ts)%nat = false) by (apply Nat.eqb_neq; lia).
    rewrite E in Ht. left. split; [exact Hlt | congruence].
  - rewrite lookup_app_r in Ht by lia.
    destruct (i - length ts) as [|k] eqn:Ek; simpl in Ht;
      [|rewrite ?lookup_nil in Ht; discriminate].
    rewrite Nat.eqb_refl in Ht. right. split; [lia|].
    injection Ht as <-. reflexivity.
Qed.

Lemma lookup_created_new (chat : Chat.t) (expression zone : string)
    (ts : list ScheduledTask) :
  map_task (with_running true) (length ts)
    (ts ++ [mkTask (length ts) chat expression zone false]) !! length ts
  = Some (mkTask (length ts) chat expression zone true).
Proof.
  rewrite lookup_map_task, lookup_app_r by lia.
  rewrite Nat.sub_diag. simpl. rewrite Nat.eqb_refl. reflexivity.
Qed.

Lemma lookup_created_old (chat : Chat.t) (expression zone : string) (j : nat)
    (t : ScheduledTask) (ts : list ScheduledTask) :
  (forall (i : nat) (t : ScheduledTask), ts !! i = Some t -> task_id t = i) ->
  ts !! j = Some t ->
  map_task (with_running true) (length ts)
    (ts ++ [mkTask (length ts) chat expression zone false]) !! j = Some t.
Proof.
  intros I1 Ht. pose proof (lookup_lt_Some _ _ _ Ht) as Hlt.
  rewrite lookup_map_task, lookup_app_l by exact Hlt.
  rewrite Ht. simpl. rewrite (I1 j t Ht).
  assert (E : (j =? length ts)%nat = false) by (apply Nat.eqb_neq; lia).
  rewrite E. reflexivity.
Qed.

Lemma scheduleChat_sound (chat : Chat.t) (w : World) :
  registry_sound w -> registry_sound (snd (scheduleChat chat w)).
Proof.
  intros Hw. rewrite scheduleChat_run.
  destruct (cronJobs w !! Chat.chat_id chat) as [job|] eqn:Habs;
    [exact (stopped_sound job w Hw)|].
  set (expression := cronExpression (Chat.report_time chat)).
  destruct (cronValidate expression); [|exact Hw].
  destruct (cronScheduleError expression (Chat.timezone chat)); [exact Hw|].
  destruct Hw as (I1 & I2 & I3). repeat split; simpl.
  - intros i t Ht. destruct (lookup_created _ _ _ i t _ I1 Ht) as [[_ H0] | [-> ->]];
      [apply (I1 i t H0) | reflexivity].
  - intros i t Ht Hrun. destruct (lookup_created _ _ _ i t _ I1 Ht) as [[Hlt H0] | [-> ->]].
    + assert (Hc : Chat.chat_id (task_chat t) <> Chat.chat_id chat).
      { intros Heq. pose proof (I2 i t H0 Hrun) as H. rewrite Heq, Habs in H. discriminate. }
      rewrite lookup_insert_ne by congruence. apply (I2 i t H0 Hrun).
    + simpl. apply lookup_insert_eq.
  - intros c j Hc.
    destruct (decide (c = Chat.chat_id chat)) as [->|Hne].
    + rewrite lookup_insert_eq in Hc. injection Hc as <-.
      eexists. split; [apply lookup_created_new | reflexivity].
    + rewrite lookup_insert_ne in Hc by congruence.
      destruct (I3 c j Hc) as (t & Ht & Hchat).
      exists t. split; [apply lookup_created_old; assumption | exact Hchat].
Qed.

(** A first registration, of a chat that has no job, keeps the registry
    consistent. *)
Lemma scheduleChat_fresh_ok (chat : Chat.t) (w : World) :
  registry_ok w -> cronJobs w !! Chat.chat_id chat = None ->
  registry_ok (snd (scheduleChat chat w)).
Proof.
  intros Hw Habs.
  pose proof (scheduleChat_sound chat w (registry_ok_sound w Hw)) as (S1 & S2 & _).
  split; [exact S1|]. split; [exact S2|].
  rewrite scheduleChat_run, Habs.
  destruct Hw as (I1 & I2 & I3).
  set (expression := cronExpression (Chat.report_time chat)).
  destruct (cronValidate expression); [|exact I3].
  destruct (cronScheduleError expression (Chat.timezone chat)); [exact I3|].
  simpl. intros c j Hc.
  destruct (decide (c = Chat.chat_id chat)) as [->|Hne].
  - rewrite lookup_insert_eq in Hc. injection Hc as <-.
    eexists. split; [apply lookup_created_new | split; reflexivity].
  - rewrite lookup_insert_ne in Hc by congruence.
    destruct (I3 c j Hc) as (t & Ht & Hrun & Hchat).
    exists t. split; [apply lookup_created_old; assumption | split; assumption].
Qed.

Lemma unscheduleChat_sound (chatId : string) (w : World) :
  registry_sound w -> registry_sound (snd (unscheduleChat chatId w)).
Proof.
  intros Hw. rewrite unscheduleChat_run.
  destruct (cronJobs w !! chatId) as [job|]; [exact (stopped_sound job w Hw) | exact Hw].
Qed.

Lemma runOp_sound (op : RegistryOp) (w : World) :
  registry_sound w -> registry_sound (runOp op w).
Proof.
  destruct op; simpl; [apply scheduleChat_sound | apply unscheduleChat_sound].
Qed.

Lemma runOps_sound (ops : list RegistryOp) (w : World) :
  registry_sound w -> registry_sound (runOps ops w).
Proof.
  revert w. induction ops as [|op ops IH]; intros w Hw; simpl; [exact Hw|].
  apply IH, runOp_sound, Hw.
Qed.

(** ** Counting live timers *)

Lemma filter_none {A : Type} (p : A -> bool) (l : list A) :
  (forall (i : nat) (x : A), l !! i = Some x -> p x = false) -> List.filter p l = [].
Proof.
  induction l as [|x l IH]; intros H; simpl; [reflexivity|].
  rewrite (H 0 x eq_refl). apply IH. intros i y Hy. apply (H (S i) y Hy).
Qed.

(** If only position [j] can satisfy [p], the filter keeps what is there. *)
Lemma filter_single {A : Type} (p : A -> bool) (l : list A) (j : nat) :
  (forall (i : nat) (x : A), l !! i = Some x -> p x = true -> i = j) ->
  length (List.filter p l)
  = match l !! j with
    | Some x => if p x then 1 else 0
    | None => 0
    end.
Proof.
  revert j. induction l as [|x l IH]; intros j H; simpl.
  - destruct j; reflexivity.
  - destruct j as [|j]; simpl.
    + rewrite (filter_none p l).
      * destruct (p x); reflexivity.
      * intros i y Hy. destruct (p y) eqn:E; [|reflexivity].
        specialize (H (S i) y Hy E). discriminate.
    + destruct (p x) eqn:E; [specialize (H 0 x eq_refl E); discriminate|].
      apply IH. intros i y Hy Hp. specialize (H (S i) y Hy Hp). lia.
Qed.

(** A chat has a live timer when the task the map holds for it is started,
    and then it has one. *)
Lemma liveTimers_sound_count (c : string) (w : World) :
  registry_sound w ->
  length (liveTimers c w)
  = match cronJobs w !! c with
    | Some j =>
        match tasks w !! j with
        | Some t => if task_running t then 1 else 0
        | None => 0
        end
    | None => 0
    end.
Proof.
  intros (I1 & I2 & I3). unfold liveTimers.
  set (p := fun t : ScheduledTask =>
              task_running t && String.eqb (Chat.chat_id (task_chat t)) c).
  assert (Hp : forall i t, tasks w !! i = Some t -> p t = true -> cronJobs w !! c = Some i).
  { intros i t Ht Hpt. apply andb_true_iff in Hpt as [Hrun Hc].
    apply String.eqb_eq in Hc. rewrite <- Hc. apply (I2 i t Ht Hrun). }
  destruct (cronJobs w !! c) as [j|] eqn:Hj.
  - rewrite (filter_single p (tasks w) j).
    + destruct (I3 c j Hj) as (t & Ht & Hc). rewrite Ht.
      unfold p. rewrite Hc, String.eqb_refl, andb_true_r. reflexivity.
    + intros i t Ht Hpt. specialize (Hp i t Ht Hpt). congruence.
  - rewrite (filter_none p (tasks w)); [reflexivity|].
    intros i t Ht. destruct (p t) eqn:E; [|reflexivity].
    specialize (Hp i t Ht E). discriminate.
Qed.

(** In a consistent registry a chat has one live timer if the map has an
    entry for it and none otherwise. *)
Lemma liveTimers_count (c : string) (w : World) :
  registry_ok w ->
  length (liveTimers c w) = match cronJobs w !! c with Some _ => 1 | None => 0 end.
Proof.
  intros Hw. rewrite (liveTimers_sound_count c w (registry_ok_sound w Hw)).
  destruct Hw as (_ & _ & I3).
  destruct (cronJobs w !! c) as [j|] eqn:Hj; [|reflexivity].
  destruct (I3 c j Hj) as (t & -> & -> & _). reflexivity.
Qed.

Lemma liveTimers_le_one (c : string) (w : World) :
  registry_sound w -> length (liveTimers c w) <= 1.
Proof.
  intros Hw. rewrite (liveTimers_sound_count c w Hw).
  destruct (cronJobs w !! c) as [j|]; [|lia].
  destruct (tasks w !! j) as [t|]; [|lia]. destruct (task_running t); lia.
Qed.

Lemma length_zero_nil {A : Type} (l : list A) : length l = 0 -> l = [].
Proof. destruct l; [reflexivity | discriminate]. Qed.

(** Once its job is stopped a chat has no live timer. *)
Lemma liveTimers_stopped (c : string) (job : nat) (w : World) :
  registry_sound w -> cronJobs w !! c = Some job -> liveTimers c (stopped job w) = [].
Proof.
  intros Hw Hjob. apply length_zero_nil.
  rewrite (liveTimers_sound_count c _ (stopped_sound job w Hw)).
  change (cronJobs (stopped job w)) with (cronJobs w). rewrite Hjob.
  unfold stopped. simpl. rewrite lookup_map_task.
  destruct Hw as (I1 & _ & _).
  destruct (tasks w !! job) as [t|] eqn:Ht; [|reflexivity].
  simpl. rewrite (I1 job t Ht), Nat.eqb_refl. reflexivity.
Qed.

Lemma filter_fmap_stable {A : Type} (p : A -> bool) (f : A -> A) (l : list A) :
  (forall x : A, x ∈ l -> p (f x) = p x /\ (p x = true -> f x = x)) ->
  List.filter p (f <$> l) = List.filter p l.
Proof.
  induction l as [|x l IH]; intros H; [reflexivity|].
  destruct (H x (list_elem_of_here x l)) as [Hp Hf].
  rewrite fmap_cons. cbn [List.filter].
  rewrite Hp, IH by (intros y Hy; apply H, list_elem_of_further, Hy).
  destruct (p x); [rewrite Hf by reflexivity|]; reflexivity.
Qed.

(** Stopping the job of one chat leaves the live timers of the others. *)
Lemma liveTimers_stopped_other (c c' : string) (job : nat) (w : World) :
  registry_sound w -> cronJobs w !! c = Some job -> c' <> c ->
  liveTimers c' (stopped job w) = liveTimers c' w.
Proof.
  intros (I1 & I2 & I3) Hjob Hne. unfold liveTimers, stopped, map_task. simpl.
  apply filter_fmap_stable. intros t Ht.
  destruct (task_id t =? job)%nat eqn:E; [|split; reflexivity].
  apply Nat.eqb_eq in E.
  apply list_elem_of_lookup in Ht as [i Hi].
  pose proof (I1 i t Hi) as Hid. rewrite E in Hid. subst i.
  destruct (I3 c job Hjob) as (t' & Ht' & Hchat).
  rewrite Hi in Ht'. injection Ht' as <-.
  assert (Hc : String.eqb (Chat.chat_id (task_chat t)) c' = false)
    by (apply String.eqb_neq; congruence).
  simpl. rewrite Hc, !andb_false_r. split; [reflexivity | discriminate].
Qed.

Lemma map_task_created (chat : Chat.t) (expression zone : string)
    (ts : list ScheduledTask) :
  (forall (i : nat) (t : ScheduledTask), ts !! i = Some t -> task_id t = i) ->
  map_task (with_running true) (length ts)
    (ts ++ [mkTask (length ts) chat expression zone false])
  = (ts ++ [mkTask (length ts) chat expression zone true])%list.
Proof.
  intros I1. apply list_eq. intros i.
  destruct (decide (i < length ts)) as [Hlt|Hge].
  - destruct (lookup_lt_is_Some_2 ts i Hlt) as [t Ht].
    rewrite (lookup_created_old _ _ _ i t ts I1 Ht).
    rewrite lookup_app_l by exact Hlt. symmetry. exact Ht.
  - destruct (decide (i = length ts)) as [->|Hne].
    + rewrite lookup_created_new, lookup_app_r by lia.
      rewrite Nat.sub_diag. reflexivity.
    + rewrite lookup_map_task.
      rewrite !lookup_ge_None_2; [reflexivity | |];
        rewrite length_app; simpl; lia.
Qed.

(** What a registration does to the chat registered. *)
Lemma scheduleChat_self (chat : Chat.t) (w : World) :
  registry_sound w ->
  length (liveTimers (Chat.chat_id chat) (snd (scheduleChat chat w)))
  = match cronJobs w !! Chat.chat_id chat with
    | Some _ => 0
    | None => if registers chat then 1 else 0
    end.
Proof.
  intros Hw.
  pose proof (liveTimers_sound_count (Chat.chat_id chat) _ (scheduleChat_sound chat w Hw))
    as Hcount.
  pose proof (liveTimers_sound_count (Chat.chat_id chat) w Hw) as Hbefore.
  rewrite scheduleChat_run in Hcount |- *. unfold registers.
  destruct (cronJobs w !! Chat.chat_id chat) as [job|] eqn:Hjob.
  - transitivity (length (liveTimers (Chat.chat_id chat) (stopped job w)));
      [reflexivity|].
    rewrite (liveTimers_stopped _ job w Hw Hjob). reflexivity.
  - destruct (cronValidate _); [|exact Hbefore].
    destruct (cronScheduleError _ _); [exact Hbefore|].
    refine (eq_trans Hcount _). simpl.
    rewrite lookup_insert_eq, lookup_created_new. reflexivity.
Qed.

(** What a registration does to the other chats: nothing. *)
Lemma scheduleChat_other (chat : Chat.t) (c : string) (w : World) :
  registry_sound w -> c <> Chat.chat_id chat ->
  cronJobs (snd (scheduleChat chat w)) !! c = cronJobs w !! c
  /\ liveTimers c (snd (scheduleChat chat w)) = liveTimers c w.
Proof.
  intros Hw Hne. rewrite scheduleChat_run.
  destruct (cronJobs w !! Chat.chat_id chat) as [job|] eqn:Hjob.
  - split; [reflexivity|].
    exact (liveTimers_stopped_other (Chat.chat_id chat) c job w Hw Hjob Hne).
  - destruct (cronValidate _); [|split; reflexivity].
    destruct (cronScheduleError _ _); [split; reflexivity|].
    simpl. split; [apply lookup_insert_ne; congruence|].
    destruct Hw as (I1 & _ & _).
    unfold liveTimers. simpl. rewrite (map_task_created _ _ _ _ I1).
    rewrite List.filter_app. simpl.
    assert (Hc : String.eqb (Chat.chat_id chat) c = false)
      by (apply String.eqb_neq; congruence).
    rewrite Hc. simpl. apply app_nil_r.
Qed.

(** The task a registration that goes through leaves for the chat. *)
Lemma scheduleChat_live_task (chat : Chat.t) (w : World) (t : ScheduledTask) :
  registry_sound w ->
  t ∈ liveTimers (Chat.chat_id chat) (snd (scheduleChat chat w)) ->
  task_chat t = chat
  /\ task_expression t = cronExpression (Chat.report_time chat)
  /\ task_timezone t = Chat.timezone chat.
Proof.
  intros Hw Ht.
  pose proof (scheduleChat_sound chat w Hw) as (_ & I2 & _).
  pose proof (liveTimers_sound_count (Chat.chat_id chat) w Hw) as Hbefore.
  unfold liveTimers in Ht. apply elem_of_filter_bool in Ht as [Hin Hp].
  apply andb_true_iff in Hp as [Hrun Hc]. apply String.eqb_eq in Hc.
  apply list_elem_of_lookup in Hin as [i Hi].
  pose proof (I2 i t Hi Hrun) as Hjob. rewrite Hc in Hjob.
  rewrite scheduleChat_run in Hi, Hjob.
  destruct (cronJobs w !! Chat.chat_id chat) as [job|] eqn:Hold.
  - exfalso. simpl in Hi, Hjob. rewrite Hold in Hjob. injection Hjob as <-.
    destruct Hw as (I1 & _ & _).
    destruct (lookup_stopped job job t w I1 Hi) as (t0 & _ & ->).
    rewrite Nat.eqb_refl in Hrun. discriminate.
  - assert (Hnone : liveTimers (Chat.chat_id chat) w = [])
      by (apply length_zero_nil; exact Hbefore).
    assert (Hold_task : tasks w !! i = Some t -> False).
    { intros Hi0.
      assert (Hel : t ∈ liveTimers (Chat.chat_id chat) w).
      { unfold liveTimers. apply elem_of_filter_bool.
        split; [apply list_elem_of_lookup; eauto|].
        rewrite Hrun, Hc, String.eqb_refl. reflexivity. }
      rewrite Hnone in Hel. inversion Hel. }
    destruct (cronValidate _); [|exfalso; exact (Hold_task Hi)].
    destruct (cronScheduleError _ _); [exfalso; exact (Hold_task Hi)|].
    simpl in Hi. destruct Hw as (I1 & _ & _).
    destruct (lookup_created _ _ _ i t _ I1 Hi) as [[_ H0] | [_ ->]];
      [exfalso; exact (Hold_task H0)|].
    repeat split; reflexivity.
Qed.

(** C4, where the code misses the claim.  When the map already holds a job
    for the chat, [scheduleChat] stops that job and then fails on
    [job.destroy()]; the failure is caught and logged, no new task is made and
    the map is as it was: the call returns normally and the chat is left
    with no live timer at all, whether or not its registration would go
    through.  In no state that [scheduleChat] and [unscheduleChat] reach
    from the start does a chat have two live timers. *)
Theorem scheduleChat_again_leaves_no_timer (chat : Chat.t) (w : World) (job : nat) :
  registry_sound w ->
  cronJobs w !! Chat.chat_id chat = Some job ->
  let w' := snd (scheduleChat chat w) in
  fst (scheduleChat chat w) = Ok tt
  /\ liveTimers (Chat.chat_id chat) w' = []
  /\ cronJobs w' = cronJobs w
  /\ length (tasks w') = length (tasks w)
  /\ errors w' = (errors w ++ [("Failed to schedule chat", destroyError)])%list
  /\ (forall (d : Db) (ops : list RegistryOp) (c : string),
        length (liveTimers c (runOps ops (initialWorld d))) <= 1).
Proof.
  intros Hw Hjob w'.
  split; [apply scheduleChat_returns|].
  assert (E : w' = set_errors (errors w ++ [("Failed to schedule chat", destroyError)])
                     (stopped job w)).
  { subst w'. rewrite scheduleChat_run, Hjob. reflexivity. }
  rewrite E. simpl.
  split; [exact (liveTimers_stopped _ job w Hw Hjob)|].
  split; [reflexivity|].
  split; [unfold map_task; apply length_fmap|].
  split; [reflexivity|].
  intros d ops c. apply liveTimers_le_one, runOps_sound, registry_sound_initial.
Qed.

(** C1, as the code has it.  When the cron expression built from the
    report time is rejected, or making the task throws, [scheduleChat] still
    returns normally and logs a failure; the chat is left with no live timer,
    the one it had before having been stopped, and the jobs and live timers
    of the other chats are as they were. *)
Theorem scheduleChat_failure_is_swallowed (chat : Chat.t) (w : World) :
  registry_sound w ->
  registers chat = false ->
  let w' := snd (scheduleChat chat w) in
  let chatId := Chat.chat_id chat in
  fst (scheduleChat chat w) = Ok tt
  /\ liveTimers chatId w' = []
  /\ (forall c : string, c <> chatId ->
        cronJobs w' !! c = cronJobs w !! c /\ liveTimers c w' = liveTimers c w)
  /\ (exists e : string,
        errors w' = (errors w ++ [("Failed to schedule chat", e)])%list).
Proof.
  intros Hw Hfail w' chatId.
  split; [apply scheduleChat_returns|]. split.
  - apply length_zero_nil. subst w' chatId.
    rewrite (scheduleChat_self chat w Hw), Hfail.
    destruct (cronJobs w !! Chat.chat_id chat); reflexivity.
  - split; [intros c Hc; exact (scheduleChat_other chat c w Hw Hc)|].
    subst w'. rewrite scheduleChat_run. unfold registers in Hfail.
    destruct (cronJobs w !! Chat.chat_id chat); [simpl; eauto|].
    destruct (cronValidate _); simpl in *.
    + destruct (cronScheduleError _ _) as [e|]; [|discriminate]. simpl. eauto.
    + eauto.
Qed.

(** ** Writing a transcript twice *)

Lemma insertTranscript_present (d : Db) (tr : Transcript.t) :
  is_Some (getTranscript (snd (insertTranscript d tr))
             (Transcript.message_id tr) (Transcript.file_id tr)).
Proof.
  unfold insertTranscript, getTranscript.
  destruct (transcripts d !! _) eqn:E; simpl.
  - rewrite E. eauto.
  - rewrite lookup_insert_eq. eauto.
Qed.

Lemma insertTranscript_rejected (d : Db) (tr : Transcript.t) :
  is_Some (getTranscript d (Transcript.message_id tr) (Transcript.file_id tr)) ->
  is_throw (fst (insertTranscript d tr)) = true /\ snd (insertTranscript d tr) = d.
Proof.
  intros [old Hold]. unfold insertTranscript, getTranscript in *.
  rewrite Hold. split; reflexivity.
Qed.

(** C6. After a first write for a (message, media) pair, a second write for
    the same pair, with whatever text, is rejected by the [UNIQUE] constraint
    and leaves the store as the first write left it, so the stored transcript
    is the one it was; the first write stores its row when the pair was free.
    And when a row exists [processAudioMessage] returns its text with the
    state as it was: nothing is transcribed again and nothing is written. *)
Theorem transcript_write_is_idempotent
    (d : Db) (tr : Transcript.t) (txt : string) (lang : option string) (dur : option Z) :
  let messageId := Transcript.message_id tr in
  let fileId := Transcript.file_id tr in
  let d1 := snd (insertTranscript d tr) in
  let again := insertTranscript d1 (Transcript.mk messageId fileId txt lang dur) in
  snd again = d1
  /\ is_throw (fst again) = true
  /\ getTranscript (snd again) messageId fileId = getTranscript d1 messageId fileId
  /\ (getTranscript d messageId fileId = None ->
      getTranscript d1 messageId fileId = Some tr)
  /\ (forall (w : World) (existing : Transcript.t) (filePath : string) (duration : option Z),
        getTranscript (db w) messageId fileId = Some existing ->
        processAudioMessage fileId messageId filePath duration w
        = (Ok (Some (Transcript.transcript_text existing)), w)).
Proof.
  intros messageId fileId d1 again.
  pose proof (insertTranscript_present d tr) as Hpresent. fold d1 messageId fileId in Hpresent.
  destruct (insertTranscript_rejected d1 (Transcript.mk messageId fileId txt lang dur) Hpresent)
    as [Hthrow Hsame].
  fold again in Hthrow, Hsame.
  split; [exact Hsame|]. split; [exact Hthrow|]. split; [rewrite Hsame; reflexivity|].
  split.
  - intros Hfree. subst d1. unfold insertTranscript, getTranscript in *.
    fold messageId fileId. rewrite Hfree. simpl. apply lookup_insert_eq.
  - intros w existing filePath duration Hex.
    unfold processAudioMessage, try_catch, bind, gets. rewrite Hex. reflexivity.
Qed.

(** ** The target date of a fire *)

Lemma Day_shift (t : Z) (k : Z) :
  JsDate.Day (t + k * JsDate.msPerDay) = (JsDate.Day t + k)%Z.
Proof. unfold JsDate.Day, JsDate.msPerDay. apply Z.div_add. lia. Qed.

(** Moving the date back keeps the time of day of the local time value. *)
Lemma setDateBack_local (now days : Z) :
  JsDate.setDateBack tz now days
  = JsDate.UTC tz (JsDate.LocalTime tz now - days * JsDate.msPerDay)%Z.
Proof.
  unfold JsDate.setDateBack, JsDate.MakeDate, JsDate.Day, JsDate.TimeWithinDay.
  cbv zeta. f_equal.
  pose proof (Z.div_mod (JsDate.LocalTime tz now) JsDate.msPerDay) as H.
  unfold JsDate.msPerDay in *. lia.
Qed.

(** C7, as the code has it.  The target date of a fire is computed on the
    host's clock: it is the instant whose reading on the host is the reading
    of the fire one calendar day earlier, so that, when that wall-clock time
    exists on the host on that day, the host shows for the target the same
    time of day and the calendar date before the one of the fire.  The chat's
    zone plays no part: a fire for the same chat with any other zone does the
    same. *)
Theorem fire_target_is_host_yesterday (chat : Chat.t) (now : Z) (w : World) :
  let reading := (JsDate.LocalTime tz now - JsDate.msPerDay)%Z in
  JsDate.offsetAt tz (JsDate.UTC tz reading) = JsDate.offsetOfLocal tz reading ->
  yesterdayOf now = JsDate.UTC tz reading
  /\ JsDate.LocalTime tz (yesterdayOf now) = reading
  /\ JsDate.localDate tz (yesterdayOf now)
     = JsDate.civil_from_days (JsDate.Day (JsDate.LocalTime tz now) - 1)
  /\ (forall zone : string,
        executeDailyReport (with_timezone zone chat) now w
        = executeDailyReport chat now w).
Proof.
  intros reading Hexists.
  assert (Htarget : yesterdayOf now = JsDate.UTC tz reading).
  { unfold yesterdayOf, JsDate.setDatePrev. rewrite setDateBack_local.
    subst reading. rewrite Z.mul_1_l. reflexivity. }
  assert (Hlocal : JsDate.LocalTime tz (yesterdayOf now) = reading).
  { rewrite Htarget. unfold JsDate.LocalTime at 1. rewrite Hexists.
    unfold JsDate.UTC. lia. }
  split; [exact Htarget|]. split; [exact Hlocal|]. split.
  - unfold JsDate.localDate. rewrite Hlocal. subst reading.
    replace (JsDate.LocalTime tz now - JsDate.msPerDay)%Z
      with (JsDate.LocalTime tz now + (-1) * JsDate.msPerDay)%Z by lia.
    rewrite Day_shift. reflexivity.
  - intros zone. reflexivity.
Qed.

(** ** Bulk registration *)

Lemma runOps_cons (op : RegistryOp) (ops : list RegistryOp) (w : World) :
  runOps (op :: ops) w = runOps ops (runOp op w).
Proof. reflexivity. Qed.

Lemma forEach_scheduleChat (l : list Chat.t) (w : World) :
  forEach l scheduleChat w = (Ok tt, runOps (OpSchedule <$> l) w).
Proof.
  revert w. induction l as [|chat l IH]; intros w; [reflexivity|].
  rewrite fmap_cons, runOps_cons. simpl forEach. unfold bind.
  destruct (scheduleChat chat w) as [r w1] eqn:E.
  pose proof (scheduleChat_returns chat w) as Hr. rewrite E in Hr. simpl in Hr. subst r.
  rewrite IH. simpl runOp. rewrite E. reflexivity.
Qed.

Lemma runOps_db (ops : list RegistryOp) (w : World) : db (runOps ops w) = db w.
Proof.
  revert w. induction ops as [|op ops IH]; intros w; [reflexivity|].
  rewrite runOps_cons, IH.
  destruct op; simpl; [apply scheduleChat_db | apply unscheduleChat_db].
Qed.

(** Registering a list of chats leaves the entry and the live timers of any
    other chat alone. *)
Lemma runOps_schedule_other (l : list Chat.t) (c : string) (w : World) :
  registry_sound w ->
  c ∉ Chat.chat_id <$> l ->
  cronJobs (runOps (OpSchedule <$> l) w) !! c = cronJobs w !! c
  /\ liveTimers c (runOps (OpSchedule <$> l) w) = liveTimers c w.
Proof.
  revert w. induction l as [|chat l IH]; intros w Hw Hc; [split; reflexivity|].
  rewrite fmap_cons in Hc. apply not_elem_of_cons in Hc as [Hne Hc].
  rewrite fmap_cons, runOps_cons.
  destruct (IH _ (scheduleChat_sound chat w Hw) Hc) as [H1 H2].
  destruct (scheduleChat_other chat c w Hw Hne) as [H3 H4].
  simpl runOp. split; congruence.
Qed.

(** A chat of the list, the identifiers being distinct, ends with one live
    timer when it had no job and its registration goes through, and with
    none otherwise. *)
Lemma runOps_schedule_member (l : list Chat.t) (chat : Chat.t) (w : World) :
  registry_sound w ->
  NoDup (Chat.chat_id <$> l) -> chat ∈ l ->
  length (liveTimers (Chat.chat_id chat) (runOps (OpSchedule <$> l) w))
  = match cronJobs w !! Chat.chat_id chat with
    | Some _ => 0
    | None => if registers chat then 1 else 0
    end.
Proof.
  revert w. induction l as [|x l IH]; intros w Hw Hnd Hin; [inversion Hin|].
  rewrite fmap_cons in Hnd. apply NoDup_cons in Hnd as [Hx Hnd].
  rewrite fmap_cons, runOps_cons. simpl runOp.
  apply elem_of_cons in Hin as [-> | Hin].
  - destruct (runOps_schedule_other l (Chat.chat_id x) _ (scheduleChat_sound x w Hw) Hx)
      as [_ ->].
    apply scheduleChat_self, Hw.
  - rewrite (IH _ (scheduleChat_sound x w Hw) Hnd Hin).
    assert (Hne : Chat.chat_id chat <> Chat.chat_id x).
    { intros Heq. apply Hx. rewrite <- Heq. apply list_elem_of_fmap_2. exact Hin. }
    destruct (scheduleChat_other x _ w Hw Hne) as [-> _]. reflexivity.
Qed.

(** The active chats of a store whose rows are filed under their keys. *)
Lemma elem_of_getAllActiveChats (d : Db) (chat : Chat.t) :
  chat ∈ getAllActiveChats d <->
  (exists k, chats d !! k = Some chat) /\ Chat.is_active chat = true.
Proof.
  unfold getAllActiveChats. rewrite elem_of_filter_bool.
  change (map snd (map_to_list (chats d))) with ((map_to_list (chats d)).*2).
  rewrite list_elem_of_fmap. split.
  - intros [([k c] & -> & Hin) Ha]. split; [|exact Ha].
    exists k. apply elem_of_map_to_list in Hin. exact Hin.
  - intros [[k Hk] Ha]. split; [|exact Ha].
    exists (k, chat). split; [reflexivity|]. apply elem_of_map_to_list. exact Hk.
Qed.

Lemma NoDup_getAllActiveChats (d : Db) :
  (forall (k : string) (c : Chat.t), chats d !! k = Some c -> Chat.chat_id c = k) ->
  NoDup (Chat.chat_id <$> getAllActiveChats d).
Proof.
  intros Hkeys. unfold getAllActiveChats. apply NoDup_fmap_filter.
  change (map snd (map_to_list (chats d))) with ((map_to_list (chats d)).*2).
  rewrite <- list_fmap_compose.
  rewrite (list_fmap_ext _ fst (map_to_list (chats d)) ).
  - apply NoDup_fst_map_to_list.
  - intros i [k c] Hi. simpl. apply Hkeys.
    apply elem_of_map_to_list. apply list_elem_of_lookup. eauto.
Qed.

Lemma initialize_run (w : World) :
  initialize w = (Ok tt, runOps (OpSchedule <$> getAllActiveChats (db w)) w).
Proof. unfold initialize, bind, gets. apply forEach_scheduleChat. Qed.

(** What [initialize] leaves, chat by chat. *)
Lemma initialize_timers (w : World) (c : string) :
  registry_sound w ->
  (forall (k : string) (c : Chat.t), chats (db w) !! k = Some c -> Chat.chat_id c = k) ->
  length (liveTimers c (snd (initialize w)))
  = match getChat (db w) c with
    | Some chat =>
        if Chat.is_active chat then
          match cronJobs w !! c with
          | Some _ => 0
          | None => if registers chat then 1 else 0
          end
        else length (liveTimers c w)
    | None => length (liveTimers c w)
    end.
Proof.
  intros Hw Hkeys. rewrite initialize_run. simpl.
  assert (Hout : c ∉ Chat.chat_id <$> getAllActiveChats (db w) ->
                 length (liveTimers c (runOps (OpSchedule <$> getAllActiveChats (db w)) w))
                 = length (liveTimers c w)).
  { intros Hc. destruct (runOps_schedule_other _ c w Hw Hc) as [_ ->]. reflexivity. }
  unfold getChat. destruct (chats (db w) !! c) as [chat|] eqn:Hchat.
  - pose proof (Hkeys c chat Hchat) as Hid.
    destruct (Chat.is_active chat) eqn:Hact.
    + rewrite <- Hid.
      apply (runOps_schedule_member _ chat w Hw (NoDup_getAllActiveChats _ Hkeys)).
      apply elem_of_getAllActiveChats. eauto.
    + apply Hout. intros Hin.
      apply list_elem_of_fmap in Hin as (x & Hx & Hin).
      apply elem_of_getAllActiveChats in Hin as [[k Hk] Ha].
      pose proof (Hkeys k x Hk) as Hxk. rewrite <- Hx in Hxk. subst k.
      rewrite Hchat in Hk. injection Hk as <-. congruence.
  - apply Hout. intros Hin.
    apply list_elem_of_fmap in Hin as (x & Hx & Hin).
    apply elem_of_getAllActiveChats in Hin as [[k Hk] Ha].
    pose proof (Hkeys k x Hk) as Hxk. rewrite <- Hx in Hxk. subst k.
    rewrite Hchat in Hk. discriminate.
Qed.

(** X7. [initialize] returns normally and leaves the store as it was.  An
    active chat of the store that had no job ends with one live timer when
    its registration goes through and with none when it does not; an active
    chat that already had a job ends with none, its job stopped and not
    replaced; the live timers of a chat that is inactive or has no row are
    left as they were; and no chat ends with more than one live timer. *)
Theorem initialize_registers_active_chats (w : World) :
  registry_sound w ->
  (forall (k : string) (c : Chat.t), chats (db w) !! k = Some c -> Chat.chat_id c = k) ->
  let w' := snd (initialize w) in
  fst (initialize w) = Ok tt
  /\ db w' = db w
  /\ (forall (c : string) (chat : Chat.t),
        getChat (db w) c = Some chat -> Chat.is_active chat = true ->
        length (liveTimers c w')
        = match cronJobs w !! c with
          | Some _ => 0
          | None => if registers chat then 1 else 0
          end)
  /\ (forall c : string,
        (forall chat, getChat (db w) c = Some chat -> Chat.is_active chat = false) ->
        length (liveTimers c w') = length (liveTimers c w))
  /\ (forall c : string, length (liveTimers c w') <= 1).
Proof.
  intros Hw Hkeys w'.
  split; [rewrite initialize_run; reflexivity|].
  split; [subst w'; rewrite initialize_run; apply runOps_db|].
  split; [|split].
  - intros c chat Hchat Hact. subst w'.
    rewrite (initialize_timers w c Hw Hkeys), Hchat, Hact. reflexivity.
  - intros c Hc. subst w'. rewrite (initialize_timers w c Hw Hkeys).
    destruct (getChat (db w) c) as [chat|]; [|reflexivity].
    rewrite (Hc chat eq_refl). reflexivity.
  - intros c. subst w'. rewrite initialize_run.
    apply liveTimers_le_one, runOps_sound, Hw.
Qed.

(** ** Stopping *)

(** With an empty map a chat has no live timer. *)
Lemma liveTimers_empty_map (c : string) (w : World) :
  registry_sound w -> cronJobs w = ∅ -> liveTimers c w = [].
Proof.
  intros Hw He. apply length_zero_nil.
  rewrite (liveTimers_sound_count c w Hw), He, lookup_empty. reflexivity.
Qed.

Lemma set_cronJobs_same (w : World) : set_cronJobs (cronJobs w) w = w.
Proof. destruct w; reflexivity. Qed.

(** What [stopAll] does to the state: with no job it clears the empty map;
    otherwise the first job is stopped and the call of [destroy] throws,
    before any other job is visited and before the map is cleared. *)
Lemma stopAll_run (w : World) :
  stopAll w
  = match map_to_list (cronJobs w) with
    | [] => (Ok tt, w)
    | entry :: _ => (Throw destroyError, stopped (snd entry) w)
    end.
Proof.
  unfold stopAll. unfold bind at 1. unfold gets at 1.
  destruct (map_to_list (cronJobs w)) as [|entry rest] eqn:E.
  - apply map_to_list_empty_iff in E. simpl. unfold bind, modify. simpl.
    rewrite <- E. rewrite set_cronJobs_same. reflexivity.
  - reflexivity.
Qed.

(** X8. [stopAll] returns normally only when there is no job at all, and
    then it changes nothing.  With a job in the map it throws at the first
    [job.destroy()]: one chat's job has been stopped, so that chat has no
    live timer, the live timers of every other chat still run, and the map is
    not cleared.  In both cases no task is made or lost and the store is
    untouched. *)
Theorem stopAll_outcome (w : World) :
  registry_sound w ->
  let w' := snd (stopAll w) in
  (cronJobs w = ∅ -> stopAll w = (Ok tt, w))
  /\ (cronJobs w <> ∅ ->
      fst (stopAll w) = Throw destroyError
      /\ cronJobs w' = cronJobs w
      /\ exists (c : string) (job : nat),
           cronJobs w !! c = Some job
           /\ liveTimers c w' = []
           /\ forall c' : string, c' <> c -> liveTimers c' w' = liveTimers c' w)
  /\ length (tasks w') = length (tasks w)
  /\ db w' = db w.
Proof.
  intros Hw w'. subst w'. rewrite stopAll_run.
  destruct (map_to_list (cronJobs w)) as [|[c job] rest] eqn:E.
  - split; [reflexivity|]. split; [|split; reflexivity].
    intros Hne. apply map_to_list_empty_iff in E. contradiction.
  - assert (Hjob : cronJobs w !! c = Some job).
    { apply elem_of_map_to_list. rewrite E. apply list_elem_of_here. }
    split; [intros He; rewrite He, lookup_empty in Hjob; discriminate|].
    split; [|split; [unfold map_task; apply length_fmap | reflexivity]].
    intros _. split; [reflexivity|]. split; [reflexivity|].
    exists c, job. split; [exact Hjob|].
    split; [exact (liveTimers_stopped c job w Hw Hjob)|].
    intros c' Hne. exact (liveTimers_stopped_other c c' job w Hw Hjob Hne).
Qed.

(** X9. [restart] rebuilds the registry only when there was no job: then it
    does what [initialize] does, and a chat ends with one live timer exactly
    when the store has it, it is active and its registration goes through.
    With a job in the map [restart] throws in [stopAll] and [initialize] is
    never run: no task is made and the map is as it was. *)
Theorem restart_outcome (w : World) :
  registry_sound w ->
  (forall (k : string) (c : Chat.t), chats (db w) !! k = Some c -> Chat.chat_id c = k) ->
  let w' := snd (restart w) in
  (cronJobs w = ∅ ->
   fst (restart w) = Ok tt
   /\ forall c : string,
        length (liveTimers c w')
        = match getChat (db w) c with
          | Some chat => if Chat.is_active chat && registers chat then 1 else 0
          | None => 0
          end)
  /\ (cronJobs w <> ∅ ->
      fst (restart w) = Throw destroyError
      /\ w' = snd (stopAll w)
      /\ cronJobs w' = cronJobs w
      /\ length (tasks w') = length (tasks w)).
Proof.
  intros Hw Hkeys w'.
  destruct (stopAll_outcome w Hw) as (Hempty & Hjobs & Hlen & _).
  split.
  - intros He.
    assert (E : restart w = initialize w).
    { unfold restart, bind. rewrite (Hempty He). reflexivity. }
    subst w'. rewrite E. split; [rewrite initialize_run; reflexivity|].
    intros c. rewrite (initialize_timers w c Hw Hkeys), He, lookup_empty.
    rewrite (liveTimers_empty_map c w Hw He).
    destruct (getChat (db w) c) as [chat|]; [|reflexivity].
    destruct (Chat.is_active chat); reflexivity.
  - intros Hne. destruct (Hjobs Hne) as (Hthrow & Hmap & _).
    assert (E : restart w = (Throw destroyError, snd (stopAll w))).
    { unfold restart, bind. destruct (stopAll w) as [r v]. simpl in *. subst r.
      reflexivity. }
    subst w'. rewrite E. simpl. split; [reflexivity|]. split; [reflexivity|].
    split; [exact Hmap | exact Hlen].
Qed.

(** ** Cancelling and reconfiguring *)

Lemma stopped_idem (job : nat) (w : World) :
  stopped job (stopped job w) = stopped job w.
Proof.
  unfold stopped. destruct w as [d jobs ts i l c e]. unfold set_tasks. simpl. f_equal.
  unfold map_task. rewrite <- list_fmap_compose. apply list_fmap_ext.
  intros k x _. simpl.
  destruct (task_id x =? job)%nat eqn:E; simpl; rewrite E; reflexivity.
Qed.

(** X10. [unscheduleChat] does nothing for a chat without a job.  For a chat
    with a job it stops the job and then throws at [job.destroy()], before
    the entry is deleted: the chat has no live timer, the map still holds the
    stopped job, the live timers of the other chats are as they were, a fire
    of the stopped job does nothing, and a repeated call throws again and
    changes nothing more. *)
Theorem unscheduleChat_outcome (chatId : string) (w : World) :
  registry_sound w ->
  let w' := snd (unscheduleChat chatId w) in
  match cronJobs w !! chatId with
  | None => unscheduleChat chatId w = (Ok tt, w)
  | Some job =>
      fst (unscheduleChat chatId w) = Throw destroyError
      /\ cronJobs w' = cronJobs w
      /\ liveTimers chatId w' = []
      /\ (forall c : string, c <> chatId -> liveTimers c w' = liveTimers c w)
      /\ (forall now : Z, fire job now w' = (Ok tt, w'))
      /\ unscheduleChat chatId w' = (Throw destroyError, w')
  end.
Proof.
  intros Hw w'. subst w'. rewrite unscheduleChat_run.
  destruct (cronJobs w !! chatId) as [job|] eqn:Hjob; [|reflexivity].
  simpl. split; [reflexivity|]. split; [reflexivity|].
  split; [exact (liveTimers_stopped chatId job w Hw Hjob)|].
  split; [intros c Hne; exact (liveTimers_stopped_other chatId c job w Hw Hjob Hne)|].
  destruct Hw as (I1 & I2 & I3).
  destruct (I3 chatId job Hjob) as (t & Ht & Hchat).
  split.
  - intros now. unfold fire, bind, gets.
    assert (Hfind : List.find (fun x => (task_id x =? job)%nat) (tasks (stopped job w))
                    = Some (with_running false t)
                    \/ List.find (fun x => (task_id x =? job)%nat) (tasks (stopped job w))
                       = None
                    \/ exists x, List.find (fun x => (task_id x =? job)%nat)
                                   (tasks (stopped job w)) = Some x
                                 /\ task_running x = false).
    { destruct (List.find _ _) as [x|] eqn:E; [|right; left; reflexivity].
      right. right. exists x. split; [reflexivity|].
      apply find_some in E as [Hin Hx]. apply Nat.eqb_eq in Hx.
      apply list_elem_of_In, list_elem_of_lookup in Hin as [i Hi].
      destruct (lookup_stopped job i x w I1 Hi) as (x0 & E0 & ->).
      destruct (i =? job)%nat eqn:Ei; [reflexivity|].
      apply Nat.eqb_neq in Ei. rewrite (I1 i x0 E0) in Hx. contradiction. }
    destruct Hfind as [-> | [-> | (x & -> & ->)]]; reflexivity.
  - rewrite unscheduleChat_run.
    change (cronJobs (stopped job w)) with (cronJobs w).
    rewrite Hjob, stopped_idem. reflexivity.
Qed.

(** What [updateChatSchedule] does to the state. *)
Lemma updateChatSchedule_run (chatId : string) (w : World) :
  updateChatSchedule chatId w
  = match getChat (db w) chatId with
    | Some chat =>
        if Chat.is_active chat then scheduleChat chat w else unscheduleChat chatId w
    | None => unscheduleChat chatId w
    end.
Proof.
  unfold updateChatSchedule, bind, gets.
  destruct (getChat (db w) chatId) as [chat|]; [destruct (Chat.is_active chat)|];
    reflexivity.
Qed.

(** After [updateChatSchedule] a chat that had a job has no live timer, and
    one that had none has a live timer when the store has it, it is active
    and its registration goes through. *)
Lemma updateChatSchedule_timers (chatId : string) (w : World) :
  registry_sound w ->
  (forall (k : string) (c : Chat.t), chats (db w) !! k = Some c -> Chat.chat_id c = k) ->
  length (liveTimers chatId (snd (updateChatSchedule chatId w)))
  = match cronJobs w !! chatId with
    | Some _ => 0
    | None =>
        match getChat (db w) chatId with
        | Some chat => if Chat.is_active chat && registers chat then 1 else 0
        | None => 0
        end
    end.
Proof.
  intros Hw Hkeys. rewrite updateChatSchedule_run.
  assert (Hun : length (liveTimers chatId (snd (unscheduleChat chatId w)))
                = match cronJobs w !! chatId with Some _ => 0 | None => 0 end).
  { rewrite unscheduleChat_run.
    pose proof (liveTimers_sound_count chatId w Hw) as Hc.
    destruct (cronJobs w !! chatId) as [job|] eqn:Hjob; simpl.
    - rewrite (liveTimers_stopped chatId job w Hw Hjob). reflexivity.
    - exact Hc. }
  unfold getChat. destruct (chats (db w) !! chatId) as [chat|] eqn:Hchat.
  - destruct (Chat.is_active chat); simpl.
    + rewrite <- (Hkeys chatId chat Hchat). apply scheduleChat_self, Hw.
    + rewrite Hun. destruct (cronJobs w !! chatId); reflexivity.
  - rewrite Hun. destruct (cronJobs w !! chatId); reflexivity.
Qed.

(** X11. [updateChatSchedule] leaves a chat that had no job with one live
    timer when the store has it, it is active and its registration goes
    through, and with none otherwise.  A chat that already had a job is left
    with none: the job is stopped and not replaced, and the call returns
    normally when the chat is active (the failure is swallowed by
    [scheduleChat]) and throws when it is inactive or has no row.  The live
    timers of the other chats are as they were. *)
Theorem updateChatSchedule_outcome (chatId : string) (w : World) :
  registry_sound w ->
  (forall (k : string) (c : Chat.t), chats (db w) !! k = Some c -> Chat.chat_id c = k) ->
  let w' := snd (updateChatSchedule chatId w) in
  let active := match getChat (db w) chatId with
                | Some chat => Chat.is_active chat
                | None => false
                end in
  length (liveTimers chatId w')
  = match cronJobs w !! chatId with
    | Some _ => 0
    | None =>
        match getChat (db w) chatId with
        | Some chat => if Chat.is_active chat && registers chat then 1 else 0
        | None => 0
        end
    end
  /\ fst (updateChatSchedule chatId w)
     = (if is_Some_dec (cronJobs w !! chatId)
        then (if active then Ok tt else Throw destroyError)
        else Ok tt)
  /\ (forall c : string, c <> chatId -> liveTimers c w' = liveTimers c w)
  /\ db w' = db w.
Proof.
  intros Hw Hkeys w' active.
  split; [exact (updateChatSchedule_timers chatId w Hw Hkeys)|].
  assert (Hun : fst (unscheduleChat chatId w)
                = (if is_Some_dec (cronJobs w !! chatId) then Throw destroyError else Ok tt)
                /\ (forall c, c <> chatId ->
                      liveTimers c (snd (unscheduleChat chatId w)) = liveTimers c w)
                /\ db (snd (unscheduleChat chatId w)) = db w).
  { rewrite unscheduleChat_run.
    destruct (cronJobs w !! chatId) as [job|] eqn:Hjob; simpl.
    - split; [reflexivity|]. split; [|reflexivity].
      intros c Hne. exact (liveTimers_stopped_other chatId c job w Hw Hjob Hne).
    - repeat split; reflexivity. }
  subst w' active. rewrite updateChatSchedule_run. unfold getChat in *.
  destruct (chats (db w) !! chatId) as [chat|] eqn:Hchat.
  - destruct (Chat.is_active chat).
    + split; [rewrite scheduleChat_returns;
              destruct (is_Some_dec (cronJobs w !! chatId)); reflexivity|].
      split; [|apply scheduleChat_db].
      intros c Hne. apply (scheduleChat_other chat c w Hw).
      rewrite (Hkeys chatId chat Hchat). exact Hne.
    + exact Hun.
  - exact Hun.
Qed.

(** ** Reporting the status *)

(** X12. The status counts and lists exactly the chats that have a live
    timer, each once, and gives every one of them the same placeholder for
    its next execution. *)
Theorem getStatus_lists_live_chats (w : World) :
  registry_ok w ->
  let status := getStatus w in
  activeJobs status = length (scheduledChats status)
  /\ NoDup (scheduledChats status)
  /\ (forall c : string,
        c ∈ scheduledChats status <-> length (liveTimers c w) = 1)
  /\ (forall entry : string * option string,
        entry ∈ nextExecutions status ->
        fst entry ∈ scheduledChats status
        /\ snd entry = Some "Next execution time calculation not implemented").
Proof.
  intros Hw status. unfold getStatus in status. subst status. simpl.
  change (map fst (map_to_list (cronJobs w))) with ((map_to_list (cronJobs w)).*1).
  assert (Hmem : forall c, c ∈ (map_to_list (cronJobs w)).*1 <-> is_Some (cronJobs w !! c)).
  { intros c. rewrite list_elem_of_fmap. split.
    - intros ([k j] & -> & Hin). apply elem_of_map_to_list in Hin. simpl. eauto.
    - intros [j Hj]. exists (c, j). split; [reflexivity|].
      apply elem_of_map_to_list. exact Hj. }
  split; [rewrite length_fmap, length_map_to_list; reflexivity|].
  split; [apply NoDup_fst_map_to_list|]. split.
  - intros c. rewrite Hmem, (liveTimers_count c w Hw).
    destruct (cronJobs w !! c); split; intros H; eauto;
      [destruct H; discriminate | discriminate].
  - intros entry Hin.
    change (map ?f ?l) with (f <$> l) in Hin.
    apply list_elem_of_fmap in Hin as (c & -> & Hc). simpl.
    split; [exact Hc|]. apply Hmem in Hc as [j ->]. reflexivity.
Qed.

(** ** The backend, once chosen *)

Lemma getProvider_cached (p : Provider) (w : World) :
  instance w = Some p -> getProvider w = (Ok p, w).
Proof. intros H. unfold getProvider, bind, gets. rewrite H. reflexivity. Qed.

Lemma getProvider_probe (w : World) :
  instance w = None ->
  let p := if modelsList env (length (calls w)) then OpenAIProvider else FallbackProvider in
  getProvider w
  = (Ok p, set_instance (Some p) (set_calls (calls w ++ [CallModelsList]) w)).
Proof.
  intros H. unfold getProvider, OpenAIProvider_isAvailable, bind, gets, clock, record,
    modify, ret. rewrite H. reflexivity.
Qed.

(** X14. [OpenAIProvider.generateSummary] makes exactly one outside call.
    When it returns, the text is not empty, is what the backend answered, and
    nothing is logged; when the backend throws or answers nothing it throws,
    and the failure is logged. *)
Theorem OpenAIProvider_generateSummary_outcome
    (msgs : list ProcessedMessage.t) (context : SummaryContext) (w : World) :
  let w' := snd (OpenAIProvider_generateSummary msgs context w) in
  calls w' = (calls w ++ [CallChatCompletion msgs context])%list
  /\ match fst (OpenAIProvider_generateSummary msgs context w) with
     | Ok s =>
         s <> ""
         /\ chatCompletion env (length (calls w)) msgs context = Ok (Some s)
         /\ errors w' = errors w
     | Throw e =>
         errors w' = (errors w ++ [("Failed to generate summary", e)])%list
         /\ (chatCompletion env (length (calls w)) msgs context = Throw e
             \/ (e = "Empty response from OpenAI"
                 /\ (chatCompletion env (length (calls w)) msgs context = Ok None
                     \/ chatCompletion env (length (calls w)) msgs context
                        = Ok (Some ""))))
     end.
Proof.
  unfold OpenAIProvider_generateSummary, try_catch, bind, clock, gets, record, modify.
  simpl.
  destruct (chatCompletion env (length (calls w)) msgs context) as [[s|]|e] eqn:E; simpl.
  - destruct (String.eqb s "") eqn:Es; simpl.
    + apply String.eqb_eq in Es. subst s.
      split; [reflexivity|]. split; [reflexivity|]. right. auto.
    + apply String.eqb_neq in Es.
      split; [reflexivity|]. repeat split; assumption || reflexivity.
  - split; [reflexivity|]. split; [reflexivity|]. right. auto.
  - split; [reflexivity|]. split; [reflexivity|]. left. reflexivity.
Qed.

(** X15. Once [generateDailySummary] has the generative provider cached, a
    backend that throws is not replaced by the fallback: for a known chat
    and a day with messages the error comes back to the caller, after one
    completion call and two log entries, and the provider stays cached. *)
Theorem generateDailySummary_surfaces_backend_error
    (chatId : string) (date : Z) (stored : Chat.t) (w : World) (e : string) :
  getChat (db w) chatId = Some stored ->
  data_messages (getMessagesForDate (db w) chatId date) <> [] ->
  llmProvider w = Some OpenAIProvider ->
  let data := getMessagesForDate (db w) chatId date in
  let context :=
    mkSummaryContext (Chat.title stored) (toLocaleDateString env date)
                     (totalCount data) (Chat.target_username stored) in
  chatCompletion env (length (calls w)) (data_messages data) context = Throw e ->
  let w' := snd (generateDailySummary chatId date w) in
  fst (generateDailySummary chatId date w) = Throw e
  /\ calls w' = (calls w ++ [CallChatCompletion (data_messages data) context])%list
  /\ errors w'
     = (errors w ++ [("Failed to generate summary", e);
                     ("Failed to generate daily summary", e)])%list
  /\ llmProvider w' = Some OpenAIProvider
  /\ fst (executeManualReport chatId (Some date) date w) = Throw e.
Proof.
  intros Hchat Hne Hl data context Hthrow.
  assert (Hlen : (length (data_messages data) =? 0)%nat = false).
  { change (data_messages data <> []) in Hne.
    destruct (data_messages data); [congruence | reflexivity]. }
  assert (Hrun : generateDailySummary chatId date w
                 = (Throw e,
                    set_errors
                      (errors w ++ [("Failed to generate summary", e);
                                    ("Failed to generate daily summary", e)])
                      (set_calls (calls w ++ [CallChatCompletion (data_messages data) context])
                         w))).
  { unfold generateDailySummary, try_catch at 1. unfold bind at 1. unfold gets at 1.
    rewrite Hchat. fold data. rewrite Hlen. fold context.
    unfold bind at 1. unfold getLLMProvider, bind at 1, gets at 1. rewrite Hl.
    unfold ret at 1. unfold generateSummary, OpenAIProvider_generateSummary.
    unfold try_catch, bind, clock, gets, record, modify. simpl.
    simpl in Hthrow. rewrite Hthrow. unfold logError, modify, throw. simpl.
    unfold set_errors, set_calls. simpl. rewrite <- app_assoc. reflexivity. }
  rewrite Hrun. simpl. repeat (split; [reflexivity|]).
  split; [exact Hl|].
  unfold executeManualReport, bind, gets. rewrite Hchat, Hrun. reflexivity.
Qed.

(** ** Transcribing *)

Lemma processAudioMessage_returns
    (fileId messageId filePath : string) (duration : option Z) (w : World) :
  exists t : option string,
    fst (processAudioMessage fileId messageId filePath duration w) = Ok t.
Proof.
  unfold processAudioMessage, try_catch, bind, gets, transcribeWithWhisper, bind, clock,
    gets, record, modify, liftResult.
  destruct (getTranscript (db w) messageId fileId); [simpl; eauto|].
  destruct (fileSize env filePath) as [size|e]; simpl; [|eauto].
  destruct (fileSizeLimitBytes <? size)%Z; simpl; [eauto|].
  destruct (convertToMp3 env filePath) as [mp3|e]; simpl; [|eauto].
  destruct (whisper env (length (calls w)) mp3) as [s|e]; simpl; [|eauto].
  destruct (String.eqb s ""); simpl; [eauto|].
  destruct (insertTranscript _ _) as [[row|e] d']; simpl; eauto.
Qed.

(** What [processAudioMessage] does when no transcript exists yet, by what
    the file system, the converter and the recogniser answer. *)
Lemma processAudioMessage_run
    (fileId messageId filePath : string) (duration : option Z) (w : World) :
  getTranscript (db w) messageId fileId = None ->
  let failed (e : string) :=
    (Ok None, set_errors (errors w ++ [("Failed to process audio message", e)]) w) in
  processAudioMessage fileId messageId filePath duration w
  = match fileSize env filePath with
    | Throw e => failed e
    | Ok size =>
        if (fileSizeLimitBytes <? size)%Z then (Ok None, w)
        else
          match convertToMp3 env filePath with
          | Throw e => failed e
          | Ok mp3 =>
              let heard := set_calls (calls w ++ [CallWhisper mp3]) w in
              match whisper env (length (calls w)) mp3 with
              | Throw e =>
                  (Ok None,
                   set_errors (errors w ++ [("Whisper transcription failed", e)]) heard)
              | Ok s =>
                  if String.eqb s "" then (Ok (Some s), heard)
                  else
                    (Ok (Some s),
                     set_db
                       (mkDb (chats (db w)) (users (db w)) (messages (db w))
                          (<[(messageId, fileId) :=
                               Transcript.mk messageId fileId s (Some "ru")
                                 (match duration with
                                  | Some 0%Z => None
                                  | other => other
                                  end)]> (transcripts (db w))))
                       heard)
              end
          end
    end.
Proof.
  intros Hnone failed.
  unfold processAudioMessage, try_catch, bind, gets, transcribeWithWhisper, bind, clock,
    gets, record, modify, liftResult.
  rewrite Hnone.
  destruct (fileSize env filePath) as [size|e]; simpl; [|reflexivity].
  destruct (fileSizeLimitBytes <? size)%Z; simpl; [reflexivity|].
  destruct (convertToMp3 env filePath) as [mp3|e]; simpl; [|reflexivity].
  destruct (whisper env (length (calls w)) mp3) as [s|e]; simpl; [|reflexivity].
  destruct (String.eqb s ""); simpl; [reflexivity|].
  unfold insertTranscript. simpl. unfold getTranscript in Hnone. rewrite Hnone.
  reflexivity.
Qed.

(** X16. [processAudioMessage] never throws, whatever the file system, the
    converter, the recogniser and the store do; it leaves the registry, the
    chats, the users and the messages as they were; and a transcript that
    was stored before the call is stored unchanged after it. *)
Theorem processAudioMessage_is_contained
    (fileId messageId filePath : string) (duration : option Z) (w : World) :
  let w' := snd (processAudioMessage fileId messageId filePath duration w) in
  is_throw (fst (processAudioMessage fileId messageId filePath duration w)) = false
  /\ cronJobs w' = cronJobs w /\ tasks w' = tasks w
  /\ chats (db w') = chats (db w) /\ users (db w') = users (db w)
  /\ messages (db w') = messages (db w)
  /\ (forall (m f : string) (tr : Transcript.t),
        getTranscript (db w) m f = Some tr -> getTranscript (db w') m f = Some tr).
Proof.
  destruct (getTranscript (db w) messageId fileId) as [existing|] eqn:Hex.
  - assert (Hrun : processAudioMessage fileId messageId filePath duration w
                   = (Ok (Some (Transcript.transcript_text existing)), w)).
    { unfold processAudioMessage, try_catch, bind, gets. rewrite Hex. reflexivity. }
    rewrite Hrun. simpl. repeat split; auto.
  - rewrite (processAudioMessage_run _ _ _ _ _ Hex).
    destruct (fileSize env filePath) as [size|e]; simpl; [|repeat split; auto].
    destruct (fileSizeLimitBytes <? size)%Z; simpl; [repeat split; auto|].
    destruct (convertToMp3 env filePath) as [mp3|e]; simpl; [|repeat split; auto].
    destruct (whisper env (length (calls w)) mp3) as [s|e]; simpl; [|repeat split; auto].
    destruct (String.eqb s ""); simpl; [repeat split; auto|].
    repeat split; auto.
    intros m f tr Htr. unfold getTranscript in *. simpl.
    rewrite lookup_insert_ne; [exact Htr|].
    intros Heq. injection Heq as <- <-. congruence.
Qed.

(** X17. When no transcript exists, a file within the size limit is
    converted and the recogniser answers a non-empty text, that text is
    returned and stored under the message and the file, in Russian, after one
    call of the recogniser. *)
Theorem processAudioMessage_stores_transcript
    (fileId messageId filePath mp3 s : string) (size : Z) (duration : option Z) (w : World) :
  getTranscript (db w) messageId fileId = None ->
  fileSize env filePath = Ok size -> (size <= fileSizeLimitBytes)%Z ->
  convertToMp3 env filePath = Ok mp3 ->
  whisper env (length (calls w)) mp3 = Ok s -> s <> "" ->
  let w' := snd (processAudioMessage fileId messageId filePath duration w) in
  fst (processAudioMessage fileId messageId filePath duration w) = Ok (Some s)
  /\ (exists tr : Transcript.t,
        getTranscript (db w') messageId fileId = Some tr
        /\ Transcript.transcript_text tr = s
        /\ Transcript.language tr = Some "ru")
  /\ calls w' = (calls w ++ [CallWhisper mp3])%list
  /\ processAudioMessage fileId messageId filePath duration w' = (Ok (Some s), w').
Proof.
  intros Hnone Hsize Hle Hconv Hw Hs w'. subst w'.
  rewrite (processAudioMessage_run _ _ _ _ _ Hnone), Hsize.
  assert (Hlt : (fileSizeLimitBytes <? size)%Z = false) by (apply Z.ltb_ge; exact Hle).
  rewrite Hlt, Hconv, Hw.
  apply String.eqb_neq in Hs. rewrite Hs. simpl.
  split; [reflexivity|]. split; [|split; [reflexivity|]].
  - eexists. unfold getTranscript. simpl. rewrite lookup_insert_eq.
    split; [reflexivity|]. split; reflexivity.
  - unfold processAudioMessage, try_catch, bind, gets, getTranscript. simpl.
    rewrite lookup_insert_eq. reflexivity.
Qed.

(** X18. When no transcript exists, nothing is stored in three cases: the
    file is over the size limit, and then the recogniser is not called and
    the state is as it was; the recogniser throws, and then the result is
    [null]; the recogniser answers the empty string, and then the empty
    string is returned all the same. *)
Theorem processAudioMessage_stores_nothing
    (fileId messageId filePath : string) (duration : option Z) (w : World) :
  getTranscript (db w) messageId fileId = None ->
  let outcome := processAudioMessage fileId messageId filePath duration w in
  (forall size : Z,
     fileSize env filePath = Ok size -> (fileSizeLimitBytes < size)%Z ->
     outcome = (Ok None, w))
  /\ (forall (size : Z) (mp3 e : string),
        fileSize env filePath = Ok size -> (size <= fileSizeLimitBytes)%Z ->
        convertToMp3 env filePath = Ok mp3 ->
        whisper env (length (calls w)) mp3 = Throw e ->
        fst outcome = Ok None /\ db (snd outcome) = db w
        /\ calls (snd outcome) = (calls w ++ [CallWhisper mp3])%list)
  /\ (forall (size : Z) (mp3 : string),
        fileSize env filePath = Ok size -> (size <= fileSizeLimitBytes)%Z ->
        convertToMp3 env filePath = Ok mp3 ->
        whisper env (length (calls w)) mp3 = Ok "" ->
        fst outcome = Ok (Some "") /\ db (snd outcome) = db w).
Proof.
  intros Hnone outcome. subst outcome. rewrite (processAudioMessage_run _ _ _ _ _ Hnone).
  split; [|split].
  - intros size Hsize Hlt. rewrite Hsize.
    apply Z.ltb_lt in Hlt. rewrite Hlt. reflexivity.
  - intros size mp3 e Hsize Hle Hconv Hw. rewrite Hsize.
    apply Z.ltb_ge in Hle. rewrite Hle, Hconv, Hw. simpl. repeat split; reflexivity.
  - intros size mp3 Hsize Hle Hconv Hw. rewrite Hsize.
    apply Z.ltb_ge in Hle. rewrite Hle, Hconv, Hw. simpl. split; reflexivity.
Qed.

(** X19. [batchProcessAudioMessages] never throws and answers with one
    entry for each message it was given, in the same order and under the
    same message identifier. *)
Theorem batchProcessAudioMessages_aligned (msgs : list AudioJob) (w : World) :
  exists results : list (string * option string),
    fst (batchProcessAudioMessages msgs w) = Ok results
    /\ results.*1 = job_messageId <$> msgs.
Proof.
  revert w. induction msgs as [|msg rest IH]; intros w.
  - exists []. split; reflexivity.
  - simpl batchProcessAudioMessages. unfold bind at 1. unfold try_catch, bind at 1.
    destruct (processAudioMessage_returns (job_fileId msg) (job_messageId msg)
                (job_filePath msg) (job_duration msg) w) as [t Ht].
    destruct (processAudioMessage _ _ _ _ w) as [r w1]. simpl in Ht. subst r.
    unfold ret at 1. unfold bind at 1.
    destruct (IH w1) as (results & Hr & Hids).
    destruct (batchProcessAudioMessages rest w1) as [r2 w2]. simpl in Hr. subst r2.
    exists ((job_messageId msg, t) :: results). split; [reflexivity|].
    rewrite !fmap_cons, Hids. reflexivity.
Qed.

(** ** Generating without delivering *)

Section Keeps.

Variable R : World -> World -> Prop.
Hypothesis R_refl : forall w, R w w.
Hypothesis R_trans : forall w1 w2 w3, R w1 w2 -> R w2 w3 -> R w1 w3.

Lemma keeps_ret {A : Type} (a : A) : keeps R (ret a).
Proof. intros w r w' H. injection H as _ <-. apply R_refl. Qed.

Lemma keeps_throw {A : Type} (e : string) : keeps R (@throw A e).
Proof. intros w r w' H. injection H as _ <-. apply R_refl. Qed.

Lemma keeps_gets {A : Type} (f : World -> A) : keeps R (gets f).
Proof. intros w r w' H. injection H as _ <-. apply R_refl. Qed.

Lemma keeps_modify (f : World -> World) : (forall w, R w (f w)) -> keeps R (modify f).
Proof. intros Hf w r w' H. injection H as _ <-. apply Hf. Qed.

Lemma keeps_bind {A B : Type} (m : M A) (f : A -> M B) :
  keeps R m -> (forall a, keeps R (f a)) -> keeps R (bind m f).
Proof.
  intros Hm Hf w r w' H. unfold bind in H.
  destruct (m w) as [[a|e] w1] eqn:E.
  - eapply R_trans; [eapply Hm; exact E | eapply Hf; exact H].
  - injection H as _ <-. eapply Hm; exact E.
Qed.

Lemma keeps_try_catch {A : Type} (m : M A) (h : string -> M A) :
  keeps R m -> (forall e, keeps R (h e)) -> keeps R (try_catch m h).
Proof.
  intros Hm Hh w r w' H. unfold try_catch in H.
  destruct (m w) as [[a|e] w1] eqn:E.
  - injection H as _ <-. eapply Hm; exact E.
  - eapply R_trans; [eapply Hm; exact E | eapply Hh; exact H].
Qed.

End Keeps.

Lemma delivered_snoc (c : Call) (w : World) :
  (forall chatId txt, c <> CallSendMessage chatId txt true) ->
  same_deliveries w (set_calls (calls w ++ [c]) w).
Proof.
  intros Hc. unfold same_deliveries, delivered. simpl.
  rewrite omap_app. simpl.
  destruct c as [| | chatId txt [|] |]; simpl; try apply app_nil_r.
  exfalso. apply (Hc chatId txt). reflexivity.
Qed.

Lemma same_deliveries_trans (w1 w2 w3 : World) :
  same_deliveries w1 w2 -> same_deliveries w2 w3 -> same_deliveries w1 w3.
Proof. unfold same_deliveries. congruence. Qed.

(** Take apart a computation that makes no delivery. *)
Ltac quiet :=
  repeat first
    [ assumption
    | progress cbv zeta
    | apply (keeps_ret same_deliveries); intros ?; reflexivity
    | apply (keeps_throw same_deliveries); intros ?; reflexivity
    | apply (keeps_gets same_deliveries); intros ?; reflexivity
    | apply (keeps_bind same_deliveries same_deliveries_trans); [|intros ?]
    | apply (keeps_try_catch same_deliveries same_deliveries_trans); [|intros ?]
    | apply (keeps_modify same_deliveries); intros ?;
      first [ reflexivity | apply delivered_snoc; intros ? ?; discriminate ]
    | match goal with
      | |- keeps _ (match ?x with _ => _ end) => destruct x
      | |- keeps _ (if ?x then _ else _) => destruct x
      end ].

Lemma quiet_getLLMProvider : keeps same_deliveries getLLMProvider.
Proof.
  unfold getLLMProvider, getProvider, OpenAIProvider_isAvailable, clock, record. quiet.
Qed.

Lemma quiet_generateSummary (p : Provider) (msgs : list ProcessedMessage.t)
    (context : SummaryContext) :
  keeps same_deliveries (generateSummary p msgs context).
Proof.
  unfold generateSummary, OpenAIProvider_generateSummary, clock, record, logError. quiet.
Qed.

Lemma quiet_generateDailySummary (chatId : string) (date : Z) :
  keeps same_deliveries (generateDailySummary chatId date).
Proof.
  unfold generateDailySummary, logError.
  pose proof quiet_getLLMProvider. 
  apply (keeps_try_catch same_deliveries same_deliveries_trans); [|intros ?; quiet].
  apply (keeps_bind same_deliveries same_deliveries_trans); [quiet|intros d].
  destruct (getChat d chatId); [|quiet].
  cbv zeta. destruct (_ =? _)%nat; [quiet|].
  apply (keeps_bind same_deliveries same_deliveries_trans); [assumption|intros p].
  apply quiet_generateSummary.
Qed.

(** X20. [executeManualReport] sends nothing to any chat and leaves the
    registry and the store alone, whatever the backend does.  For a chat
    without a row it throws at once, with the state as it was and nothing
    logged; for a known chat it is [generateDailySummary] for the date given,
    or for the current instant when none is. *)
Theorem executeManualReport_only_generates
    (chatId : string) (date : option Z) (now : Z) (w : World) :
  let w' := snd (executeManualReport chatId date now w) in
  delivered w' = delivered w
  /\ same_registry w w'
  /\ (getChat (db w) chatId = None ->
      executeManualReport chatId date now w
      = (Throw ("Chat " +:+ chatId +:+ " not found"), w))
  /\ (forall stored : Chat.t,
        getChat (db w) chatId = Some stored ->
        executeManualReport chatId date now w
        = generateDailySummary chatId (match date with Some t => t | None => now end) w).
Proof.
  unfold executeManualReport, bind, gets.
  destruct (getChat (db w) chatId) as [stored|] eqn:Hc; simpl.
  - split; [|split; [|split; [discriminate | reflexivity]]].
    + eapply quiet_generateDailySummary. apply surjective_pairing.
    + eapply preserves_generateDailySummary. apply surjective_pairing.
  - split; [reflexivity|]. split; [apply same_registry_refl|].
    split; [reflexivity | discriminate].
Qed.

(** ** The middleware and the commands *)

Lemma set_db_same (w : World) : set_db (db w) w = w.
Proof. destruct w; reflexivity. Qed.

(** A call of a method that throws and leaves the store throws and leaves
    the state. *)
Lemma dbCall_throws {A : Type} (method : Db -> result A * Db) (e : string) (w : World) :
  method (db w) = (Throw e, db w) -> dbCall method w = (Throw e, w).
Proof.
  intros H. unfold dbCall, bind, gets, modify. simpl. rewrite H. simpl.
  rewrite set_db_same. reflexivity.
Qed.

Lemma upsertUser_run (d : Db) (user : User.t) :
  upsertUser d user = (Throw bindError, d).
Proof.
  unfold upsertUser, bindParameters. simpl.
  destruct (User.username user), (User.last_name user); reflexivity.
Qed.

Lemma registerChatAndUser_run (chat : TgChat) (from : TgUser) (w : World) :
  registerChatAndUser chat from w = (Throw bindError, w).
Proof.
  unfold registerChatAndUser. unfold bind at 1.
  rewrite (dbCall_throws (fun d => upsertChat d (registeredChat chat)) bindError w eq_refl).
  reflexivity.
Qed.

(** X21. [registerChatAndUser] registers nobody.  For every chat and every
    sender it throws the driver's [TypeError] at [upsertChat], whose last
    parameter is a boolean, before any statement is run and before the sender
    is looked at: the state is as it was, so a chat or a user that had no row
    still has none, and one that had a row keeps it as it was. *)
Theorem registerChatAndUser_registers_nobody (chat : TgChat) (from : TgUser) (w : World) :
  let w' := snd (registerChatAndUser chat from w) in
  fst (registerChatAndUser chat from w) = Throw bindError
  /\ w' = w
  /\ getChat (db w') (tg_chat_id chat) = getChat (db w) (tg_chat_id chat)
  /\ getUser (db w') (tg_user_id from) = getUser (db w) (tg_user_id from)
  /\ fst (upsertChat (db w) (registeredChat chat)) = Throw bindError
  /\ fst (upsertUser (db w) (registeredUser from)) = Throw bindError.
Proof.
  rewrite registerChatAndUser_run. simpl.
  split; [reflexivity|]. split; [reflexivity|]. split; [reflexivity|].
  split; [reflexivity|]. split; [reflexivity|].
  rewrite upsertUser_run. reflexivity.
Qed.

Lemma optout_run (chat : TgChat) (from : TgUser) (w : World) :
  optout chat from w = (Throw bindError, w).
Proof.
  unfold optout. unfold bind at 1.
  rewrite (dbCall_throws (fun d => setUserOptOut d (tg_user_id from) true) bindError w
             eq_refl).
  reflexivity.
Qed.

Lemma optin_run (chat : TgChat) (from : TgUser) (w : World) :
  optin chat from w = (Throw bindError, w).
Proof.
  unfold optin. unfold bind at 1.
  rewrite (dbCall_throws (fun d => setUserOptOut d (tg_user_id from) false) bindError w
             eq_refl).
  reflexivity.
Qed.

(** X22. The handlers of [/optout] and [/optin] change no flag.  Each throws
    the driver's [TypeError] at [setUserOptOut], which binds a boolean,
    before the [UPDATE] is run and before any reply is sent: the state is as
    it was, so after [/optout] a user who was not opted out still is not, and
    that user's messages of a day are in the digest as before. *)
Theorem optout_changes_no_flag (chat : TgChat) (from : TgUser) (w : World) :
  let w' := snd (optout chat from w) in
  fst (optout chat from w) = Throw bindError
  /\ fst (optin chat from w) = Throw bindError
  /\ w' = w /\ snd (optin chat from w) = w
  /\ (forall u : User.t,
        getUser (db w) (tg_user_id from) = Some u -> User.is_opted_out u = false ->
        getUser (db w') (tg_user_id from) = Some u
        /\ forall (c : string) (date : Z) (r : Row),
             r ∈ rawMessages (db w) c date ->
             Message.user_id (fst r) = tg_user_id from ->
             r ∈ filteredMessages (db w') c date).
Proof.
  rewrite optout_run, optin_run. simpl.
  split; [reflexivity|]. split; [reflexivity|]. split; [reflexivity|].
  split; [reflexivity|].
  intros u Hu Hflag. split; [exact Hu|].
  intros c date r Hr Hid. apply elem_of_filteredMessages. split; [exact Hr|].
  apply elem_of_getMessagesForDateRange in Hr as (_ & Hjoin & _).
  unfold getUser in Hu. rewrite Hid, Hu in Hjoin. injection Hjoin as <-. exact Hflag.
Qed.

Lemma validateTimeFormat_nonempty (time : string) :
  validateTimeFormat time = true -> String.eqb time "" = false.
Proof. destruct time; [discriminate | reflexivity]. Qed.

Lemma preserves_reply (chat : TgChat) (txt : string) (w : World) :
  same_registry w (snd (reply chat txt w)).
Proof.
  apply (preserves_telegram_sendMessage (tg_chat_id chat) txt w (fst (reply chat txt w))).
  apply surjective_pairing.
Qed.

(** Writing the settings keeps the rows of the chats under their keys. *)
Lemma updateChatSettings_keys (d : Db) (chatId : string) (settings : ChatSettings) :
  (forall (k : string) (c : Chat.t), chats d !! k = Some c -> Chat.chat_id c = k) ->
  forall (k : string) (c : Chat.t),
    chats (updateChatSettings d chatId settings) !! k = Some c -> Chat.chat_id c = k.
Proof.
  intros Hkeys k c. unfold updateChatSettings.
  destruct (negb _); [apply Hkeys|]. simpl.
  destruct (decide (k = chatId)) as [->|Hne].
  - rewrite lookup_alter_eq. destruct (chats d !! chatId) as [c0|] eqn:E; [|discriminate].
    simpl. intros H. injection H as <-. simpl. apply (Hkeys chatId c0 E).
  - rewrite lookup_alter_ne by congruence. apply Hkeys.
Qed.

(** The state in which a valid [/settime] leaves the store and the registry:
    the one after the row is written and the chat rescheduled. *)
Lemma settime_valid_run (chat : TgChat) (messageText time : string) (rest : list string)
    (w : World) :
  tl (split_on " " messageText) = time :: rest ->
  validateTimeFormat time = true ->
  same_registry
    (snd (updateChatSchedule (tg_chat_id chat)
            (set_db (updateChatSettings (db w) (tg_chat_id chat)
                       (mkChatSettings (Some time) None None)) w)))
    (snd (settime chat messageText w)).
Proof.
  intros Hargs Hvalid. unfold settime. rewrite Hargs, Hvalid. simpl.
  unfold bind at 1. unfold modify at 1. unfold bind at 1.
  destruct (updateChatSchedule _ _) as [[[]|e] w2]; simpl.
  - apply preserves_reply.
  - apply same_registry_refl.
Qed.

(** X23. [/settime] with no argument, or with one that [validateTimeFormat]
    rejects, changes neither the store nor the registry.  With a valid time
    it writes the time to the chat's row, leaving the rest of the row, and
    reschedules the chat from the row.  A chat that had no job then has one
    live timer if it is active and its registration goes through, and that
    timer has the cron expression of the new time and the zone of the row; a
    chat that already had a job is left with no live timer, the old one
    stopped and not replaced. *)
Theorem settime_outcome (chat : TgChat) (messageText : string) (w : World) :
  registry_sound w ->
  (forall (k : string) (c : Chat.t), chats (db w) !! k = Some c -> Chat.chat_id c = k) ->
  let w' := snd (settime chat messageText w) in
  let chatId := tg_chat_id chat in
  match tl (split_on " " messageText) with
  | time :: _ =>
      if validateTimeFormat time then
        forall c : Chat.t, getChat (db w) chatId = Some c ->
          let c' := Chat.mk (Chat.chat_id c) (Chat.title c) (Chat.type c) time
                      (Chat.timezone c) (Chat.target_username c) (Chat.is_active c) in
          getChat (db w') chatId = Some c'
          /\ length (liveTimers chatId w')
             = match cronJobs w !! chatId with
               | Some _ => 0
               | None => if Chat.is_active c && registers c' then 1 else 0
               end
          /\ (forall t : ScheduledTask, t ∈ liveTimers chatId w' ->
                task_expression t = cronExpression time
                /\ task_timezone t = Chat.timezone c)
      else same_registry w w'
  | [] => same_registry w w'
  end.
Proof.
  intros Hw Hkeys w' chatId.
  destruct (tl (split_on " " messageText)) as [|time rest] eqn:Hargs.
  { subst w'. unfold settime. rewrite Hargs. apply preserves_reply. }
  destruct (validateTimeFormat time) eqn:Hvalid.
  2:{ subst w'. unfold settime. rewrite Hargs, Hvalid. simpl. apply preserves_reply. }
  intros c Hc c'.
  pose proof (settime_valid_run chat messageText time rest w Hargs Hvalid) as Hsame.
  fold w' chatId in Hsame.
  set (w1 := set_db (updateChatSettings (db w) chatId (mkChatSettings (Some time) None None)) w)
    in *.
  set (w2 := snd (updateChatSchedule chatId w1)) in *.
  assert (Hc1 : getChat (db w1) chatId = Some c').
  { subst w1. unfold getChat, updateChatSettings in *. simpl.
    rewrite (validateTimeFormat_nonempty time Hvalid). simpl.
    rewrite lookup_alter_eq, Hc. simpl. reflexivity. }
  assert (Hw1 : registry_sound w1) by exact Hw.
  assert (Hkeys1 : forall (k : string) (x : Chat.t),
            chats (db w1) !! k = Some x -> Chat.chat_id x = k)
    by (apply updateChatSettings_keys, Hkeys).
  assert (Hid : Chat.chat_id c' = chatId) by (apply (Hkeys chatId c Hc)).
  pose proof (updateChatSchedule_timers chatId w1 Hw1 Hkeys1) as Hcount.
  fold w2 in Hcount. rewrite Hc1 in Hcount.
  change (cronJobs w1) with (cronJobs w) in Hcount.
  change (Chat.is_active c') with (Chat.is_active c) in Hcount.
  assert (Hdb : db w2 = db w1).
  { subst w2. rewrite updateChatSchedule_run, Hc1.
    destruct (Chat.is_active c'); [apply scheduleChat_db | apply unscheduleChat_db]. }
  pose proof (liveTimers_same_registry chatId w2 w' Hsame) as Hlive.
  destruct Hsame as (_ & _ & Hdb').
  split; [rewrite Hdb', Hdb; exact Hc1|].
  rewrite Hlive. split; [exact Hcount|].
  intros t Ht.
  destruct (Chat.is_active c) eqn:Hact.
  - assert (E : w2 = snd (scheduleChat c' w1)).
    { subst w2. rewrite updateChatSchedule_run, Hc1. reflexivity. }
    rewrite E, <- Hid in Ht.
    destruct (scheduleChat_live_task c' w1 t Hw1 Ht) as (_ & He & Hz).
    split; assumption.
  - exfalso. simpl in Hcount.
    assert (Hzero : length (liveTimers chatId w2) = 0)
      by (rewrite Hcount; destruct (cronJobs w !! chatId); reflexivity).
    apply length_zero_nil in Hzero. rewrite Hzero in Ht. inversion Ht.
Qed.

(** X24. No command of an update that has a chat and a sender is ever run.
    The registration middleware throws before the handler is reached, and
    [bot.catch] logs the error: whatever the handler, the update ends
    normally with nothing but one more log entry.  So after an update with
    [/settime] the row of the chat has the report time and the zone it had,
    the registry is as it was, and no reply has been sent. *)
Theorem handleUpdate_reaches_no_handler
    (chat : TgChat) (from : TgUser) (handler : M unit) (messageText : string) (w : World) :
  handleUpdate chat from handler w
  = (Ok tt, set_errors (errors w ++ [("Bot error", bindError)]) w)
  /\ (let w' := snd (handleUpdate chat from (settime chat messageText) w) in
      db w' = db w /\ cronJobs w' = cronJobs w /\ tasks w' = tasks w
      /\ calls w' = calls w
      /\ forall c : string, liveTimers c w' = liveTimers c w).
Proof.
  assert (E : forall h : M unit,
            handleUpdate chat from h w
            = (Ok tt, set_errors (errors w ++ [("Bot error", bindError)]) w)).
  { intros h. unfold handleUpdate, try_catch. unfold bind at 1.
    rewrite registerChatAndUser_run. reflexivity. }
  split; [apply E|]. rewrite E. simpl. repeat split; reflexivity.
Qed.

(** ** The provider cache *)

(** X25. The digest generator chooses its provider once.  [getLLMProvider]
    always returns; the first call with nothing cached takes the factory's
    provider, which is the generative one exactly when the probe of the
    backend succeeds, and later calls return the same provider without any
    outside call, also after [LLMProviderFactory.reset], which clears the
    factory's cache only. *)
Theorem getLLMProvider_chooses_once (w : World) :
  let w1 := snd (getLLMProvider w) in
  let w2 := snd (LLMProviderFactory_reset w1) in
  exists p : Provider,
    fst (getLLMProvider w) = Ok p
    /\ llmProvider w1 = Some p
    /\ (llmProvider w = None -> instance w = None ->
        p = (if modelsList env (length (calls w)) then OpenAIProvider else FallbackProvider)
        /\ calls w1 = (calls w ++ [CallModelsList])%list)
    /\ (llmProvider w = None -> forall q : Provider, instance w = Some q ->
        p = q /\ calls w1 = calls w)
    /\ instance w2 = None
    /\ getLLMProvider w2 = (Ok p, w2).
Proof.
  intros w1 w2.
  assert (Hcached : forall (p : Provider) (v : World),
            llmProvider v = Some p -> getLLMProvider v = (Ok p, v)).
  { intros p v H. unfold getLLMProvider, bind, gets. rewrite H. reflexivity. }
  assert (Hreset : forall v : World,
            snd (LLMProviderFactory_reset v) = set_instance None v) by reflexivity.
  destruct (llmProvider w) as [p|] eqn:Hc.
  - assert (E : w1 = w) by (subst w1; rewrite (Hcached p w Hc); reflexivity).
    exists p. rewrite (Hcached p w Hc). subst w2. rewrite E, Hreset.
    split; [reflexivity|]. split; [exact Hc|].
    split; [discriminate|]. split; [discriminate|]. split; [reflexivity|].
    apply Hcached. exact Hc.
  - destruct (instance w) as [q|] eqn:Hi.
    + assert (E : getLLMProvider w = (Ok q, set_llmProvider (Some q) w)).
      { unfold getLLMProvider, bind, gets. rewrite Hc, (getProvider_cached q w Hi).
        reflexivity. }
      exists q. subst w2 w1. rewrite E, Hreset.
      split; [reflexivity|]. split; [reflexivity|].
      split; [discriminate|].
      split; [intros _ q' Hq; injection Hq as <-; split; reflexivity|].
      split; [reflexivity|]. apply Hcached. reflexivity.
    + set (p := if modelsList env (length (calls w)) then OpenAIProvider
                else FallbackProvider).
      assert (E : getLLMProvider w
                  = (Ok p, set_llmProvider (Some p)
                             (set_instance (Some p)
                                (set_calls (calls w ++ [CallModelsList]) w)))).
      { unfold getLLMProvider, bind, gets. rewrite Hc, (getProvider_probe w Hi).
        reflexivity. }
      exists p. subst w2 w1. rewrite E, Hreset.
      split; [reflexivity|]. split; [reflexivity|].
      split; [intros _ _; split; reflexivity|].
      split; [intros _ q' Hq; discriminate|].
      split; [reflexivity|]. apply Hcached. reflexivity.
Qed.

(** ** Statistics *)

Section Tally.
Context {K : Type} `{EqDecision K}.

Lemma countOf_cons (k : K) (p : K * nat) (l : list (K * nat)) :
  countOf k (p :: l) = if decide (fst p = k) then snd p else countOf k l.
Proof.
  unfold countOf. simpl. unfold bool_decide.
  destruct (decide_rel eq (fst p) k); destruct (decide (fst p = k)); try contradiction;
    reflexivity.
Qed.

Lemma countOf_bump (k k' : K) (l : list (K * nat)) :
  countOf k' (bump k l) = if decide (k = k') then S (countOf k' l) else countOf k' l.
Proof.
  induction l as [|[a n] l IH]; simpl.
  - rewrite countOf_cons. simpl. destruct (decide (k = k')); reflexivity.
  - destruct (decide (a = k)) as [->|Hne]; rewrite !countOf_cons; simpl.
    + destruct (decide (k = k')); reflexivity.
    + rewrite IH. destruct (decide (a = k')) as [->|Hne']; [|reflexivity].
      destruct (decide (k = k')); [congruence | reflexivity].
Qed.

Lemma keys_bump (k a : K) (l : list (K * nat)) :
  a ∈ (bump k l).*1 <-> a ∈ l.*1 \/ a = k.
Proof.
  induction l as [|[b n] l IH]; simpl.
  - rewrite elem_of_cons, elem_of_nil. tauto.
  - destruct (decide (b = k)) as [->|Hne]; simpl; rewrite !elem_of_cons.
    + tauto.
    + rewrite IH. tauto.
Qed.

Lemma NoDup_bump (k : K) (l : list (K * nat)) : NoDup l.*1 -> NoDup (bump k l).*1.
Proof.
  induction l as [|[b n] l IH]; simpl; intros Hnd.
  - apply NoDup_singleton.
  - apply NoDup_cons in Hnd as [Hb Hnd].
    destruct (decide (b = k)) as [->|Hne]; simpl; apply NoDup_cons.
    + split; assumption.
    + split; [|apply IH; exact Hnd].
      rewrite keys_bump. intros [Hin | ->]; [contradiction | congruence].
Qed.

Lemma positive_bump (k : K) (l : list (K * nat)) :
  Forall (fun p => (1 <= snd p)%nat) l -> Forall (fun p => (1 <= snd p)%nat) (bump k l).
Proof.
  induction l as [|[b n] l IH]; simpl; intros Hp.
  - constructor; [simpl; lia | constructor].
  - apply Forall_cons in Hp as [Hn Hp].
    destruct (decide (b = k)); constructor; simpl in *; auto; lia.
Qed.

(** An entry of a list without repeated keys is what [countOf] finds. *)
Lemma countOf_elem (k : K) (n : nat) (l : list (K * nat)) :
  NoDup l.*1 -> (k, n) ∈ l -> countOf k l = n.
Proof.
  induction l as [|[b m] l IH]; simpl; intros Hnd Hin; [inversion Hin|].
  apply NoDup_cons in Hnd as [Hb Hnd]. rewrite countOf_cons. simpl.
  apply elem_of_cons in Hin as [Heq | Hin].
  - injection Heq as <- <-. destruct (decide (k = k)); [reflexivity | congruence].
  - destruct (decide (b = k)) as [->|Hne]; [|apply IH; assumption].
    exfalso. apply Hb. change k with (fst (k, n)). apply list_elem_of_fmap_2. exact Hin.
Qed.

(** A key counted at least once has an entry. *)
Lemma elem_countOf (k : K) (l : list (K * nat)) :
  (1 <= countOf k l)%nat -> (k, countOf k l) ∈ l.
Proof.
  induction l as [|[b m] l IH]; [unfold countOf; simpl; lia|].
  rewrite countOf_cons. simpl.
  destruct (decide (b = k)) as [->|Hne]; intros Hc.
  - apply list_elem_of_here.
  - apply list_elem_of_further, IH, Hc.
Qed.

(** The entries after a run of [bump]s, from any start. *)
Lemma countOf_tally (k : K) (ks : list K) (l : list (K * nat)) :
  countOf k (fold_left (fun acc x => bump x acc) ks l)
  = (countOf k l + length (List.filter (fun x => bool_decide (x = k)) ks))%nat.
Proof.
  revert l. induction ks as [|x ks IH]; intros l; simpl; [lia|].
  rewrite IH, countOf_bump. unfold bool_decide.
  destruct (decide_rel eq x k); destruct (decide (x = k)); try contradiction; simpl; lia.
Qed.

Lemma NoDup_tally (ks : list K) (l : list (K * nat)) :
  NoDup l.*1 -> NoDup (fold_left (fun acc x => bump x acc) ks l).*1.
Proof.
  revert l. induction ks as [|x ks IH]; intros l Hl; simpl; [exact Hl|].
  apply IH, NoDup_bump, Hl.
Qed.

Lemma positive_tally (ks : list K) (l : list (K * nat)) :
  Forall (fun p => (1 <= snd p)%nat) l ->
  Forall (fun p => (1 <= snd p)%nat) (fold_left (fun acc x => bump x acc) ks l).
Proof.
  revert l. induction ks as [|x ks IH]; intros l Hl; simpl; [exact Hl|].
  apply IH, positive_bump, Hl.
Qed.

End Tally.

Lemma length_filter_fmap {A B : Type} (f : A -> B) (p : B -> bool) (l : list A) :
  length (List.filter p (map f l)) = length (List.filter (fun a => p (f a)) l).
Proof.
  induction l as [|a l IH]; simpl; [reflexivity|].
  destruct (p (f a)); simpl; rewrite IH; reflexivity.
Qed.

(** The loop keeps two independent tallies, of the names and of the types of
    the rows of users who have not opted out. *)
Lemma countRows_tallies (rows : list Row) :
  let counted := List.filter (fun r => negb (User.is_opted_out (snd r))) rows in
  countRows rows
  = (fold_left (fun acc x => bump x acc) (map (fun r => displayName (snd r)) counted) [],
     fold_left (fun acc x => bump x acc)
       (map (fun r => Message.message_type (fst r)) counted) []).
Proof.
  unfold countRows. generalize (@nil (string * nat)) (@nil (MessageType * nat)).
  induction rows as [|r rows IH]; intros us ts; simpl; [reflexivity|].
  destruct (User.is_opted_out (snd r)); simpl; apply IH.
Qed.

Lemma insert_by_count_perm (x : string * nat) (l : list (string * nat)) :
  insert_by_count x l ≡ₚ x :: l.
Proof.
  induction l as [|y l IH]; simpl; [reflexivity|].
  destruct (snd x <? snd y)%nat; [|reflexivity].
  rewrite IH. apply perm_swap.
Qed.

Lemma sort_by_count_perm (l : list (string * nat)) : sort_by_count l ≡ₚ l.
Proof.
  induction l as [|x l IH]; simpl; [reflexivity|].
  rewrite insert_by_count_perm, IH. reflexivity.
Qed.

Lemma insert_by_count_sorted (x : string * nat) (l : list (string * nat)) :
  StronglySorted (fun a b => (snd b <= snd a)%nat) l ->
  StronglySorted (fun a b => (snd b <= snd a)%nat) (insert_by_count x l).
Proof.
  induction l as [|y l IH]; simpl; intros Hs.
  - constructor; [constructor | constructor].
  - apply StronglySorted_inv in Hs as [Hs Hy].
    destruct (snd x <? snd y)%nat eqn:E.
    + apply Nat.ltb_lt in E. constructor; [apply IH; exact Hs|].
      rewrite Forall_forall in *. intros z Hz.
      rewrite insert_by_count_perm in Hz.
      apply elem_of_cons in Hz as [-> | Hz]; [lia|].
      apply Hy, Hz.
    + apply Nat.ltb_ge in E. constructor; [constructor; assumption|].
      constructor; [exact E|].
      rewrite Forall_forall in *. intros z Hz. specialize (Hy z Hz). simpl in Hy. lia.
Qed.

Lemma sort_by_count_sorted (l : list (string * nat)) :
  StronglySorted (fun a b => (snd b <= snd a)%nat) (sort_by_count l).
Proof.
  induction l as [|x l IH]; simpl; [constructor|].
  apply insert_by_count_sorted, IH.
Qed.

(** X26. What [getSummaryStats] reports.  The total is the number of rows
    of the range, opted-out users included, while the tallies are over the
    rows of users who have not opted out: each message type has the number
    of such rows of that type, and each listed name the number of such rows
    whose author shows under that name, users who share a name being counted
    together.  At most five names are listed, no name twice, the larger
    counts first, and a name that is left out has no more rows than any
    listed one. *)
Theorem getSummaryStats_counts
    (d : Db) (chatId : string) (days endNow startNow : Z) :
  let st := getSummaryStats d chatId days endNow startNow in
  let rows :=
    getMessagesForDateRange d chatId
      (JsDate.toISOString (daysAgo startNow days)) (JsDate.toISOString endNow) in
  let counted := List.filter (fun r => negb (User.is_opted_out (snd r))) rows in
  let rowsNamed (name : string) :=
    length (List.filter (fun r => bool_decide (displayName (snd r) = name)) counted) in
  stats_totalMessages st = length rows
  /\ (forall t : MessageType,
        countOf t (messageTypes st)
        = length (List.filter (fun r => bool_decide (Message.message_type (fst r) = t))
                    counted))
  /\ NoDup (messageTypes st).*1
  /\ (length (mostActiveUsers st) <= 5)%nat
  /\ NoDup (mostActiveUsers st).*1
  /\ StronglySorted (fun a b => (snd b <= snd a)%nat) (mostActiveUsers st)
  /\ (forall (name : string) (n : nat),
        (name, n) ∈ mostActiveUsers st -> n = rowsNamed name /\ (1 <= n)%nat)
  /\ (forall name : string,
        (1 <= rowsNamed name)%nat -> name ∉ (mostActiveUsers st).*1 ->
        length (mostActiveUsers st) = 5%nat
        /\ forall a : string * nat, a ∈ mostActiveUsers st -> (rowsNamed name <= snd a)%nat).
Proof.
  intros st rows counted rowsNamed.
  set (names := map (fun r : Row => displayName (snd r)) counted).
  set (tally := fold_left (fun acc x => bump x acc) names (@nil (string * nat))).
  assert (Hst : st = mkStats (length rows)
                       (roundDiv (Z.of_nat (length rows)) days)
                       (firstn 5 (sort_by_count tally))
                       (fold_left (fun acc x => bump x acc)
                          (map (fun r : Row => Message.message_type (fst r)) counted) [])).
  { subst st. unfold getSummaryStats. cbv zeta. fold rows.
    rewrite (countRows_tallies rows). reflexivity. }
  assert (Hcount : forall name, countOf name tally = rowsNamed name).
  { intros name. subst tally names rowsNamed. rewrite countOf_tally.
    rewrite (length_filter_fmap (fun r : Row => displayName (snd r))
               (fun x => bool_decide (x = name))).
    unfold countOf. reflexivity. }
  assert (Hnd : NoDup tally.*1) by (apply NoDup_tally; constructor).
  assert (Hpos : Forall (fun p : string * nat => (1 <= snd p)%nat) tally)
    by (apply positive_tally; constructor).
  assert (Hperm : sort_by_count tally ≡ₚ tally) by apply sort_by_count_perm.
  assert (Hsorted : StronglySorted (fun a b : string * nat => (snd b <= snd a)%nat)
                      (take 5 (sort_by_count tally) ++ drop 5 (sort_by_count tally))).
  { rewrite take_drop. apply sort_by_count_sorted. }
  assert (Htake : forall a, a ∈ take 5 (sort_by_count tally) -> a ∈ tally).
  { intros a Ha. rewrite <- Hperm. rewrite <- (take_drop 5 (sort_by_count tally)).
    apply elem_of_app. left. exact Ha. }
  rewrite Hst. simpl.
  split; [reflexivity|]. split.
  { intros t. rewrite countOf_tally.
    rewrite (length_filter_fmap (fun r : Row => Message.message_type (fst r))
               (fun x => bool_decide (x = t))).
    unfold countOf. reflexivity. }
  split; [apply NoDup_tally; constructor|].
  split; [rewrite length_take; lia|].
  split.
  { assert (Hs : NoDup (sort_by_count tally).*1) by (rewrite Hperm; exact Hnd).
    rewrite <- (take_drop 5 (sort_by_count tally)), fmap_app in Hs.
    apply NoDup_app in Hs as [Hs _]. exact Hs. }
  split; [apply StronglySorted_app_1_l in Hsorted; exact Hsorted|].
  split.
  { intros name n Hin. apply Htake in Hin.
    rewrite <- Hcount, (countOf_elem name n tally Hnd Hin).
    split; [reflexivity|].
    rewrite Forall_forall in Hpos. apply (Hpos (name, n)), Hin. }
  intros name Hc Hout.
  assert (Hin : (name, rowsNamed name) ∈ drop 5 (sort_by_count tally)).
  { assert (Hall : (name, rowsNamed name) ∈ sort_by_count tally).
    { rewrite Hperm, <- Hcount. apply elem_countOf. rewrite Hcount. exact Hc. }
    rewrite <- (take_drop 5 (sort_by_count tally)) in Hall.
    apply elem_of_app in Hall as [Hall | Hall]; [|exact Hall].
    exfalso. apply Hout. change name with (fst (name, rowsNamed name)).
    apply list_elem_of_fmap_2. exact Hall. }
  split.
  - rewrite length_take.
    assert (5 < length (sort_by_count tally))%nat; [|lia].
    destruct (decide (5 < length (sort_by_count tally))%nat) as [|Hle]; [assumption|].
    rewrite drop_ge in Hin by lia. inversion Hin.
  - intros a Ha.
    apply (StronglySorted_app_1_elem_of _ _ _ a (name, rowsNamed name) Hsorted Ha Hin).
Qed.

(** ** Cleaning up *)

(** The order of [TEXT] values is transitive. *)
Lemma string_compare_le_trans (a b c : string) :
  String.compare a b <> Gt -> String.compare b c <> Gt -> String.compare a c <> Gt.
Proof.
  revert b c. induction a as [|x a IH]; intros [|y b] [|z c]; simpl; try congruence.
  unfold Ascii.compare.
  destruct (N.compare_spec (N_of_ascii x) (N_of_ascii y)) as [E1|E1|E1];
    destruct (N.compare_spec (N_of_ascii y) (N_of_ascii z)) as [E2|E2|E2];
    destruct (N.compare_spec (N_of_ascii x) (N_of_ascii z)) as [E3|E3|E3];
    intros H1 H2; try congruence; try (exfalso; lia).
  apply (IH b c); assumption.
Qed.

Lemma leb_ltb_trans (a b c : string) :
  String.leb a b = true -> String.leb b c = true -> String.ltb c a = false.
Proof.
  unfold String.leb, String.ltb. intros H1 H2.
  assert (H : String.compare a c <> Gt).
  { apply (string_compare_le_trans a b c).
    - destruct (String.compare a b); congruence.
    - destruct (String.compare b c); congruence. }
  rewrite (String.compare_antisym c a).
  destruct (String.compare a c); simpl; congruence.
Qed.

Lemma filter_filter_implied {A : Type} (p q : A -> bool) (l : list A) :
  (forall a : A, p a = true -> q a = true) ->
  List.filter p (List.filter q l) = List.filter p l.
Proof.
  intros H. induction l as [|a l IH]; simpl; [reflexivity|].
  destruct (q a) eqn:Eq; simpl.
  - destruct (p a); rewrite IH; reflexivity.
  - destruct (p a) eqn:Ep; [|exact IH].
    apply H in Ep. congruence.
Qed.

(** On a host whose zone keeps one offset, a day back is 24 hours back. *)
Lemma setDateBack_fixed (offset now days : Z) :
  JsDate.setDateBack (JsDate.fixed offset) now days = (now - days * JsDate.msPerDay)%Z.
Proof.
  unfold JsDate.setDateBack, JsDate.UTC, JsDate.MakeDate, JsDate.LocalTime,
    JsDate.Day, JsDate.TimeWithinDay. simpl.
  pose proof (Z.div_mod (now + offset) JsDate.msPerDay) as H.
  unfold JsDate.msPerDay in *. lia.
Qed.

(** X27. [cleanupOldMessages] removes exactly the messages whose timestamp
    compares, as text, below the ISO form of the cutoff, and keeps the others
    in order; the cutoff is the instant the host reads as now, [daysToKeep]
    calendar days earlier, which is that many times 24 hours ago on a host
    whose zone keeps one offset.  Chats, users and transcripts are left as
    they are, the transcripts of the removed messages included, and a range
    query between two ISO bounds, the lower at or after the cutoff, answers
    as before. *)
Theorem cleanupOldMessages_effect (d : Db) (daysToKeep now : Z) :
  let cutoff :=
    JsDate.toISOString
      (JsDate.UTC tz (JsDate.LocalTime tz now - daysToKeep * JsDate.msPerDay)) in
  let d' := cleanupOldMessages d daysToKeep now in
  messages d'
  = List.filter (fun m => negb (String.ltb (Message.created_at m) cutoff)) (messages d)
  /\ (forall m : Message.t,
        m ∈ messages d' <->
        m ∈ messages d /\ String.ltb (Message.created_at m) cutoff = false)
  /\ chats d' = chats d /\ users d' = users d /\ transcripts d' = transcripts d
  /\ (forall (chatId : string) (start finish : Z),
        String.leb cutoff (JsDate.toISOString start) = true ->
        getMessagesForDateRange d' chatId
          (JsDate.toISOString start) (JsDate.toISOString finish)
        = getMessagesForDateRange d chatId
            (JsDate.toISOString start) (JsDate.toISOString finish))
  /\ (forall offset : Z,
        tz = JsDate.fixed offset ->
        cutoff = JsDate.toISOString (now - daysToKeep * JsDate.msPerDay)).
Proof.
  intros cutoff d'.
  assert (Hd : d' = deleteMessagesBefore d cutoff).
  { subst d' cutoff. unfold cleanupOldMessages, daysAgo.
    rewrite setDateBack_local. reflexivity. }
  rewrite Hd. unfold deleteMessagesBefore. simpl.
  split; [reflexivity|]. split.
  { intros m. rewrite elem_of_filter_bool, negb_true_iff. reflexivity. }
  split; [reflexivity|]. split; [reflexivity|]. split; [reflexivity|]. split.
  - intros chatId start finish Hle.
    unfold getMessagesForDateRange. simpl.
    rewrite filter_filter_implied; [reflexivity|].
    intros m Hm. unfold in_date_range in Hm.
    apply andb_true_iff in Hm as [Hm _]. apply andb_true_iff in Hm as [_ Hs].
    apply negb_true_iff. apply (leb_ltb_trans cutoff (JsDate.toISOString start) _ Hle Hs).
  - intros offset Hz. subst cutoff. f_equal.
    rewrite <- setDateBack_local, Hz. apply setDateBack_fixed.
Qed.

End Pipeline.

(** ** Matching by derivatives decides the language *)

Module RegexFacts.
Import Regex.

Lemma nullable_lang (r : re) : nullable r = true <-> lang r "".
Proof.
  induction r as [| | lo hi | r1 IH1 r2 IH2 | r1 IH1 r2 IH2]; simpl.
  - split; [discriminate | inversion 1].
  - split; [constructor | reflexivity].
  - split; [discriminate | inversion 1].
  - rewrite andb_true_iff, IH1, IH2. split.
    + intros [H1 H2]. exact (lang_seq _ _ "" "" H1 H2).
    + inversion 1 as [| | ? ? s1 s2 H1 H2 Hr Hs | |]; subst.
      destruct s1; [|discriminate]. rewrite ?append_String, ?append_empty_l in *. subst. auto.
  - rewrite orb_true_iff, IH1, IH2. split.
    + intros [H | H]; [apply lang_alt_l | apply lang_alt_r]; exact H.
    + inversion 1; subst; auto.
Qed.

Lemma deriv_lang (r : re) (c : ascii) (s : string) :
  lang (deriv c r) s <-> lang r (String c s).
Proof.
  revert s.
  induction r as [| | lo hi | r1 IH1 r2 IH2 | r1 IH1 r2 IH2]; intros s; simpl.
  - split; inversion 1.
  - split; inversion 1.
  - destruct (in_range lo hi c) eqn:E.
    + split.
      * inversion 1; subst. constructor. exact E.
      * inversion 1; subst. constructor.
    + split; [inversion 1|].
      inversion 1; subst. congruence.
  - assert (Hseq : lang (Seq (deriv c r1) r2) s ->
                   lang (Seq r1 r2) (String c s)).
    { inversion 1 as [| | ? ? s1 s2 H1 H2 Hr Hs | |]; subst.
      exact (lang_seq _ _ (String c s1) s2 (proj1 (IH1 s1) H1) H2). }
    assert (Hinv : lang (Seq r1 r2) (String c s) ->
                   lang (Seq (deriv c r1) r2) s \/
                   (lang r1 "" /\ lang (deriv c r2) s)).
    { inversion 1 as [| | ? ? s1 s2 H1 H2 Hr Hs | |]; subst.
      destruct s1 as [|c1 s1]; rewrite ?append_String, ?append_empty_l in *.
      - subst s2. right. split; [exact H1 | apply IH2; exact H2].
      - injection Hs as Hc Hs'. subst c1 s. left.
        constructor; [apply IH1; exact H1 | exact H2]. }
    destruct (nullable r1) eqn:E.
    + split.
      * inversion 1; subst; [auto|].
        apply (lang_seq _ _ "" (String c s)).
        -- apply nullable_lang; exact E.
        -- apply IH2; assumption.
      * intros H. destruct (Hinv H) as [H' | [_ H']];
          [apply lang_alt_l | apply lang_alt_r]; exact H'.
    + split; [exact Hseq|].
      intros H. destruct (Hinv H) as [H' | [H' _]]; [exact H'|].
      apply nullable_lang in H'. congruence.
  - split.
    + inversion 1; subst; [apply lang_alt_l; apply IH1 | apply lang_alt_r; apply IH2];
        assumption.
    + inversion 1; subst; [apply lang_alt_l; apply IH1 | apply lang_alt_r; apply IH2];
        assumption.
Qed.

Lemma matches_lang (r : re) (s : string) : matches r s = true <-> lang r s.
Proof.
  revert r. induction s as [|c s IH]; intros r; simpl.
  - apply nullable_lang.
  - rewrite IH. apply deriv_lang.
Qed.

End RegexFacts.

(** ** What the report-time pattern accepts *)

Lemma digit_of_range (k : nat) (c : ascii) :
  k <= 9 -> Regex.in_range "0" (digit k) c = true ->
  exists n, n <= k /\ c = digit n.
Proof.
  intros Hk H. unfold Regex.in_range in H.
  apply andb_true_iff in H as [Hlo Hhi].
  apply N.leb_le in Hlo, Hhi.
  assert (Hd : N_of_ascii (digit k) = N.of_nat (48 + k)).
  { unfold digit, ascii_of_nat. apply N_ascii_embedding. lia. }
  rewrite Hd in Hhi. change (N_of_ascii "0") with 48%N in Hlo.
  exists (N.to_nat (N_of_ascii c) - 48). split; [lia|].
  unfold digit, ascii_of_nat.
  replace (N.of_nat (48 + (N.to_nat (N_of_ascii c) - 48))) with (N_of_ascii c) by lia.
  symmetry. apply ascii_N_embedding.
Qed.

Lemma two_digits_join (a b : nat) :
  b <= 9 -> two_digits (10 * a + b) = String (digit a) (String (digit b) "").
Proof.
  intros Hb. unfold two_digits.
  assert (Hq : (10 * a + b) / 10 = a) by (symmetry; apply (Nat.div_unique _ 10 a b); lia).
  assert (Hr : (10 * a + b) mod 10 = b) by (symmetry; apply (Nat.mod_unique _ 10 a b); lia).
  rewrite Hq, Hr. reflexivity.
Qed.

Lemma lang_range_inv (lo hi : ascii) (s : string) :
  Regex.lang (Regex.Range lo hi) s ->
  exists c, s = String c "" /\ Regex.in_range lo hi c = true.
Proof. inversion 1; subst; eauto. Qed.

Lemma lang_seq_inv (r1 r2 : Regex.re) (s : string) :
  Regex.lang (Regex.Seq r1 r2) s ->
  exists s1 s2, s = s1 +:+ s2 /\ Regex.lang r1 s1 /\ Regex.lang r2 s2.
Proof. inversion 1; subst; eauto. Qed.

Lemma lang_alt_inv (r1 r2 : Regex.re) (s : string) :
  Regex.lang (Regex.Alt r1 r2) s -> Regex.lang r1 s \/ Regex.lang r2 s.
Proof. inversion 1; subst; auto. Qed.

(** The hour part: one or two digits for 0 to 23. *)
Lemma hour_part (s : string) :
  Regex.lang
    (Regex.Alt
       (Regex.Seq (Regex.Opt (Regex.Range "0" "1")) (Regex.Range "0" "9"))
       (Regex.Seq (Regex.Chr "2") (Regex.Range "0" "3"))) s ->
  exists h, h <= 23 /\ (s = two_digits h \/ (h <= 9 /\ s = one_digit h)).
Proof.
  intros H. apply lang_alt_inv in H as [H | H];
    apply lang_seq_inv in H as (s1 & s2 & -> & H1 & H2);
    apply lang_range_inv in H2 as (c2 & -> & R2).
  - apply (digit_of_range 9) in R2 as (b & Hb & ->); [|lia].
    apply lang_alt_inv in H1 as [H1 | H1].
    + apply lang_range_inv in H1 as (c1 & -> & R1).
      apply (digit_of_range 1) in R1 as (a & Ha & ->); [|lia].
      exists (10 * a + b). split; [lia|]. left.
      rewrite two_digits_join by lia. reflexivity.
    + inversion H1; subst. exists b. split; [lia|]. right. split; [lia|reflexivity].
  - apply (digit_of_range 3) in R2 as (b & Hb & ->); [|lia].
    apply lang_range_inv in H1 as (c1 & -> & R1).
    assert (c1 = digit 2) as ->.
    { unfold Regex.in_range in R1. apply andb_true_iff in R1 as [L1 L2].
      apply N.leb_le in L1, L2. change (N_of_ascii "2") with 50%N in L1, L2.
      rewrite <- (ascii_N_embedding c1). replace (N_of_ascii c1) with 50%N by lia.
      reflexivity. }
    exists (10 * 2 + b). split; [lia|]. left.
    rewrite two_digits_join by lia. reflexivity.
Qed.

(** The rest: a colon and two digits for 00 to 59. *)
Lemma minute_part (s : string) :
  Regex.lang
    (Regex.Seq (Regex.Chr ":")
       (Regex.Seq (Regex.Range "0" "5") (Regex.Range "0" "9"))) s ->
  exists m, m <= 59 /\ s = ":" +:+ two_digits m.
Proof.
  intros H. apply lang_seq_inv in H as (s1 & s2 & -> & H1 & H2).
  apply lang_seq_inv in H2 as (s3 & s4 & -> & H3 & H4).
  apply lang_range_inv in H1 as (c1 & -> & R1).
  apply lang_range_inv in H3 as (c3 & -> & R3).
  apply lang_range_inv in H4 as (c4 & -> & R4).
  apply (digit_of_range 5) in R3 as (a & Ha & ->); [|lia].
  apply (digit_of_range 9) in R4 as (b & Hb & ->); [|lia].
  assert (c1 = ":"%char) as ->.
  { unfold Regex.in_range in R1. apply andb_true_iff in R1 as [L1 L2].
    apply N.leb_le in L1, L2. change (N_of_ascii ":") with 58%N in L1, L2.
    rewrite <- (ascii_N_embedding c1). replace (N_of_ascii c1) with 58%N by lia.
    reflexivity. }
  exists (10 * a + b). split; [lia|].
  rewrite two_digits_join by lia. reflexivity.
Qed.

(** Every hour and minute in range is accepted: the matcher is run on the
    1440 times of a day. *)
Lemma accepts_every_time :
  forallb (fun h => forallb (accepts_time h) (seq 0 60)) (seq 0 24) = true.
Proof. vm_compute. reflexivity. Qed.

Lemma accepts_time_true (h m : nat) : h <= 23 -> m <= 59 -> accepts_time h m = true.
Proof.
  intros Hh Hm.
  pose proof accepts_every_time as H.
  rewrite forallb_forall in H.
  specialize (H h). rewrite forallb_forall in H.
  apply H; apply in_seq; lia.
Qed.

(** C10. [validateTimeFormat] accepts exactly an hour 0-23 written with one
    or two digits, a colon and a two-digit minute 00-59; so ["9:05"], with a
    one-digit hour, is a valid report time. *)
Theorem validateTimeFormat_accepts_exactly :
  (forall s : string, validateTimeFormat s = true <-> is_report_time s)
  /\ validateTimeFormat "9:05" = true.
Proof.
  split; [|reflexivity].
  intros s. split.
  - intros H. apply RegexFacts.matches_lang in H.
    apply lang_seq_inv in H as (s1 & s2 & -> & H1 & H2).
    apply hour_part in H1 as (h & Hh & Hs1).
    apply minute_part in H2 as (m & Hm & ->).
    exists h, m. split; [exact Hh|]. split; [exact Hm|].
    destruct Hs1 as [-> | [Hh9 ->]]; [left | right; split; [exact Hh9|]]; reflexivity.
  - intros (h & m & Hh & Hm & Hs).
    pose proof (accepts_time_true h m Hh Hm) as Hacc.
    unfold accepts_time in Hacc. apply andb_true_iff in Hacc as [H2 H1].
    destruct Hs as [-> | [Hh9 ->]]; [exact H2|].
    apply Nat.leb_le in Hh9. rewrite Hh9 in H1. exact H1.
Qed.

(** ** The digest window on a concrete store *)

Lemma sample_engineDay_foreign_keys : foreign_keys Sample.engineDay.
Proof.
  intros m Hm. unfold Sample.engineDay in Hm. simpl in Hm.
  repeat (apply elem_of_cons in Hm as [-> | Hm]); [| |inversion Hm];
    vm_compute; eauto.
Qed.

Lemma getMessagesForDate_opt_out_witness :
  foreign_keys Sample.engineDay
  /\ totalCount (getMessagesForDate Sample.moscow Sample.engineDay "-100" Demo.noon) = 2
  /\ length (data_messages
               (getMessagesForDate Sample.moscow Sample.engineDay "-100" Demo.noon)) = 1
  /\ totalCount (getMessagesForDate Sample.moscow Sample.engineDayLater "-100" Demo.noon) = 2
  /\ forall r : Row,
       r ∈ filteredMessages Sample.moscow Sample.engineDayLater "-100" Demo.noon ->
       Message.user_id (fst r) <> "111".
Proof.
  split; [exact sample_engineDay_foreign_keys|].
  pose proof (getMessagesForDate_opt_out Sample.moscow Sample.engineDay "-100" Demo.noon
                sample_engineDay_foreign_keys) as (_ & _ & Hcount & Hlater).
  split; [rewrite Hcount; vm_compute; reflexivity|].
  split; [vm_compute; reflexivity|].
  destruct (Hlater Sample.engineDayLater "111" Sample.aliceOut) as (Hdrop & _ & Hsame).
  - reflexivity.
  - intros k. unfold Sample.engineDayLater, Sample.engineDay. simpl.
    destruct (decide (k = "111")) as [->|H1]; [split; intros _; vm_compute; eauto|].
    rewrite !(lookup_insert_ne _ "111" k) by congruence. reflexivity.
  - vm_compute. reflexivity.
  - reflexivity.
  - split; [rewrite Hsame, Hcount; vm_compute; reflexivity | exact Hdrop].
Defined.

(** C2, where the code misses the claim.  [insertMessage] leaves the date of
    a row to the engine, which writes [YYYY-MM-DD HH:MM:SS], while the bounds
    of the window are ISO strings, [YYYY-MM-DDTHH:mm:ss.sssZ], and the two are
    compared as text.  On a host in UTC the bounds of 15 January 2024 begin
    with the date of the rows of that day, and at the eleventh character a
    blank is below a [T]: a message stored on 15 January, at whatever time of
    day, is below the lower bound and is left out of the digest and of the
    count of its own day. *)
Theorem getMessagesForDate_misses_stored_message :
  JsDate.toISOString (startOfDay Sample.utc Demo.noon) = "2024-01-15T00:00:00.000Z"
  /\ JsDate.toISOString (endOfDay Sample.utc Demo.noon) = "2024-01-15T23:59:59.999Z"
  /\ CURRENT_TIMESTAMP Demo.noon = "2024-01-15 12:00:00"
  /\ (forall timeOfDay : string,
        let stamp := "2024-01-15 " +:+ timeOfDay in
        let stored := insertMessage stamp Demo.emptyStore Sample.textNote in
        fst stored = Ok (with_created_at stamp Sample.textNote)
        /\ messages (snd stored) = [with_created_at stamp Sample.textNote]
        /\ foreign_keys (snd stored)
        /\ data_messages (getMessagesForDate Sample.utc (snd stored) "-100" Demo.noon) = []
        /\ totalCount (getMessagesForDate Sample.utc (snd stored) "-100" Demo.noon) = 0).
Proof.
  split; [vm_compute; reflexivity|]. split; [vm_compute; reflexivity|].
  split; [vm_compute; reflexivity|].
  intros timeOfDay stamp stored.
  assert (Hstored : stored
                    = (Ok (with_created_at stamp Sample.textNote),
                       mkDb (chats Demo.emptyStore) (users Demo.emptyStore)
                            [with_created_at stamp Sample.textNote]
                            (transcripts Demo.emptyStore))) by reflexivity.
  assert (Hbelow : String.leb "2024-01-15T00:00:00.000Z" stamp = false).
  { subst stamp. rewrite !append_String, append_empty_l. reflexivity. }
  assert (Hraw : rawMessages Sample.utc (snd stored) "-100" Demo.noon = []).
  { rewrite Hstored. unfold rawMessages, getMessagesForDateRange. simpl messages.
    replace (JsDate.toISOString (startOfDay Sample.utc Demo.noon))
      with "2024-01-15T00:00:00.000Z" by (vm_compute; reflexivity).
    unfold List.filter, in_date_range. simpl Message.created_at.
    rewrite Hbelow, andb_false_r. reflexivity. }
  rewrite Hstored. simpl fst. simpl snd. rewrite Hstored in Hraw. simpl snd in Hraw.
  split; [reflexivity|]. split; [reflexivity|]. split.
  - intros m Hm. simpl in Hm. apply list_elem_of_singleton in Hm as ->.
    vm_compute. eauto.
  - unfold getMessagesForDate, filteredMessages. rewrite Hraw. split; reflexivity.
Qed.

(** ** Runs of the registry *)

Lemma demo_scheduled_ok : registry_ok Demo.scheduled.
Proof.
  assert (H : snd (scheduleChat numberString_ref cronValidate_ref Demo.scheduleNeverThrows
                     Demo.chat (initialWorld Demo.store)) = Demo.scheduled)
    by (vm_compute; reflexivity).
  rewrite <- H. apply scheduleChat_fresh_ok; [apply registry_ok_initial | reflexivity].
Qed.

Lemma demo_scheduled_sound : registry_sound Demo.scheduled.
Proof. apply registry_ok_sound, demo_scheduled_ok. Qed.

Lemma demo_store_keys (k : string) (c : Chat.t) :
  chats Demo.store !! k = Some c -> Chat.chat_id c = k.
Proof.
  simpl. intros H. apply lookup_singleton_Some in H as [<- <-]. reflexivity.
Qed.

Lemma scheduleChat_failure_is_swallowed_witness :
  registers numberString_ref cronValidate_ref Demo.scheduleNeverThrows Demo.chat_25h = false
  /\ length (liveTimers "-100" Demo.scheduled) = 1
  /\ fst (scheduleChat numberString_ref cronValidate_ref Demo.scheduleNeverThrows
            Demo.chat_25h Demo.scheduled) = Ok tt
  /\ liveTimers "-100"
       (snd (scheduleChat numberString_ref cronValidate_ref Demo.scheduleNeverThrows
               Demo.chat_25h Demo.scheduled)) = [].
Proof.
  assert (H : registers numberString_ref cronValidate_ref Demo.scheduleNeverThrows
                Demo.chat_25h = false) by (vm_compute; reflexivity).
  split; [exact H|]. split; [vm_compute; reflexivity|].
  destruct (scheduleChat_failure_is_swallowed numberString_ref cronValidate_ref
              Demo.scheduleNeverThrows Demo.chat_25h Demo.scheduled
              demo_scheduled_sound H) as (Hret & Hnone & _).
  split; [exact Hret | exact Hnone].
Defined.

(** The chat is registered for 21:00 and has its one live timer.  It is then
    registered again with the report time [25:00], which is no time of day.
    The call returns normally, nothing is thrown, and the timer the chat had
    is not left as it was: it is stopped and the chat has no live timer.
    Registered from the start with [7:5], which is not HH:MM either, the chat
    is scheduled, for five past seven. *)
Lemma scheduleChat_invalid_time_counterexample :
  validateTimeFormat (Chat.report_time Demo.chat_25h) = false
  /\ snd (scheduleChat numberString_ref cronValidate_ref Demo.scheduleNeverThrows
            Demo.chat (initialWorld Demo.store)) = Demo.scheduled
  /\ length (liveTimers "-100" Demo.scheduled) = 1
  /\ is_throw (fst (scheduleChat numberString_ref cronValidate_ref Demo.scheduleNeverThrows
                      Demo.chat_25h Demo.scheduled)) = false
  /\ liveTimers "-100"
       (snd (scheduleChat numberString_ref cronValidate_ref Demo.scheduleNeverThrows
               Demo.chat_25h Demo.scheduled)) = []
  /\ validateTimeFormat (Chat.report_time Demo.chat_7_5) = false
  /\ map task_expression
       (liveTimers "-100"
          (snd (scheduleChat numberString_ref cronValidate_ref Demo.scheduleNeverThrows
                  Demo.chat_7_5 (initialWorld Demo.store)))) = ["5 7 * * *"].
Proof. repeat split; vm_compute; reflexivity. Qed.

(** The chat is registered twice with the same valid report time.  After the
    first registration it has its one live timer; after the second it has
    none, the map still holds the job of the first, now stopped, and the
    failure of [job.destroy()] is in the log. *)
Lemma scheduleChat_again_leaves_no_timer_witness :
  registers numberString_ref cronValidate_ref Demo.scheduleNeverThrows Demo.chat = true
  /\ snd (scheduleChat numberString_ref cronValidate_ref Demo.scheduleNeverThrows
            Demo.chat (initialWorld Demo.store)) = Demo.scheduled
  /\ length (liveTimers "-100" Demo.scheduled) = 1
  /\ liveTimers "-100"
       (snd (scheduleChat numberString_ref cronValidate_ref Demo.scheduleNeverThrows
               Demo.chat Demo.scheduled)) = []
  /\ cronJobs (snd (scheduleChat numberString_ref cronValidate_ref
                      Demo.scheduleNeverThrows Demo.chat Demo.scheduled)) !! "-100"
     = Some 0
  /\ errors (snd (scheduleChat numberString_ref cronValidate_ref
                    Demo.scheduleNeverThrows Demo.chat Demo.scheduled))
     = [("Failed to schedule chat", "job.destroy is not a function")].
Proof.
  split; [vm_compute; reflexivity|]. split; [vm_compute; reflexivity|].
  split; [vm_compute; reflexivity|].
  destruct (scheduleChat_again_leaves_no_timer numberString_ref cronValidate_ref
              Demo.scheduleNeverThrows Demo.chat Demo.scheduled 0
              demo_scheduled_sound eq_refl) as (_ & Hnone & Hmap & _ & Herr & _).
  split; [exact Hnone|]. split; [rewrite Hmap; reflexivity | exact Herr].
Defined.

(** ** Writing a transcript twice, on a concrete store *)

(** The same transcript is written twice.  The first write stores it; the
    second, of the very same row, is not accepted as a repetition: it
    throws. *)
Lemma transcript_second_write_counterexample :
  let tr := Transcript.mk "7" "file-7" "good morning" (Some "ru") None in
  let d1 := snd (insertTranscript emptyDb tr) in
  fst (insertTranscript emptyDb tr) = Ok tr
  /\ getTranscript d1 "7" "file-7" = Some tr
  /\ fst (insertTranscript d1 tr)
     = Throw "UNIQUE constraint failed: transcripts.message_id, transcripts.file_id".
Proof. repeat split; vm_compute; reflexivity. Qed.

(** ** Runs of a fire *)

(** On a host in Berlin the day of 31 March 2024, on which the clocks go
    forward, has 23 hours. *)
Example spring_day_has_23_hours :
  (endOfDay Sample.berlin Sample.springForward
   - startOfDay Sample.berlin Sample.springForward = 23 * 3600000 - 1)%Z
  /\ JsDate.toISOString (startOfDay Sample.berlin Sample.springForward)
     = "2024-03-30T23:00:00.000Z"
  /\ JsDate.toISOString (endOfDay Sample.berlin Sample.springForward)
     = "2024-03-31T21:59:59.999Z".
Proof. repeat split; vm_compute; reflexivity. Qed.

Lemma fire_target_is_host_yesterday_witness :
  JsDate.localDate Sample.berlin Sample.aprilEvening = JsDate.Civil 2024 4 1
  /\ JsDate.localDate Sample.berlin (yesterdayOf Sample.berlin Sample.aprilEvening)
     = JsDate.Civil 2024 3 31
  /\ JsDate.toISOString (yesterdayOf Sample.berlin Sample.aprilEvening)
     = "2024-03-31T19:00:00.000Z".
Proof.
  split; [vm_compute; reflexivity|].
  destruct (fire_target_is_host_yesterday Sample.berlin Demo.backendDown Demo.chat
              Sample.aprilEvening (initialWorld Demo.store)) as (_ & _ & Hdate & _).
  - vm_compute. reflexivity.
  - split; [rewrite Hdate; vm_compute; reflexivity | vm_compute; reflexivity].
Defined.


(** The host is in UTC and the chat in Tokyo, reporting at 06:00.  At the
    fire of 16 January (Tokyo) the day that just ended in the chat's zone is
    the 15th; the code takes the 14th, the day before the host's date, and
    queries that day's window. *)
Lemma fire_target_date_counterexample :
  zoneOffset (Chat.timezone Demo.chat_tokyo) = Some 32400000%Z
  /\ JsDate.dateInZone 32400000 Demo.tokyoMorning = JsDate.Civil 2024 1 16
  /\ yesterdayInZone 32400000 Demo.tokyoMorning = JsDate.Civil 2024 1 15
  /\ JsDate.localDate (JsDate.fixed 0) (yesterdayOf (JsDate.fixed 0) Demo.tokyoMorning) = JsDate.Civil 2024 1 14
  /\ dateRange (getMessagesForDate (JsDate.fixed 0) Demo.store "-100" (yesterdayOf (JsDate.fixed 0) Demo.tokyoMorning))
     = ("2024-01-14T00:00:00.000Z", "2024-01-14T23:59:59.999Z").
Proof. repeat split; vm_compute; reflexivity. Qed.

Lemma empty_day_is_suppressed_and_previewed_witness :
  data_messages (getMessagesForDate (JsDate.fixed 0) Demo.emptyStore "-100" Demo.noon) = []
  /\ shouldGenerateSummary (JsDate.fixed 0) "-100" Demo.noon (initialWorld Demo.emptyStore)
     = (Ok false, initialWorld Demo.emptyStore)
  /\ generateDailySummary (JsDate.fixed 0) Demo.backendDown "-100" Demo.noon (initialWorld Demo.emptyStore)
     = (Ok (generateEmptySummary "@vlad311"), initialWorld Demo.emptyStore).
Proof.
  assert (H : data_messages
                (getMessagesForDate (JsDate.fixed 0) (db (initialWorld Demo.emptyStore)) "-100" Demo.noon)
              = []) by (vm_compute; reflexivity).
  destruct (empty_day_is_suppressed_and_previewed (JsDate.fixed 0) Demo.backendDown "-100" Demo.noon
              (initialWorld Demo.emptyStore) H) as (H1 & _ & H3 & _).
  split; [exact H|]. split; [exact H1|].
  apply (H3 Demo.chat). vm_compute. reflexivity.
Defined.

Lemma fallback_render_guarantee_witness :
  data_messages (getMessagesForDate (JsDate.fixed 0) Demo.store "-100" Demo.noon) <> []
  /\ modelsList Demo.backendDown 0 = false
  /\ contains "@vlad311"
       (FallbackProvider_generateSummary
          (data_messages (getMessagesForDate (JsDate.fixed 0) Demo.store "-100" Demo.noon))
          (mkSummaryContext "Team" "15.01.2024" 2 "@vlad311"))
  /\ contains (statisticsLine 2)
       (FallbackProvider_generateSummary
          (data_messages (getMessagesForDate (JsDate.fixed 0) Demo.store "-100" Demo.noon))
          (mkSummaryContext "Team" "15.01.2024" 2 "@vlad311")).
Proof.
  assert (Hne : data_messages
                  (getMessagesForDate (JsDate.fixed 0) (db (initialWorld Demo.store)) "-100" Demo.noon)
                <> []) by (vm_compute; discriminate).
  assert (Hchat : getChat (db (initialWorld Demo.store)) "-100" = Some Demo.chat)
    by (vm_compute; reflexivity).
  destruct (fallback_render_guarantee (JsDate.fixed 0) Demo.backendDown "-100" Demo.noon Demo.chat
              (initialWorld Demo.store) Hchat Hne eq_refl eq_refl eq_refl)
    as (_ & _ & _ & _ & Hmention & Hstats).
  split; [exact Hne|]. split; [reflexivity|]. split; [exact Hmention | exact Hstats].
Defined.

Lemma fire_failure_is_contained_witness :
  fst (executeDailyReport_try (JsDate.fixed 0) Demo.backendFails Demo.chat Demo.evening16
         (initialWorld Demo.store))
  = Throw "429 You exceeded your current quota"
  /\ fst (executeDailyReport (JsDate.fixed 0) Demo.backendFails Demo.chat Demo.evening16
            (initialWorld Demo.store)) = Ok tt
  /\ ("-100", errorNotice "429 You exceeded your current quota")
     ∈ delivered (snd (executeDailyReport (JsDate.fixed 0) Demo.backendFails Demo.chat Demo.evening16
                         (initialWorld Demo.store))).
Proof.
  assert (Hbody : executeDailyReport_try (JsDate.fixed 0) Demo.backendFails Demo.chat Demo.evening16
                    (initialWorld Demo.store)
                  = (Throw "429 You exceeded your current quota",
                     snd (executeDailyReport_try (JsDate.fixed 0) Demo.backendFails Demo.chat
                            Demo.evening16 (initialWorld Demo.store))))
    by (vm_compute; reflexivity).
  destruct (fire_failure_is_contained (JsDate.fixed 0) Demo.backendFails Demo.chat Demo.evening16
              (initialWorld Demo.store) _ _ Hbody) as (Hret & _ & _ & _ & _ & _ & Hsent).
  split; [rewrite Hbody; reflexivity|]. split; [exact Hret|].
  apply Hsent. vm_compute. reflexivity.
Defined.

(** A timestamp written by the engine has a blank where the bounds of the
    window have a [T], so on a host in UTC it compares below the lower bound
    of its own day. *)
Example engine_timestamp_below_window :
  String.leb (JsDate.toISOString (startOfDay (JsDate.fixed 0) Demo.noon)) "2024-01-15 12:00:00" = false
  /\ totalCount (getMessagesForDate (JsDate.fixed 0) Demo.engineStore "-100" Demo.noon) = 0.
Proof. split; vm_compute; reflexivity. Qed.

(** ** The store under its operations *)

Lemma store_ok_emptyDb : store_ok emptyDb.
Proof.
  unfold store_ok, emptyDb. simpl.
  split; [intros k c H; rewrite lookup_empty in H; discriminate|].
  split; [intros k c H; rewrite lookup_empty in H; discriminate|].
  split; [intros k c H; rewrite lookup_empty in H; discriminate|].
  split; [intros m H; inversion H | apply NoDup_nil_2].
Qed.

Lemma store_ok_upsertChat (d : Db) (chat : Chat.t) :
  store_ok d -> store_ok (snd (upsertChat_statement d chat)).
Proof.
  intros Hd. pose proof Hd as (K1 & K2 & K3 & FK & ND). unfold upsertChat_statement.
  destruct (valid_chat_type (Chat.type chat)); simpl; [|exact Hd].
  split; [|split; [exact K2|split; [exact K3|split; [|exact ND]]]].
  - intros k c H. simpl in H. apply lookup_insert_Some in H as [[<- <-] | [_ H]];
      [reflexivity | apply (K1 k c H)].
  - intros m Hm. simpl in Hm |- *. destruct (FK m Hm) as [Hc Hu]. split; [|exact Hu].
    apply lookup_insert_is_Some'. right. exact Hc.
Qed.

Lemma store_ok_updateChatSettings (d : Db) (chatId : string) (settings : ChatSettings) :
  store_ok d -> store_ok (updateChatSettings d chatId settings).
Proof.
  intros Hd. pose proof Hd as (K1 & K2 & K3 & FK & ND). unfold updateChatSettings.
  destruct (negb _); [exact Hd|]. simpl.
  split; [|split; [exact K2|split; [exact K3|split; [|exact ND]]]].
  - intros k c H. simpl in H. apply lookup_alter_Some in H as [(-> & c0 & H0 & ->) | [_ H]].
    + simpl. apply (K1 _ c0 H0).
    + apply (K1 k c H).
  - intros m Hm. simpl in Hm |- *. destruct (FK m Hm) as [Hc Hu]. split; [|exact Hu].
    apply lookup_alter_is_Some. exact Hc.
Qed.

Lemma store_ok_upsertUser (d : Db) (user : User.t) :
  store_ok d -> store_ok (snd (upsertUser_statement d user)).
Proof.
  intros (K1 & K2 & K3 & FK & ND). unfold upsertUser_statement. simpl.
  split; [exact K1|split; [|split; [exact K3|split; [|exact ND]]]].
  - intros k u H. simpl in H. apply lookup_insert_Some in H as [[<- <-] | [_ H]];
      [reflexivity | apply (K2 k u H)].
  - intros m Hm. simpl in Hm |- *. destruct (FK m Hm) as [Hc Hu]. split; [exact Hc|].
    apply lookup_insert_is_Some'. right. exact Hu.
Qed.

Lemma store_ok_setUserOptOut (d : Db) (userId : string) (b : bool) :
  store_ok d -> store_ok (setUserOptOut_statement d userId b).
Proof.
  intros (K1 & K2 & K3 & FK & ND). unfold setUserOptOut_statement. simpl.
  split; [exact K1|split; [|split; [exact K3|split; [|exact ND]]]].
  - intros k u H. simpl in H. apply lookup_alter_Some in H as [(-> & u0 & H0 & ->) | [_ H]].
    + simpl. apply (K2 _ u0 H0).
    + apply (K2 k u H).
  - intros m Hm. simpl in Hm |- *. destruct (FK m Hm) as [Hc Hu]. split; [exact Hc|].
    apply lookup_alter_is_Some. exact Hu.
Qed.

Lemma existsb_same_message_key_false (row : Message.t) (l : list Message.t) :
  existsb (same_message_key row) l = false ->
  (Message.chat_id row, Message.message_id row)
  ∉ (fun m => (Message.chat_id m, Message.message_id m)) <$> l.
Proof.
  intros Hex Hin. apply list_elem_of_fmap in Hin as (y & Hy & Hin).
  assert (Htrue : existsb (same_message_key row) l = true).
  { apply existsb_exists. exists y. split; [apply list_elem_of_In, Hin|].
    unfold same_message_key. injection Hy as -> ->.
    rewrite !String.eqb_refl. reflexivity. }
  congruence.
Qed.

Lemma store_ok_insertMessage (now : string) (d : Db) (message : Message.t) :
  store_ok d -> store_ok (snd (insertMessage now d message)).
Proof.
  intros Hd. pose proof Hd as (K1 & K2 & K3 & FK & ND). unfold insertMessage.
  destruct (existsb _ _) eqn:Hex; [exact Hd|].
  destruct (chats d !! _) as [c|] eqn:Hc; [|exact Hd].
  destruct (users d !! _) as [u|] eqn:Hu; [|exact Hd].
  simpl.
  split; [exact K1|split; [exact K2|split; [exact K3|split]]].
  - intros m Hm. simpl in Hm |- *. apply elem_of_app in Hm as [Hm | Hm]; [apply FK, Hm|].
    apply list_elem_of_singleton in Hm as ->. simpl in *. rewrite Hc, Hu. eauto.
  - simpl. rewrite fmap_app. apply NoDup_app. split; [exact ND|]. split.
    + intros k Hk Hk'. apply list_elem_of_singleton in Hk' as ->.
      exact (existsb_same_message_key_false _ _ Hex Hk).
    + apply NoDup_singleton.
Qed.

Lemma store_ok_insertTranscript (d : Db) (tr : Transcript.t) :
  store_ok d -> store_ok (snd (insertTranscript d tr)).
Proof.
  intros Hd. pose proof Hd as (K1 & K2 & K3 & FK & ND). unfold insertTranscript.
  destruct (transcripts d !! _); [exact Hd|]. simpl.
  split; [exact K1|split; [exact K2|split; [|split; [exact FK|exact ND]]]].
  intros k t H. simpl in H. apply lookup_insert_Some in H as [[<- <-] | [_ H]];
    [reflexivity | apply (K3 k t H)].
Qed.

Lemma store_ok_deleteChatData (d : Db) (chatId : string) :
  store_ok d -> store_ok (deleteChatData d chatId).
Proof.
  intros (K1 & K2 & K3 & FK & ND). unfold deleteChatData. simpl.
  split; [|split; [exact K2|split; [exact K3|split]]].
  - intros k c H. simpl in H. apply lookup_delete_Some in H as [_ H]. apply (K1 k c H).
  - intros m Hm. simpl in Hm |- *. apply elem_of_filter_bool in Hm as [Hm Hne].
    destruct (FK m Hm) as [Hc Hu]. split; [|exact Hu].
    apply negb_true_iff, String.eqb_neq in Hne.
    rewrite lookup_delete_ne by congruence. exact Hc.
  - apply NoDup_fmap_filter, ND.
Qed.

Lemma store_ok_deleteMessagesBefore (d : Db) (cutoff : string) :
  store_ok d -> store_ok (deleteMessagesBefore d cutoff).
Proof.
  intros (K1 & K2 & K3 & FK & ND). unfold deleteMessagesBefore. simpl.
  split; [exact K1|split; [exact K2|split; [exact K3|split]]].
  - intros m Hm. simpl in Hm |- *. apply elem_of_filter_bool in Hm as [Hm _]. apply FK, Hm.
  - apply NoDup_fmap_filter, ND.
Qed.

Lemma store_ok_runStoreOp (op : StoreOp) (d : Db) : store_ok d -> store_ok (runStoreOp op d).
Proof.
  intros Hd. destruct op; simpl;
    [ apply store_ok_upsertChat | apply store_ok_updateChatSettings
    | apply store_ok_upsertUser | apply store_ok_setUserOptOut
    | apply store_ok_insertMessage | apply store_ok_insertTranscript
    | apply store_ok_deleteChatData | apply store_ok_deleteMessagesBefore ];
    exact Hd.
Qed.

Lemma store_ok_runStoreOps (ops : list StoreOp) (d : Db) :
  store_ok d -> store_ok (runStoreOps ops d).
Proof.
  revert d. induction ops as [|op ops IH]; intros d Hd; simpl; [exact Hd|].
  apply IH, store_ok_runStoreOp, Hd.
Qed.

(** X1. Whatever operations of the store are run from the empty store, and
    whichever of them throw, the store keeps what its schema promises: every
    row is filed under its own key, no two messages share
    [(chat_id, message_id)], and every message has its chat and its author, so
    the join of the range query loses no message. *)
Theorem store_constraints_hold (ops : list StoreOp) :
  store_ok (runStoreOps ops emptyDb) /\ foreign_keys (runStoreOps ops emptyDb).
Proof.
  pose proof (store_ok_runStoreOps ops emptyDb store_ok_emptyDb) as H.
  split; [exact H|].
  destruct H as (_ & _ & _ & FK & _). intros m Hm. apply (FK m Hm).
Qed.

(** What a call of a method leaves of the users and of the chats. *)
Lemma runStoreMethod_rows (call : StoreMethod) (d : Db) :
  users (runStoreMethod call d) = users d
  /\ (forall k : string,
        is_Some (chats (runStoreMethod call d) !! k) -> is_Some (chats d !! k))
  /\ (chats d = ∅ -> messages d = [] -> messages (runStoreMethod call d) = []).
Proof.
  destruct call as [chat|chatId settings|user|userId b|now message|tr|chatId|cutoff];
    simpl.
  - repeat split; auto.
  - unfold updateChatSettings. destruct (negb _); [repeat split; auto|]. simpl.
    split; [reflexivity|]. split; [|auto].
    intros k Hk. apply lookup_alter_is_Some in Hk. exact Hk.
  - rewrite upsertUser_run. repeat split; auto.
  - repeat split; auto.
  - unfold insertMessage.
    destruct (existsb _ (messages d)); [repeat split; auto|].
    simpl Message.chat_id. simpl Message.user_id.
    destruct (chats d !! Message.chat_id message) as [c|] eqn:Hc;
      [|repeat split; auto].
    destruct (users d !! Message.user_id message); [|repeat split; auto].
    simpl. split; [reflexivity|]. split; [auto|].
    intros He _. rewrite He, lookup_empty in Hc. discriminate.
  - unfold insertTranscript. destruct (transcripts d !! _); repeat split; auto.
  - split; [reflexivity|]. split.
    + intros k Hk. simpl in Hk.
      destruct (decide (chatId = k)) as [->|Hne];
        [rewrite lookup_delete_eq in Hk; destruct Hk; discriminate|].
      rewrite lookup_delete_ne in Hk by exact Hne. exact Hk.
    + intros _ Hm. simpl. rewrite Hm. reflexivity.
  - split; [reflexivity|]. split; [auto|].
    intros _ Hm. simpl. rewrite Hm. reflexivity.
Qed.

Lemma runStoreMethods_rows (calls : list StoreMethod) (d : Db) :
  users (runStoreMethods calls d) = users d
  /\ (forall k : string,
        is_Some (chats (runStoreMethods calls d) !! k) -> is_Some (chats d !! k))
  /\ (chats d = ∅ -> messages d = [] ->
      chats (runStoreMethods calls d) = ∅ /\ messages (runStoreMethods calls d) = []).
Proof.
  revert d. induction calls as [|call calls IH]; intros d.
  - simpl. repeat split; auto.
  - change (runStoreMethods (call :: calls) d)
      with (runStoreMethods calls (runStoreMethod call d)).
    destruct (IH (runStoreMethod call d)) as (Hu & Hc & Hm).
    destruct (runStoreMethod_rows call d) as (Hu1 & Hc1 & Hm1).
    split; [congruence|]. split; [intros k Hk; apply Hc1, Hc, Hk|].
    intros He Hnil. apply Hm; [|apply Hm1; assumption].
    apply map_empty. intros k.
    destruct (chats (runStoreMethod call d) !! k) eqn:E; [|reflexivity].
    assert (Hs : is_Some (chats d !! k)) by (apply Hc1; rewrite E; eauto).
    rewrite He, lookup_empty in Hs. destruct Hs; discriminate.
Qed.

(** X2. The methods of the store register nothing.  [upsertChat],
    [upsertUser] and [setUserOptOut] each hand the driver a boolean and throw
    its [TypeError] before their statement is run, whatever the chat, its
    type included, and whatever the user.  So no run of the methods of the
    store makes a chat or changes a user: the users are the ones there were,
    every chat there is was there before, and from a store without chats and
    messages no message is ever stored. *)
Theorem store_methods_register_nothing (calls : list StoreMethod) (d : Db) :
  let d' := runStoreMethods calls d in
  (forall chat : Chat.t, upsertChat d chat = (Throw bindError, d))
  /\ (forall user : User.t, upsertUser d user = (Throw bindError, d))
  /\ (forall (userId : string) (flag : bool),
        setUserOptOut d userId flag = (Throw bindError, d))
  /\ users d' = users d
  /\ (forall k : string, is_Some (getChat d' k) -> is_Some (getChat d k))
  /\ (chats d = ∅ -> messages d = [] -> chats d' = ∅ /\ messages d' = []).
Proof.
  intros d'.
  split; [reflexivity|]. split; [apply upsertUser_run|]. split; [reflexivity|].
  apply runStoreMethods_rows.
Qed.

Lemma alter_absent {A : Type} (f : A -> A) (k : string) (m : gmap string A) :
  m !! k = None -> alter f k m = m.
Proof.
  intros H. apply map_eq. intros i.
  destruct (decide (k = i)) as [<-|Hne].
  - rewrite lookup_alter_eq, H. reflexivity.
  - apply lookup_alter_ne. exact Hne.
Qed.

(** X3. [updateChatSettings] writes only the report time, the zone and the
    target, and only the ones given and truthy: an empty string counts as
    not given.  The chat's identifier, title, type and active flag are never
    changed, other chats are untouched, and for a chat without a row the
    store is as it was. *)
Theorem updateChatSettings_frame (d : Db) (chatId : string) (settings : ChatSettings) :
  let d' := updateChatSettings d chatId settings in
  (getChat d chatId = None -> d' = d)
  /\ (forall c : Chat.t, getChat d chatId = Some c ->
        exists c' : Chat.t,
          getChat d' chatId = Some c'
          /\ Chat.chat_id c' = Chat.chat_id c /\ Chat.title c' = Chat.title c
          /\ Chat.type c' = Chat.type c /\ Chat.is_active c' = Chat.is_active c
          /\ Chat.report_time c'
             = (match set_report_time settings with
                | Some s => if String.eqb s "" then Chat.report_time c else s
                | None => Chat.report_time c
                end)
          /\ Chat.timezone c'
             = (match set_timezone settings with
                | Some s => if String.eqb s "" then Chat.timezone c else s
                | None => Chat.timezone c
                end)
          /\ Chat.target_username c'
             = (match set_target_username settings with
                | Some s => if String.eqb s "" then Chat.target_username c else s
                | None => Chat.target_username c
                end))
  /\ (forall k : string, k <> chatId -> getChat d' k = getChat d k)
  /\ users d' = users d /\ messages d' = messages d /\ transcripts d' = transcripts d.
Proof.
  unfold updateChatSettings, getChat.
  destruct settings as [rt zone target]. simpl.
  destruct (negb (truthy rt || truthy zone || truthy target)) eqn:E; simpl.
  - split; [reflexivity|]. split; [|repeat split; reflexivity].
    intros c Hc. exists c. split; [exact Hc|].
    apply negb_true_iff in E. apply orb_false_iff in E as [E Et].
    apply orb_false_iff in E as [Er Ez].
    repeat split; try reflexivity.
    + destruct rt as [s|]; [|reflexivity]. simpl in Er.
      apply negb_false_iff in Er. rewrite Er. reflexivity.
    + destruct zone as [s|]; [|reflexivity]. simpl in Ez.
      apply negb_false_iff in Ez. rewrite Ez. reflexivity.
    + destruct target as [s|]; [|reflexivity]. simpl in Et.
      apply negb_false_iff in Et. rewrite Et. reflexivity.
  - split.
    { intros Hnone. rewrite (alter_absent _ _ _ Hnone). destruct d; reflexivity. }
    split; [|split; [intros k Hk; apply lookup_alter_ne; congruence | repeat split; reflexivity]].
    intros c Hc. eexists. split; [rewrite lookup_alter_eq, Hc; reflexivity|].
    simpl. repeat split; try reflexivity.
    + destruct rt as [s|]; [|reflexivity]. simpl. destruct (String.eqb s ""); reflexivity.
    + destruct zone as [s|]; [|reflexivity]. simpl. destruct (String.eqb s ""); reflexivity.
    + destruct target as [s|]; [|reflexivity]. simpl. destruct (String.eqb s ""); reflexivity.
Qed.

(** X4. A message that [insertMessage] accepts is dated by the engine's
    clock and is from then on a row of every range query of its chat between
    two ISO bounds that hold that date as text, joined with its author; and
    a later insert with the same chat and message identifiers, whatever else
    it carries, throws and leaves the store as it was. *)
Theorem insertMessage_round_trip
    (t lo hi : Z) (d : Db) (message row : Message.t) :
  let now := CURRENT_TIMESTAMP t in
  let startDate := JsDate.toISOString lo in
  let endDate := JsDate.toISOString hi in
  fst (insertMessage now d message) = Ok row ->
  String.leb startDate now = true ->
  String.ltb now endDate = true ->
  let d' := snd (insertMessage now d message) in
  Message.created_at row = now
  /\ (exists u : User.t,
        users d !! Message.user_id message = Some u
        /\ (row, u) ∈ getMessagesForDateRange d' (Message.chat_id message) startDate endDate)
  /\ (forall (later : Z) (again : Message.t),
        Message.chat_id again = Message.chat_id message ->
        Message.message_id again = Message.message_id message ->
        is_throw (fst (insertMessage (CURRENT_TIMESTAMP later) d' again)) = true
        /\ snd (insertMessage (CURRENT_TIMESTAMP later) d' again) = d').
Proof.
  intros now startDate endDate Hok Hlo Hhi. unfold insertMessage in *.
  destruct (existsb _ (messages d)) eqn:Hex; [discriminate|].
  simpl in *.
  destruct (chats d !! Message.chat_id message) as [c|] eqn:Hc; [|discriminate].
  destruct (users d !! Message.user_id message) as [u|] eqn:Hu; [|discriminate].
  simpl in *. injection Hok as <-.
  split; [reflexivity|]. split.
  - exists u. split; [reflexivity|].
    apply elem_of_getMessagesForDateRange. simpl.
    split; [apply elem_of_app; right; apply list_elem_of_singleton; reflexivity|].
    repeat split; assumption.
  - intros later again Hchat Hid.
    assert (Hdup : existsb (same_message_key (with_created_at (CURRENT_TIMESTAMP later) again))
                     (messages d ++ [with_created_at now message]) = true).
    { rewrite existsb_app. apply orb_true_iff. right. simpl.
      unfold same_message_key. simpl. rewrite Hchat, Hid, !String.eqb_refl. reflexivity. }
    rewrite Hdup. split; reflexivity.
Qed.

(** X5. [deleteChatData] removes the chat's row and every message of the
    chat, so every range query of the chat is empty; messages of other chats
    stay, in their order, and so do all users and all transcripts, those of
    the deleted messages included. *)
Theorem deleteChatData_effect (d : Db) (chatId : string) :
  let d' := deleteChatData d chatId in
  getChat d' chatId = None
  /\ (forall m : Message.t,
        m ∈ messages d' <-> m ∈ messages d /\ Message.chat_id m <> chatId)
  /\ (forall startDate endDate : string,
        getMessagesForDateRange d' chatId startDate endDate = [])
  /\ (forall k : string, k <> chatId -> getChat d' k = getChat d k)
  /\ users d' = users d
  /\ transcripts d' = transcripts d.
Proof.
  unfold deleteChatData, getChat. simpl.
  split; [apply lookup_delete_eq|].
  assert (Hmem : forall m : Message.t,
             m ∈ List.filter (fun m => negb (String.eqb (Message.chat_id m) chatId))
                   (messages d)
             <-> m ∈ messages d /\ Message.chat_id m <> chatId).
  { intros m. rewrite elem_of_filter_bool, negb_true_iff, String.eqb_neq. reflexivity. }
  split; [exact Hmem|]. split.
  - intros startDate endDate.
    destruct (getMessagesForDateRange _ chatId startDate endDate) as [|r rs] eqn:E;
      [reflexivity|].
    assert (Hr : r ∈ r :: rs) by apply list_elem_of_here.
    rewrite <- E in Hr.
    apply elem_of_getMessagesForDateRange in Hr as (Hm & _ & Hc & _).
    simpl in Hm. apply Hmem in Hm as [_ Hne]. contradiction.
  - split; [intros k Hk; apply lookup_delete_ne; congruence|].
    split; reflexivity.
Qed.

(** X6. [getSetting] after [setSetting] gives the value back, except that an
    empty string, though stored, reads as [null]; other keys read as before
    and a key never set reads as [null]. *)
Theorem getSetting_setSetting (settings : gmap string string) (key value : string) :
  getSetting (setSetting settings key value) key
  = (if String.eqb value "" then None else Some value)
  /\ setSetting settings key value !! key = Some value
  /\ (forall k : string, k <> key ->
        getSetting (setSetting settings key value) k = getSetting settings k)
  /\ getSetting ∅ key = None.
Proof.
  unfold getSetting, setSetting.
  rewrite lookup_insert_eq. simpl.
  split; [destruct (String.eqb value ""); reflexivity|].
  split; [reflexivity|]. split.
  - intros k Hk. rewrite lookup_insert_ne by congruence. reflexivity.
  - rewrite lookup_empty. reflexivity.
Qed.

(** ** The cron expression of a valid time *)

(** What the pattern accepts, as hour and minute. *)
Lemma validateTimeFormat_shape (time : string) :
  validateTimeFormat time = true -> is_report_time time.
Proof.
  intros H. apply RegexFacts.matches_lang in H.
  apply lang_seq_inv in H as (s1 & s2 & -> & H1 & H2).
  apply hour_part in H1 as (h & Hh & Hs1).
  apply minute_part in H2 as (m & Hm & ->).
  exists h, m. split; [exact Hh|]. split; [exact Hm|].
  destruct Hs1 as [-> | [Hh9 ->]]; [left | right; split; [exact Hh9|]]; reflexivity.
Qed.

(** The expression depends on [Number] only at the parts of the time
    between colons. *)
Lemma cronExpression_ext (f g : string -> string) (time : string) :
  (forall p : string, In p (split_on ":" time) -> f p = g p) ->
  cronExpression f time = cronExpression g time.
Proof.
  intros H. unfold cronExpression.
  rewrite (map_ext_in f g (split_on ":" time) H). reflexivity.
Qed.

(** Every time of day, in both spellings of the hour where it has two, is
    cut at the colon into two non-empty digit strings, and with the
    reference [Number] its expression is the minute and the hour in decimal,
    which the reference validator accepts: run on the 1440 times of a day. *)
Lemma cron_every_time :
  forallb
    (fun h =>
       forallb
         (fun m =>
            let check (s : string) :=
              forallb (fun p => negb (String.eqb p "") && all_digits p) (split_on ":" s)
              && String.eqb (cronExpression numberString_ref s)
                   (natToString m +:+ " " +:+ natToString h +:+ " * * *")
              && cronValidate_ref (cronExpression numberString_ref s) in
            check (two_digits h +:+ ":" +:+ two_digits m)
            && (if (h <=? 9)%nat then check (one_digit h +:+ ":" +:+ two_digits m)
                else true))
         (seq 0 60))
    (seq 0 24) = true.
Proof. vm_compute. reflexivity. Qed.

(** X13. A time that [validateTimeFormat] accepts always gives a well-formed
    cron expression: when [Number] reads a string of digits as its decimal
    value, the expression is the minute and the hour of the time in decimal
    without leading zeros, followed by three stars, and the reference
    validator accepts it. *)
Theorem cronExpression_of_valid_time (numberString : string -> string) (time : string) :
  (forall p : string, p <> "" -> all_digits p = true ->
     numberString p = numberString_ref p) ->
  validateTimeFormat time = true ->
  exists h m : nat,
    (h <= 23)%nat /\ (m <= 59)%nat
    /\ (time = two_digits h +:+ ":" +:+ two_digits m
        \/ ((h <= 9)%nat /\ time = one_digit h +:+ ":" +:+ two_digits m))
    /\ cronExpression numberString time
       = natToString m +:+ " " +:+ natToString h +:+ " * * *"
    /\ cronValidate_ref (cronExpression numberString time) = true.
Proof.
  intros Hnum Hvalid.
  destruct (validateTimeFormat_shape time Hvalid) as (h & m & Hh & Hm & Hs).
  exists h, m. split; [exact Hh|]. split; [exact Hm|]. split; [exact Hs|].
  pose proof cron_every_time as H.
  rewrite forallb_forall in H. specialize (H h ltac:(apply in_seq; lia)).
  rewrite forallb_forall in H. specialize (H m ltac:(apply in_seq; lia)).
  cbv zeta in H. apply andb_true_iff in H as [H2 H1].
  assert (Hcheck :
    forallb (fun p => negb (String.eqb p "") && all_digits p) (split_on ":" time)
    && String.eqb (cronExpression numberString_ref time)
         (natToString m +:+ " " +:+ natToString h +:+ " * * *")
    && cronValidate_ref (cronExpression numberString_ref time) = true).
  { destruct Hs as [-> | [Hh9 ->]]; [exact H2|].
    apply Nat.leb_le in Hh9. rewrite Hh9 in H1. exact H1. }
  apply andb_true_iff in Hcheck as [Hcheck Hval].
  apply andb_true_iff in Hcheck as [Hparts Hexpr].
  rewrite forallb_forall in Hparts. apply String.eqb_eq in Hexpr.
  assert (Hsame : cronExpression numberString time = cronExpression numberString_ref time).
  { apply cronExpression_ext. intros p Hp.
    specialize (Hparts p Hp). apply andb_true_iff in Hparts as [Hne Hdig].
    apply Hnum; [|exact Hdig].
    intros ->. discriminate. }
  rewrite Hsame. split; [exact Hexpr | exact Hval].
Qed.

Lemma cronExpression_of_valid_time_witness :
  exists h m : nat,
    (h <= 23)%nat /\ (m <= 59)%nat
    /\ ("9:05" = two_digits h +:+ ":" +:+ two_digits m
        \/ ((h <= 9)%nat /\ "9:05" = one_digit h +:+ ":" +:+ two_digits m))
    /\ cronExpression numberString_ref "9:05"
       = natToString m +:+ " " +:+ natToString h +:+ " * * *"
    /\ cronValidate_ref (cronExpression numberString_ref "9:05") = true.
Proof.
  apply (cronExpression_of_valid_time numberString_ref "9:05").
  - intros p _ _. reflexivity.
  - reflexivity.
Defined.

(** ** Runs on concrete data *)

Lemma sample_tokyoIdle_keys (k : string) (c : Chat.t) :
  chats (db Sample.tokyoIdle) !! k = Some c -> Chat.chat_id c = k.
Proof.
  simpl. intros H. apply lookup_singleton_Some in H as [<- <-]. reflexivity.
Qed.

Lemma demo_scheduled_has_job : cronJobs Demo.scheduled <> ∅.
Proof.
  intros H. assert (E : cronJobs Demo.scheduled !! "-100" = Some 0) by reflexivity.
  rewrite H, lookup_empty in E. discriminate.
Qed.

Lemma initialize_registers_active_chats_witness :
  registry_sound (initialWorld Demo.store)
  /\ length (liveTimers "-100"
               (snd (initialize numberString_ref cronValidate_ref Demo.scheduleNeverThrows
                       (initialWorld Demo.store)))) = 1
  /\ length (liveTimers "-100" Demo.scheduled) = 1
  /\ length (liveTimers "-100"
               (snd (initialize numberString_ref cronValidate_ref Demo.scheduleNeverThrows
                       Demo.scheduled))) = 0.
Proof.
  split; [apply registry_sound_initial|].
  destruct (initialize_registers_active_chats numberString_ref cronValidate_ref
              Demo.scheduleNeverThrows (initialWorld Demo.store)
              (registry_sound_initial Demo.store) demo_store_keys)
    as (_ & _ & Hfresh & _).
  destruct (initialize_registers_active_chats numberString_ref cronValidate_ref
              Demo.scheduleNeverThrows Demo.scheduled
              demo_scheduled_sound demo_store_keys)
    as (_ & _ & Hagain & _).
  split; [rewrite (Hfresh "-100" Demo.chat); vm_compute; reflexivity|].
  split; [vm_compute; reflexivity|].
  rewrite (Hagain "-100" Demo.chat); vm_compute; reflexivity.
Defined.

Lemma stopAll_outcome_witness :
  registry_sound Demo.scheduled
  /\ length (liveTimers "-100" Demo.scheduled) = 1
  /\ fst (stopAll Demo.scheduled) = Throw "job.destroy is not a function"
  /\ cronJobs (snd (stopAll Demo.scheduled)) !! "-100" = Some 0
  /\ liveTimers "-100" (snd (stopAll Demo.scheduled)) = [].
Proof.
  split; [exact demo_scheduled_sound|]. split; [vm_compute; reflexivity|].
  destruct (stopAll_outcome Demo.scheduled demo_scheduled_sound) as (_ & H & _).
  destruct (H demo_scheduled_has_job) as (Hthrow & Hmap & c & job & Hjob & Hnone & _).
  split; [exact Hthrow|]. split; [rewrite Hmap; reflexivity|].
  simpl in Hjob. apply lookup_singleton_Some in Hjob as [<- _]. exact Hnone.
Defined.

Lemma restart_outcome_witness :
  registry_sound Demo.scheduled
  /\ fst (restart numberString_ref cronValidate_ref Demo.scheduleNeverThrows Demo.scheduled)
     = Throw "job.destroy is not a function"
  /\ length (tasks (snd (restart numberString_ref cronValidate_ref
                           Demo.scheduleNeverThrows Demo.scheduled))) = 1
  /\ length (liveTimers "-100"
               (snd (restart numberString_ref cronValidate_ref Demo.scheduleNeverThrows
                       (initialWorld Demo.store)))) = 1.
Proof.
  split; [exact demo_scheduled_sound|].
  destruct (restart_outcome numberString_ref cronValidate_ref Demo.scheduleNeverThrows
              Demo.scheduled demo_scheduled_sound demo_store_keys) as (_ & H).
  destruct (H demo_scheduled_has_job) as (Hthrow & _ & _ & Hlen).
  split; [exact Hthrow|]. split; [rewrite Hlen; reflexivity|].
  destruct (restart_outcome numberString_ref cronValidate_ref Demo.scheduleNeverThrows
              (initialWorld Demo.store) (registry_sound_initial Demo.store)
              demo_store_keys) as (Hfresh & _).
  destruct (Hfresh eq_refl) as (_ & Hcount).
  rewrite (Hcount "-100"). vm_compute. reflexivity.
Defined.

Lemma unscheduleChat_outcome_witness :
  registry_sound Demo.scheduled
  /\ length (liveTimers "-100" Demo.scheduled) = 1
  /\ fst (unscheduleChat "-100" Demo.scheduled) = Throw "job.destroy is not a function"
  /\ cronJobs (snd (unscheduleChat "-100" Demo.scheduled)) !! "-100" = Some 0
  /\ liveTimers "-100" (snd (unscheduleChat "-100" Demo.scheduled)) = []
  /\ fire (JsDate.fixed 0) Demo.backendDown 0 Demo.evening16
       (snd (unscheduleChat "-100" Demo.scheduled))
     = (Ok tt, snd (unscheduleChat "-100" Demo.scheduled)).
Proof.
  split; [exact demo_scheduled_sound|]. split; [vm_compute; reflexivity|].
  pose proof (unscheduleChat_outcome (JsDate.fixed 0) Demo.backendDown "-100"
                Demo.scheduled demo_scheduled_sound) as H.
  cbv zeta in H.
  assert (E : cronJobs Demo.scheduled !! "-100" = Some 0) by reflexivity.
  rewrite E in H. destruct H as (Hthrow & Hmap & Hnone & _ & Hfire & _).
  split; [exact Hthrow|]. split; [rewrite Hmap; exact E|].
  split; [exact Hnone | apply Hfire].
Defined.

Lemma updateChatSchedule_outcome_witness :
  registry_sound (initialWorld Demo.store)
  /\ length (liveTimers "-100"
               (snd (updateChatSchedule numberString_ref cronValidate_ref
                       Demo.scheduleNeverThrows "-100" (initialWorld Demo.store)))) = 1
  /\ length (liveTimers "-100"
               (snd (updateChatSchedule numberString_ref cronValidate_ref
                       Demo.scheduleNeverThrows "-100" Demo.scheduled))) = 0.
Proof.
  split; [apply registry_sound_initial|].
  destruct (updateChatSchedule_outcome numberString_ref cronValidate_ref
              Demo.scheduleNeverThrows "-100" (initialWorld Demo.store)
              (registry_sound_initial Demo.store) demo_store_keys) as (Hfresh & _).
  destruct (updateChatSchedule_outcome numberString_ref cronValidate_ref
              Demo.scheduleNeverThrows "-100" Demo.scheduled
              demo_scheduled_sound demo_store_keys) as (Hagain & _).
  split; [rewrite Hfresh | rewrite Hagain]; vm_compute; reflexivity.
Defined.

Lemma getStatus_lists_live_chats_witness :
  registry_ok Demo.scheduled
  /\ activeJobs (getStatus Demo.scheduled) = 1%nat
  /\ "-100" ∈ scheduledChats (getStatus Demo.scheduled).
Proof.
  split; [exact demo_scheduled_ok|].
  destruct (getStatus_lists_live_chats Demo.scheduled demo_scheduled_ok)
    as (Hn & _ & H & _).
  split; [rewrite Hn; vm_compute; reflexivity|].
  apply H. vm_compute. reflexivity.
Defined.

Lemma generateDailySummary_surfaces_backend_error_witness :
  llmProvider Sample.generativeCached = Some OpenAIProvider
  /\ fst (generateDailySummary (JsDate.fixed 0) Demo.backendFails "-100" Demo.noon Sample.generativeCached)
     = Throw "429 You exceeded your current quota"
  /\ fst (executeManualReport (JsDate.fixed 0) Demo.backendFails "-100" (Some Demo.noon) Demo.noon
            Sample.generativeCached)
     = Throw "429 You exceeded your current quota".
Proof.
  split; [reflexivity|].
  destruct (generateDailySummary_surfaces_backend_error (JsDate.fixed 0) Demo.backendFails "-100"
              Demo.noon Demo.chat Sample.generativeCached
              "429 You exceeded your current quota")
    as (H1 & _ & _ & _ & H2).
  - vm_compute. reflexivity.
  - vm_compute. discriminate.
  - reflexivity.
  - reflexivity.
  - split; [exact H1 | exact H2].
Defined.

Lemma processAudioMessage_stores_transcript_witness :
  getTranscript (db (initialWorld Demo.store)) "7" "file-7" = None
  /\ fst (processAudioMessage Sample.limit Sample.whisperWorks "file-7" "7" "/tmp/7.oga"
            (Some 3%Z) (initialWorld Demo.store))
     = Ok (Some "good morning")
  /\ exists tr : Transcript.t,
       getTranscript
         (db (snd (processAudioMessage Sample.limit Sample.whisperWorks "file-7" "7"
                     "/tmp/7.oga" (Some 3%Z) (initialWorld Demo.store)))) "7" "file-7"
       = Some tr
       /\ Transcript.transcript_text tr = "good morning".
Proof.
  split; [vm_compute; reflexivity|].
  destruct (processAudioMessage_stores_transcript Sample.limit Sample.whisperWorks
              "file-7" "7" "/tmp/7.oga" "/tmp/7.oga.mp3" "good morning" 1024%Z (Some 3%Z)
              (initialWorld Demo.store))
    as (H1 & (tr & Htr & Htext & _) & _).
  - vm_compute. reflexivity.
  - reflexivity.
  - vm_compute. discriminate.
  - vm_compute. reflexivity.
  - reflexivity.
  - discriminate.
  - split; [exact H1|]. exists tr. split; [exact Htr | exact Htext].
Defined.

Lemma processAudioMessage_stores_nothing_witness :
  getTranscript (db (initialWorld Demo.store)) "7" "file-7" = None
  /\ fst (processAudioMessage Sample.limit Demo.backendDown "file-7" "7" "/tmp/7.oga"
            (Some 3%Z) (initialWorld Demo.store)) = Ok None
  /\ db (snd (processAudioMessage Sample.limit Demo.backendDown "file-7" "7" "/tmp/7.oga"
                (Some 3%Z) (initialWorld Demo.store))) = Demo.store.
Proof.
  split; [vm_compute; reflexivity|].
  destruct (processAudioMessage_stores_nothing Sample.limit Demo.backendDown
              "file-7" "7" "/tmp/7.oga" (Some 3%Z) (initialWorld Demo.store))
    as (_ & H & _).
  - vm_compute. reflexivity.
  - destruct (H 1024%Z "/tmp/7.oga.mp3" "Connection error.") as (H1 & H2 & _).
    + reflexivity.
    + vm_compute. discriminate.
    + vm_compute. reflexivity.
    + reflexivity.
    + split; [exact H1 | exact H2].
Defined.

Lemma settime_outcome_witness :
  registry_sound Sample.tokyoIdle
  /\ Chat.report_time
       <$> getChat (db (snd (settime numberString_ref cronValidate_ref
                               Demo.scheduleNeverThrows Demo.backendDown Sample.tgChat
                               "/settime 9:30" Sample.tokyoIdle))) "-100"
     = Some "9:30"
  /\ length (liveTimers "-100"
               (snd (settime numberString_ref cronValidate_ref Demo.scheduleNeverThrows
                       Demo.backendDown Sample.tgChat "/settime 9:30"
                       Sample.tokyoIdle))) = 1
  /\ forall t : ScheduledTask,
       t ∈ liveTimers "-100"
             (snd (settime numberString_ref cronValidate_ref Demo.scheduleNeverThrows
                     Demo.backendDown Sample.tgChat "/settime 9:30"
                     Sample.tokyoIdle)) ->
       task_expression t = "30 9 * * *" /\ task_timezone t = "Asia/Tokyo".
Proof.
  split; [apply registry_sound_initial|].
  pose proof (settime_outcome numberString_ref cronValidate_ref Demo.scheduleNeverThrows
                Demo.backendDown Sample.tgChat "/settime 9:30" Sample.tokyoIdle
                (registry_sound_initial _) sample_tokyoIdle_keys) as H.
  cbv zeta in H.
  change (tl (split_on " " "/settime 9:30")) with ["9:30"] in H.
  change (validateTimeFormat "9:30") with true in H. cbv iota in H.
  destruct (H Demo.chat_tokyo eq_refl) as (Hrow & Hcount & Htask).
  split; [exact (f_equal (fmap Chat.report_time) Hrow)|].
  split; [refine (eq_trans Hcount _); vm_compute; reflexivity|].
  intros t Ht. destruct (Htask t Ht) as [He Hz]. split; [exact He | exact Hz].
Defined.

Lemma insertMessage_round_trip_witness :
  CURRENT_TIMESTAMP Demo.noon = "2024-01-15 12:00:00"
  /\ JsDate.toISOString (startOfDay Sample.moscow Demo.noon) = "2024-01-14T21:00:00.000Z"
  /\ JsDate.toISOString (endOfDay Sample.moscow Demo.noon) = "2024-01-15T20:59:59.999Z"
  /\ (with_created_at "2024-01-15 12:00:00" Sample.voiceNote, Demo.alice)
     ∈ getMessagesForDateRange
         (snd (insertMessage "2024-01-15 12:00:00" Demo.emptyStore Sample.voiceNote))
         "-100" "2024-01-14T21:00:00.000Z" "2024-01-15T20:59:59.999Z".
Proof.
  split; [vm_compute; reflexivity|]. split; [vm_compute; reflexivity|].
  split; [vm_compute; reflexivity|].
  destruct (insertMessage_round_trip Demo.noon
              (startOfDay Sample.moscow Demo.noon) (endOfDay Sample.moscow Demo.noon)
              Demo.emptyStore Sample.voiceNote
              (with_created_at "2024-01-15 12:00:00" Sample.voiceNote))
    as (_ & (u & Hu & Hin) & _).
  - vm_compute. reflexivity.
  - vm_compute. reflexivity.
  - vm_compute. reflexivity.
  - assert (E : Demo.alice = u) by (vm_compute in Hu; injection Hu as Hu'; exact Hu').
    rewrite E. exact Hin.
Defined.
